(** * crush: VCS status, the todos tool and the todo pills

    A shallow embedding of the Go sources
    - [internal/vcs] (the package listing carried by DESIGN.md): [getGitStatus],
    - [internal/agent/tools/todos.go] and its later variant with response
      metadata: the handler built by [NewTodosTool],
    - [internal/tui/page/chat/pills.go] and its earlier variant: [todoPill],
      [sortTodos], [todoList], [queueList], [queuePill], [addPillSpacing],
    - the rest of [internal/vcs]: [findVCSRoot], the detectors and
      [getJujutsuStatus], and [internal/tui/util/vcs.go]: [VCSInfo],
    together with the message queue, context window manager and job registry
    that the design document describes.

    Go strings are byte strings: [string] here is a list of bytes, [len] is
    [String.length], and white space is what [unicode.IsSpace] says of the
    runes that package utf8 decodes from the bytes.  Go [int] values that
    occur are lengths and counters; the counters of the handlers are [nat],
    the [Status] counts are [Z]. *)

From Stdlib Require Import String Ascii List Arith NArith ZArith Lia Permutation.
From Stdlib Require Import DecimalString DecimalNat.
From stdpp Require Import base option list gmap strings.

Local Open Scope string_scope.

(* ===================================================================== *)
(** ** Go's [strings] and [fmt] on byte strings *)
(* ===================================================================== *)

Module GoStrings.

(** *** Package utf8 *)

Definition RuneError : N := 0xFFFD.
Definition RuneSelf : N := 0x80.
Definition UTFMax : nat := 4.

(** The lowest and the highest continuation byte. *)
Definition locb : N := 0x80.
Definition hicb : N := 0xBF.

Definition byte (c : ascii) : N := N_of_ascii c.

(** What the table [first] says of a first byte: [as_] for ASCII, [xx] for a
    byte that starts no encoding, and for the others the size of the
    encoding with the range that [acceptRanges] gives for the second byte. *)
Inductive firstInfo : Type :=
| as_
| xx
| sz (size : nat) (lo hi : N).

Definition first (b : N) : firstInfo :=
  if N.ltb b 0x80 then as_
  else if N.ltb b 0xC2 then xx
  else if N.ltb b 0xE0 then sz 2 locb hicb
  else if N.eqb b 0xE0 then sz 3 0xA0 hicb
  else if N.ltb b 0xED then sz 3 locb hicb
  else if N.eqb b 0xED then sz 3 locb 0x9F
  else if N.ltb b 0xF0 then sz 3 locb hicb
  else if N.eqb b 0xF0 then sz 4 0x90 hicb
  else if N.ltb b 0xF4 then sz 4 locb hicb
  else if N.eqb b 0xF4 then sz 4 locb 0x8F
  else xx.

(** [s0&mask<<k | ...]: the bits of a rune of two, three and four bytes. *)
Definition rune2 (s0 s1 : N) : N :=
  N.lor (N.shiftl (N.land s0 0x1F) 6) (N.land s1 0x3F).

Definition rune3 (s0 s1 s2 : N) : N :=
  N.lor (N.lor (N.shiftl (N.land s0 0x0F) 12) (N.shiftl (N.land s1 0x3F) 6))
        (N.land s2 0x3F).

Definition rune4 (s0 s1 s2 s3 : N) : N :=
  N.lor (N.lor (N.lor (N.shiftl (N.land s0 0x07) 18) (N.shiftl (N.land s1 0x3F) 12))
               (N.shiftl (N.land s2 0x3F) 6))
        (N.land s3 0x3F).

(** utf8.DecodeRuneInString: the first rune of [s] and its width in bytes;
    [(RuneError, 1)] for a byte that starts no valid encoding, which includes
    an encoding the text ends in ([n < sz]), and [(RuneError, 0)] for the
    empty text. *)
Definition DecodeRuneInString (s : string) : N * nat :=
  match s with
  | EmptyString => (RuneError, 0)
  | String c0 t0 =>
      let s0 := byte c0 in
      match first s0 with
      | as_ => (s0, 1)
      | xx => (RuneError, 1)
      | sz size lo hi =>
          match t0 with
          | EmptyString => (RuneError, 1)
          | String c1 t1 =>
              let s1 := byte c1 in
              if N.ltb s1 lo || N.ltb hi s1 then (RuneError, 1)
              else if Nat.leb size 2 then (rune2 s0 s1, 2)
              else
                match t1 with
                | EmptyString => (RuneError, 1)
                | String c2 t2 =>
                    let s2 := byte c2 in
                    if N.ltb s2 locb || N.ltb hicb s2 then (RuneError, 1)
                    else if Nat.leb size 3 then (rune3 s0 s1 s2, 3)
                    else
                      match t2 with
                      | EmptyString => (RuneError, 1)
                      | String c3 _ =>
                          let s3 := byte c3 in
                          if N.ltb s3 locb || N.ltb hicb s3 then (RuneError, 1)
                          else (rune4 s0 s1 s2 s3, 4)
                      end
                end
          end
      end
  end.

(** utf8.RuneStart: the byte is no continuation byte. *)
Definition RuneStart (b : N) : bool := negb (N.eqb (N.land b 0xC0) 0x80).

(** [s[i]], for an index inside the text. *)
Definition at_ (s : string) (i : nat) : N :=
  match String.get i s with
  | Some c => byte c
  | None => 0%N
  end.

(** [s[i:]] and [s[:i]], for an index that is at most the length. *)
Fixpoint from (i : nat) (s : string) : string :=
  match i, s with
  | S i', String _ s' => from i' s'
  | _, _ => s
  end.

Fixpoint upto (i : nat) (s : string) : string :=
  match i, s with
  | S i', String c s' => String c (upto i' s')
  | _, _ => EmptyString
  end.

(** The loop of DecodeLastRuneInString that steps back from [start] to the
    nearest byte that starts a rune, no further than [lim]; it runs at most
    [UTFMax] times. *)
Fixpoint backToRuneStart (n : nat) (s : string) (lim start : Z) : Z :=
  match n with
  | O => start
  | S n' =>
      if Z.ltb start lim then start
      else if RuneStart (at_ s (Z.to_nat start)) then start
      else backToRuneStart n' s lim (start - 1)
  end.

(** utf8.DecodeLastRuneInString: the last rune of [s] and its width. *)
Definition DecodeLastRuneInString (s : string) : N * nat :=
  let end_ := Z.of_nat (String.length s) in
  if Z.eqb end_ 0 then (RuneError, 0)
  else
    let start := (end_ - 1)%Z in
    let r := at_ s (Z.to_nat start) in
    if N.ltb r RuneSelf then (r, 1)
    else
      let lim := (end_ - Z.of_nat UTFMax)%Z in
      let lim := if Z.ltb lim 0 then 0%Z else lim in
      let start := backToRuneStart UTFMax s lim (start - 1) in
      let start := if Z.ltb start 0 then 0%Z else start in
      let '(r, size) := DecodeRuneInString (from (Z.to_nat start) s) in
      if Z.eqb (start + Z.of_nat size) end_ then (r, size) else (RuneError, 1).

(** *** Package unicode *)

(** unicode.IsSpace: the white space of Latin-1, and beyond it the runes of
    the table White_Space. *)
Definition IsSpace (r : N) : bool :=
  if N.leb r 0xFF
  then N.eqb r 0x09 || N.eqb r 0x0A || N.eqb r 0x0B || N.eqb r 0x0C || N.eqb r 0x0D
       || N.eqb r 0x20 || N.eqb r 0x85 || N.eqb r 0xA0
  else N.eqb r 0x1680
       || (N.leb 0x2000 r && N.leb r 0x200A)
       || (N.leb 0x2028 r && N.leb r 0x2029)
       || N.eqb r 0x202F || N.eqb r 0x205F || N.eqb r 0x3000.

(** *** Package strings *)

(** strings.TrimLeftFunc: [for i, r := range s] up to the first rune that [f]
    rejects, from which on the text is returned; the empty text when [f]
    accepts every rune.  The loop reads at most [len(s)] runes. *)
Fixpoint trimLeftLoop (f : N -> bool) (n : nat) (s : string) : string :=
  match n with
  | O => EmptyString
  | S n' =>
      match s with
      | EmptyString => EmptyString
      | _ =>
          let '(r, size) := DecodeRuneInString s in
          if f r then trimLeftLoop f n' (from size s) else s
      end
  end.

Definition TrimLeftFunc (s : string) (f : N -> bool) : string :=
  trimLeftLoop f (String.length s) s.

(** strings.TrimRightFunc: the runes are read from the end, with
    DecodeLastRuneInString, down to the last rune that [f] rejects; the text
    up to the end of that rune is returned, and the empty text when [f]
    accepts every rune. *)
Fixpoint trimRightLoop (f : N -> bool) (n : nat) (s : string) : string :=
  match n with
  | O => EmptyString
  | S n' =>
      match s with
      | EmptyString => EmptyString
      | _ =>
          let '(r, size) := DecodeLastRuneInString s in
          if f r then trimRightLoop f n' (upto (String.length s - size) s) else s
      end
  end.

Definition TrimRightFunc (s : string) (f : N -> bool) : string :=
  trimRightLoop f (String.length s) s.

(** strings.TrimFunc *)
Definition TrimFunc (s : string) (f : N -> bool) : string :=
  TrimRightFunc (TrimLeftFunc s f) f.

(** strings.TrimSpace: all leading and trailing white space removed, as
    defined by Unicode.  (The loops over ASCII bytes it starts with hand over
    to [TrimFunc(s, unicode.IsSpace)] at the first byte from 0x80 on, and give
    what [TrimFunc] gives when there is none.) *)
Definition TrimSpace (s : string) : string := TrimFunc s IsSpace.

(** [if start >= 0 { spans = append(spans, span{start, end}) }]: the field
    being read, if one is, comes before the fields that follow. *)
Definition closeField (cur : string) (fields : list string) : list string :=
  match cur with
  | EmptyString => fields
  | _ => cur :: fields
  end.

(** strings.FieldsFunc: [for end, rune := range s], with [cur] the text from
    [start] to [end] when a field is being read ([start >= 0]) and empty
    otherwise; a rune that [f] accepts closes the field, and the end of the
    text closes the last one.  The loop reads at most [len(s)] runes. *)
Fixpoint fieldsLoop (f : N -> bool) (n : nat) (cur s : string) : list string :=
  match n with
  | O => closeField cur []
  | S n' =>
      match s with
      | EmptyString => closeField cur []
      | _ =>
          let '(r, size) := DecodeRuneInString s in
          if f r then closeField cur (fieldsLoop f n' EmptyString (from size s))
          else fieldsLoop f n' (cur ++ upto size s) (from size s)
      end
  end.

Definition FieldsFunc (s : string) (f : N -> bool) : list string :=
  fieldsLoop f (String.length s) EmptyString s.

(** strings.Fields: the text split around each run of white space, as defined
    by unicode.IsSpace.  (Its loop over ASCII bytes gives what
    [FieldsFunc(s, unicode.IsSpace)] gives, to which it hands over when a byte
    is from 0x80 on.) *)
Definition Fields (s : string) : list string := FieldsFunc s IsSpace.

(** The verb %d of fmt.Sprintf on a non-negative int. *)
Definition fmtD (n : nat) : string := NilZero.string_of_uint (Nat.to_uint n).

(** Go's [len] on a string, as an int. *)
Definition len (s : string) : Z := Z.of_nat (String.length s).

Definition digitVal (c : ascii) : option nat :=
  let n := nat_of_ascii c in
  if Nat.leb 48 n && Nat.leb n 57 then Some (n - 48) else None.

Fixpoint atoiFrom (acc : nat) (s : string) : option nat :=
  match s with
  | EmptyString => Some acc
  | String c s' =>
      match digitVal c with
      | Some d => atoiFrom (10 * acc + d) s'
      | None => None
      end
  end.

(** The integer a decimal field denotes (strconv.Atoi on an unsigned
    numeral); [None] on the empty string and on a non-digit. *)
Definition atoi (s : string) : option Z :=
  match s with
  | EmptyString => None
  | _ => Z.of_nat <$> atoiFrom 0 s
  end.

End GoStrings.

(* ===================================================================== *)
(** ** Package vcs: [getGitStatus] *)
(* ===================================================================== *)

Module VCS.
Import GoStrings.

Record Status := mkStatus {
  HasUncommitted : bool;
  HasUntracked : bool;
  HasConflicts : bool;
  HasStaged : bool;
  AheadCount : Z;
  BehindCount : Z;
  CurrentBranch : string;
  IsDetached : bool;
  HasUnpushed : bool;
  RemoteTrackingOK : bool
}.

(** [Status{}] *)
Definition zeroStatus : Status :=
  mkStatus false false false false 0 0 "" false false false.

(** What the git commands run by [getGitStatus] answer in a repository.
    [cmd.Output()] is [Some stdout] when [err == nil]; [cmd.Run()] is [true]
    when [err == nil]. *)
Record GitRepo := mkGitRepo {
  symbolic_ref_short_HEAD : option string;
  rev_parse_short_HEAD : option string;
  diff_name_only_unmerged : option string;
  diff_cached_quiet : bool;
  diff_quiet : bool;
  ls_files_others : option string;
  rev_list_left_right_count : option string
}.

Definition setBranch (b : string) (d : bool) (s : Status) : Status :=
  mkStatus (HasUncommitted s) (HasUntracked s) (HasConflicts s) (HasStaged s)
           (AheadCount s) (BehindCount s) b d (HasUnpushed s) (RemoteTrackingOK s).

Definition setHasConflicts (s : Status) : Status :=
  mkStatus (HasUncommitted s) (HasUntracked s) true (HasStaged s)
           (AheadCount s) (BehindCount s) (CurrentBranch s) (IsDetached s)
           (HasUnpushed s) (RemoteTrackingOK s).

Definition setHasStaged (s : Status) : Status :=
  mkStatus (HasUncommitted s) (HasUntracked s) (HasConflicts s) true
           (AheadCount s) (BehindCount s) (CurrentBranch s) (IsDetached s)
           (HasUnpushed s) (RemoteTrackingOK s).

Definition setHasUncommitted (s : Status) : Status :=
  mkStatus true (HasUntracked s) (HasConflicts s) (HasStaged s)
           (AheadCount s) (BehindCount s) (CurrentBranch s) (IsDetached s)
           (HasUnpushed s) (RemoteTrackingOK s).

Definition setHasUntracked (s : Status) : Status :=
  mkStatus (HasUncommitted s) true (HasConflicts s) (HasStaged s)
           (AheadCount s) (BehindCount s) (CurrentBranch s) (IsDetached s)
           (HasUnpushed s) (RemoteTrackingOK s).

Definition setRemoteTrackingOK (s : Status) : Status :=
  mkStatus (HasUncommitted s) (HasUntracked s) (HasConflicts s) (HasStaged s)
           (AheadCount s) (BehindCount s) (CurrentBranch s) (IsDetached s)
           (HasUnpushed s) true.

(** [status.AheadCount = n; status.HasUnpushed = true] *)
Definition setAhead (n : Z) (s : Status) : Status :=
  mkStatus (HasUncommitted s) (HasUntracked s) (HasConflicts s) (HasStaged s)
           n (BehindCount s) (CurrentBranch s) (IsDetached s)
           true (RemoteTrackingOK s).

Definition setBehind (n : Z) (s : Status) : Status :=
  mkStatus (HasUncommitted s) (HasUntracked s) (HasConflicts s) (HasStaged s)
           (AheadCount s) n (CurrentBranch s) (IsDetached s)
           (HasUnpushed s) (RemoteTrackingOK s).

Definition nonEmptyOutput (o : option string) : bool :=
  match o with
  | Some out => Z.ltb 0 (len (TrimSpace out))
  | None => false
  end.

(** The block under "Get ahead/behind counts if we have a tracking branch". *)
Definition aheadBehind (r : GitRepo) (status : Status) : Status :=
  if negb (IsDetached status) && negb (String.eqb (CurrentBranch status) "")
  then
    match rev_list_left_right_count r with
    | Some output =>
        let status := setRemoteTrackingOK status in
        match Fields (TrimSpace output) with
        | [p0; p1] =>
            let ahead := TrimSpace p0 in
            let status :=
              if negb (String.eqb ahead "0") then setAhead (len ahead) status
              else status in
            let behind := TrimSpace p1 in
            if negb (String.eqb behind "0") then setBehind (len behind) status
            else status
        | _ => status
        end
    | None => status
    end
  else status.

Definition getGitStatus (r : GitRepo) : Status :=
  let status := zeroStatus in
  let status :=
    match symbolic_ref_short_HEAD r with
    | Some output => setBranch (TrimSpace output) (IsDetached status) status
    | None =>
        match rev_parse_short_HEAD r with
        | Some output => setBranch (TrimSpace output) true status
        | None => status
        end
    end in
  let status :=
    if nonEmptyOutput (diff_name_only_unmerged r) then setHasConflicts status
    else status in
  let status := if diff_cached_quiet r then status else setHasStaged status in
  let status := if diff_quiet r then status else setHasUncommitted status in
  let status :=
    if nonEmptyOutput (ls_files_others r) then setHasUntracked status
    else status in
  aheadBehind r status.

(** A clean checkout of branch main whose upstream comparison prints
    "12<TAB>3": twelve commits ahead, three behind. *)
Definition repo_12_3 : GitRepo :=
  mkGitRepo (Some ("main" ++ String (ascii_of_nat 10) ""))
            None (Some "") true true (Some "")
            (Some ("12" ++ String (ascii_of_nat 9) ("3" ++ String (ascii_of_nat 10) ""))).

End VCS.

(* ===================================================================== *)
(** ** Go's [for i, x := range l] *)
(* ===================================================================== *)

Module GoLoops.

(** The loop [for i, x := range l { s = body i x s }], entered with the index
    at [i]. *)
Fixpoint rangeFrom {A St : Type} (i : nat) (body : nat -> A -> St -> St)
  (l : list A) (s : St) : St :=
  match l with
  | [] => s
  | x :: l' => rangeFrom (S i) body l' (body i x s)
  end.

Definition forRange {A St : Type} (body : nat -> A -> St -> St) (l : list A) (s : St) : St :=
  rangeFrom 0 body l s.

(** The loop [for j := lo; j < hi; j++ { s = body j s }]. *)
Definition forUpTo {St : Type} (lo hi : nat) (body : nat -> St -> St) (s : St) : St :=
  foldl (fun s j => body j s) s (seq lo (hi - lo)).

End GoLoops.

(* ===================================================================== *)
(** ** Package session, as far as the tool and the pills use it *)
(* ===================================================================== *)

Module Session.

(** [type TodoStatus string] *)
Definition TodoStatus : Type := string.

(** Modelled from the spec: the three [TodoStatus] constants of package
    session, whose file is not among the sources; their values are the ones
    the [status] parameter of the todos tool documents ("pending,
    in_progress, or completed"). *)
Definition TodoStatusPending : TodoStatus := "pending".

(** Modelled from the spec: the constant for a todo in progress (see
    [TodoStatusPending]). *)
Definition TodoStatusInProgress : TodoStatus := "in_progress".

(** Modelled from the spec: the constant for a completed todo (see
    [TodoStatusPending]). *)
Definition TodoStatusCompleted : TodoStatus := "completed".

Record Todo := mkTodo {
  Content : string;
  Status : TodoStatus;
  ActiveForm : string
}.

(** [session.Todo{}] *)
Definition zeroTodo : Todo := mkTodo "" "" "".

(** A session: its todo list, and everything else it carries ([Other]: the
    identity, title, counters and time stamps, which neither the tool nor the
    pills read). *)
Record Session (Other : Type) := mkSession {
  other : Other;
  Todos : list Todo
}.
Arguments mkSession {Other} _ _.
Arguments other {Other} _.
Arguments Todos {Other} _.

(** [s.Todos = todos] *)
Definition setTodos {Other : Type} (todos : list Todo) (s : Session Other) : Session Other :=
  mkSession (other s) todos.

(** Go's [error], by its message. *)
Definition error : Type := string.

(** A Go result pair [(x, err)]: [inl msg] when [err != nil]. *)
Definition Result (A : Type) : Type := (error + A)%type.

(** [session.Service], as far as the tool calls it, over a store of the
    implementation's choice.  [Get] is a query: it answers from the store.
    [Save] answers and leaves a new store. *)
Class Service (Other Store : Type) := {
  Get : string -> Store -> Result (Session Other);
  Save : Session Other -> Store -> Result (Session Other) * Store
}.

End Session.

(* ===================================================================== *)
(** ** charm.land/fantasy, as far as the tool uses it *)
(* ===================================================================== *)

Module Fantasy.

(** [fantasy.ToolResponse]: the fields the tool sets.  The library keeps the
    metadata as its JSON text; here it is the value that is encoded. *)
Record ToolResponse (M : Type) := mkToolResponse {
  Type_ : string;
  Content : string;
  Metadata : option M
}.
Arguments mkToolResponse {M} _ _ _.
Arguments Type_ {M} _.
Arguments Content {M} _.
Arguments Metadata {M} _.

Definition NewTextResponse {M : Type} (content : string) : ToolResponse M :=
  mkToolResponse "text" content None.

Definition WithResponseMetadata {M : Type} (r : ToolResponse M) (metadata : M) : ToolResponse M :=
  mkToolResponse (Type_ r) (Content r) (Some metadata).

End Fantasy.

(* ===================================================================== *)
(** ** Package tools: the todos tool *)
(* ===================================================================== *)

Module Tools.
Import GoStrings GoLoops.

Record TodoItem := mkTodoItem {
  Content : string;
  Status : string;
  ActiveForm : string
}.

Record TodosParams := mkTodosParams {
  Todos : list TodoItem
}.

Record TodosResponseMetadata := mkTodosResponseMetadata {
  IsNew : bool;
  JustCompleted : list string;
  JustStarted : string;
  Completed : nat;
  Total : nat
}.

(** A [context.Context], by what [GetSessionFromContext] reads from it: the
    session ID, empty when the context carries none. *)
Record Context := mkContext {
  GetSessionFromContext : string
}.

Definition ToolResponse : Type := Fantasy.ToolResponse TodosResponseMetadata.

(** The newline byte. *)
Definition nl : string := String (ascii_of_nat 10) EmptyString.

(** [fmt.Errorf(msg + ": %w", err)] *)
Definition wrapError (msg : string) (err : Session.error) : Session.error :=
  msg ++ ": " ++ err.

(** A handler is a program over the two calls of [session.Service]; each
    call hands its result pair to the rest of the handler. *)
Inductive Prog (Other A : Type) : Type :=
| Ret (a : A)
| DoGet (id : string) (k : Session.Result (Session.Session Other) -> Prog Other A)
| DoSave (s : Session.Session Other) (k : Session.Result (Session.Session Other) -> Prog Other A).
Arguments Ret {Other A} _.
Arguments DoGet {Other A} _ _.
Arguments DoSave {Other A} _ _.

(** The calls a run makes, with their arguments. *)
Inductive Call (Other : Type) : Type :=
| CallGet (id : string)
| CallSave (s : Session.Session Other).
Arguments CallGet {Other} _.
Arguments CallSave {Other} _.

(** Runs a handler against a service and a store: its result, the store it
    leaves, and the calls it made, in order. *)
Fixpoint run {Other Store A : Type} `{!Session.Service Other Store}
  (p : Prog Other A) (st : Store) : A * Store * list (Call Other) :=
  match p with
  | Ret a => (a, st, [])
  | DoGet id k =>
      let '(a, st', calls) := run (k (Session.Get id st)) st in
      (a, st', CallGet id :: calls)
  | DoSave s k =>
      let '(r, st1) := Session.Save s st in
      let '(a, st', calls) := run (k r) st1 in
      (a, st', CallSave s :: calls)
  end.

(** [session.Todo{Content: item.Content, Status: session.TodoStatus(item.Status),
    ActiveForm: item.ActiveForm}] *)
Definition toTodo (item : TodoItem) : Session.Todo :=
  Session.mkTodo (Content item) (Status item) (ActiveForm item).

(** The summary line of the response. *)
Definition statusLine (pendingCount inProgressCount completedCount : nat) : string :=
  "Status: " ++ fmtD pendingCount ++ " pending, " ++ fmtD inProgressCount
  ++ " in progress, " ++ fmtD completedCount ++ " completed" ++ nl.

Definition responseHead : string := "Todo list updated successfully." ++ nl ++ nl.

(** *** todos.go *)
Module Todos.

(** [todos := make([]session.Todo, len(params.Todos))] and the loop that
    fills it. *)
Definition convertTodos (items : list TodoItem) : list Session.Todo :=
  forRange (fun i item todos => <[i := toTodo item]> todos) items
           (replicate (length items) Session.zeroTodo).

(** The switch of the counting loop, on (pending, in progress, completed). *)
Definition countTodo (todo : Session.Todo) (c : nat * nat * nat) : nat * nat * nat :=
  let '(pendingCount, inProgressCount, completedCount) := c in
  if String.eqb (Session.Status todo) Session.TodoStatusPending
  then (S pendingCount, inProgressCount, completedCount)
  else if String.eqb (Session.Status todo) Session.TodoStatusInProgress
  then (pendingCount, S inProgressCount, completedCount)
  else if String.eqb (Session.Status todo) Session.TodoStatusCompleted
  then (pendingCount, inProgressCount, S completedCount)
  else c.

Definition countTodos (todos : list Session.Todo) : nat * nat * nat :=
  forRange (fun _ todo c => countTodo todo c) todos (0, 0, 0).

Definition buildResponse (todos : list Session.Todo) : string :=
  let '(pendingCount, inProgressCount, completedCount) := countTodos todos in
  responseHead ++ statusLine pendingCount inProgressCount completedCount.

(** The handler [NewTodosTool] registers. *)
Definition NewTodosTool {Other : Type} (ctx : Context) (params : TodosParams)
  : Prog Other (Session.Result ToolResponse) :=
  let sessionID := GetSessionFromContext ctx in
  if String.eqb sessionID ""
  then Ret (inl "session ID is required for managing todos")
  else
    DoGet sessionID (fun got =>
      match got with
      | inl err => Ret (inl (wrapError "failed to get session" err))
      | inr currentSession =>
          let todos := convertTodos (Todos params) in
          let currentSession := Session.setTodos todos currentSession in
          DoSave currentSession (fun saved =>
            match saved with
            | inl err => Ret (inl (wrapError "failed to save todos" err))
            | inr _ => Ret (inr (Fantasy.NewTextResponse (buildResponse todos)))
            end)
      end).

End Todos.

(** *** The variant with response metadata *)
Module TodosMeta.

(** [oldStatusByContent]: the loop over [currentSession.Todos]. *)
Definition oldStatusByContent (old : list Session.Todo) : gmap string Session.TodoStatus :=
  forRange (fun _ todo m => <[Session.Content todo := Session.Status todo]> m) old ∅.

(** What the conversion loop carries. *)
Record Conv := mkConv {
  todos : list Session.Todo;
  justCompleted : list string;
  justStarted : string;
  completedCount : nat
}.

(** One round of the conversion loop. *)
Definition convertItem (old : gmap string Session.TodoStatus)
  (i : nat) (item : TodoItem) (c : Conv) : Conv :=
  let todos := <[i := toTodo item]> (todos c) in
  let newStatus : Session.TodoStatus := Status item in
  let existed := bool_decide (is_Some (old !! Content item)) in
  let oldStatus := default "" (old !! Content item) in
  let '(completedCount, justCompleted) :=
    if String.eqb newStatus Session.TodoStatusCompleted
    then (S (completedCount c),
          if existed && negb (String.eqb oldStatus Session.TodoStatusCompleted)
          then (justCompleted c ++ [Content item])%list
          else justCompleted c)
    else (completedCount c, justCompleted c) in
  let justStarted :=
    if String.eqb newStatus Session.TodoStatusInProgress
    then if negb existed || negb (String.eqb oldStatus Session.TodoStatusInProgress)
         then if negb (String.eqb (ActiveForm item) "") then ActiveForm item
              else Content item
         else justStarted c
    else justStarted c in
  mkConv todos justCompleted justStarted completedCount.

Definition convertTodos (old : gmap string Session.TodoStatus) (items : list TodoItem) : Conv :=
  forRange (convertItem old) items
           (mkConv (replicate (length items) Session.zeroTodo) [] "" 0).

(** The switch of the second loop, on (pending, in progress). *)
Definition countTodo (todo : Session.Todo) (c : nat * nat) : nat * nat :=
  let '(pendingCount, inProgressCount) := c in
  if String.eqb (Session.Status todo) Session.TodoStatusPending
  then (S pendingCount, inProgressCount)
  else if String.eqb (Session.Status todo) Session.TodoStatusInProgress
  then (pendingCount, S inProgressCount)
  else c.

Definition countTodos (todos : list Session.Todo) : nat * nat :=
  forRange (fun _ todo c => countTodo todo c) todos (0, 0).

Definition buildResponse (c : Conv) : string :=
  let '(pendingCount, inProgressCount) := countTodos (todos c) in
  responseHead ++ statusLine pendingCount inProgressCount (completedCount c).

Definition NewTodosTool {Other : Type} (ctx : Context) (params : TodosParams)
  : Prog Other (Session.Result ToolResponse) :=
  let sessionID := GetSessionFromContext ctx in
  if String.eqb sessionID ""
  then Ret (inl "session ID is required for managing todos")
  else
    DoGet sessionID (fun got =>
      match got with
      | inl err => Ret (inl (wrapError "failed to get session" err))
      | inr currentSession =>
          let isNew := Nat.eqb (length (Session.Todos currentSession)) 0 in
          let old := oldStatusByContent (Session.Todos currentSession) in
          let c := convertTodos old (Todos params) in
          let currentSession := Session.setTodos (todos c) currentSession in
          DoSave currentSession (fun saved =>
            match saved with
            | inl err => Ret (inl (wrapError "failed to save todos" err))
            | inr _ =>
                let metadata :=
                  mkTodosResponseMetadata isNew (justCompleted c) (justStarted c)
                                          (completedCount c) (length (todos c)) in
                Ret (inr (Fantasy.WithResponseMetadata
                            (Fantasy.NewTextResponse (buildResponse c)) metadata))
            end)
      end).

End TodosMeta.

(** The two handlers the sources carry under the name [NewTodosTool]. *)
Inductive Version : Type := Current | WithMetadata.

Definition handler {Other : Type} (v : Version) (ctx : Context) (params : TodosParams)
  : Prog Other (Session.Result ToolResponse) :=
  match v with
  | Current => Todos.NewTodosTool ctx params
  | WithMetadata => TodosMeta.NewTodosTool ctx params
  end.

End Tools.

(* ===================================================================== *)
(** ** charm.land/lipgloss and the theme, as far as the pills use them *)
(* ===================================================================== *)

Module Lipgloss.

(** The styling library is an interface here: styles are built by its
    setters and turned into text by [Render]. *)
Class Lipgloss := {
  Style : Type;
  Color : Type;
  Border : Type;
  RoundedBorder : Border;
  HiddenBorder : Border;
  PaddingLeft : Style -> nat -> Style;
  PaddingRight : Style -> nat -> Style;
  BorderStyle : Style -> Border -> Style;
  BorderForeground : Style -> Color -> Style;
  Foreground : Style -> Color -> Style;
  Render : Style -> string -> string
}.

(** [styles.Theme]: [t.S().Base] and the colours the todo pill reads. *)
Record Theme `{Lipgloss} := mkTheme {
  Base : Style;
  Green : Color;
  FgSubtle : Color;
  FgMuted : Color;
  BgOverlay : Color
}.

End Lipgloss.

(* ===================================================================== *)
(** ** Package chat: the todo pill and the order of the todo list *)
(* ===================================================================== *)

Module Chat.
Import GoStrings GoLoops Session Lipgloss.

Definition bytes (l : list nat) : string :=
  fold_right (fun n s => String (ascii_of_nat n) s) EmptyString l.

(** The UTF-8 encodings of U+2713 (check mark), U+2026 (ellipsis) and
    U+2234 (therefore). *)
Definition checkMark : string := bytes [226; 156; 147].
Definition ellipsis : string := bytes [226; 128; 166].
Definition therefore : string := bytes [226; 136; 180].

(** The loop of [todoPill]: the number of completed todos and the first todo
    in progress ([currentTodo], [None] for nil). *)
Definition scanTodo (todo : Todo) (c : nat * option Todo) : nat * option Todo :=
  let '(completed, currentTodo) := c in
  if String.eqb (Status todo) TodoStatusCompleted
  then (S completed, currentTodo)
  else if String.eqb (Status todo) TodoStatusInProgress
  then match currentTodo with
       | None => (completed, Some todo)
       | Some _ => c
       end
  else c.

Definition scanTodos (todos : list Todo) : nat * option Todo :=
  forRange (fun _ todo c => scanTodo todo c) todos (0, None).

(** [fmt.Sprintf("%d/%d", completed, total)] *)
Definition progressText (completed total : nat) : string :=
  fmtD completed ++ "/" ++ fmtD total.

(** The text shown for the current todo, cut to 40 bytes. *)
Definition taskTextOf (currentTodo : Todo) : string :=
  let taskText := Content currentTodo in
  let taskText :=
    if negb (String.eqb (ActiveForm currentTodo) "") then ActiveForm currentTodo
    else taskText in
  if Nat.ltb 40 (String.length taskText)
  then substring 0 39 taskText ++ ellipsis
  else taskText.

Section Pills.
Context `{Lipgloss}.

(** *** pills.go *)

(** The value of [content] in [todoPill]. *)
Definition todoPillContent (todos : list Todo) (spinnerView : string)
  (pillsPanelFocused : bool) (t : Theme) : string :=
  let '(completed, currentTodo) := scanTodos todos in
  let total := length todos in
  let allDone := Nat.eqb completed total in
  let prefix :=
    if allDone then Render (Foreground (Base t) (Green t)) checkMark ++ " "
    else "" in
  let label := "To-Do" in
  let progress := progressText completed total in
  if pillsPanelFocused then prefix ++ label ++ " " ++ progress
  else match currentTodo with
       | Some cur =>
           let task := Render (Foreground (Base t) (FgSubtle t)) (taskTextOf cur) in
           spinnerView ++ " " ++ label ++ " " ++ progress ++ "  " ++ task
       | None => prefix ++ label ++ " " ++ progress
       end.

(** The value of [style] in [todoPill]. *)
Definition todoPillStyle (focused pillsPanelFocused : bool) (t : Theme) : Style :=
  let style := PaddingRight (PaddingLeft (Base t) 1) 1 in
  if negb pillsPanelFocused || focused
  then BorderForeground (BorderStyle style RoundedBorder) (BgOverlay t)
  else BorderStyle style HiddenBorder.

Definition todoPill (todos : list Todo) (spinnerView : string)
  (focused pillsPanelFocused : bool) (t : Theme) : string :=
  if Nat.eqb (length todos) 0 then ""
  else Render (todoPillStyle focused pillsPanelFocused t)
              (todoPillContent todos spinnerView pillsPanelFocused t).

(** *** The earlier pills file *)

Definition todoPillContent0 (todos : list Todo) (spinnerView : string) (t : Theme) : string :=
  let '(completed, currentTodo) := scanTodos todos in
  let total := length todos in
  let label := Render (Foreground (Base t) (FgMuted t)) "To-Do" in
  let progress := Render (Foreground (Base t) (FgMuted t)) (progressText completed total) in
  match currentTodo with
  | Some cur =>
      let task := Render (Foreground (Base t) (FgSubtle t)) (taskTextOf cur) in
      spinnerView ++ " " ++ label ++ " " ++ progress ++ "  " ++ task
  | None =>
      let icon := Render (Foreground (Base t) (FgMuted t)) therefore in
      icon ++ " " ++ label ++ " " ++ progress
  end.

Definition todoPillStyle0 (t : Theme) : Style :=
  PaddingRight (PaddingLeft
    (BorderForeground (BorderStyle (Base t) RoundedBorder) (BgOverlay t)) 1) 1.

Definition todoPill0 (todos : list Todo) (spinnerView : string) (t : Theme) : string :=
  if Nat.eqb (length todos) 0 then ""
  else Render (todoPillStyle0 t) (todoPillContent0 todos spinnerView t).

End Pills.

(** *** sortTodos *)

Definition statusOrder (s : TodoStatus) : nat :=
  if String.eqb s TodoStatusCompleted then 0
  else if String.eqb s TodoStatusInProgress then 1
  else 2.

(** The body of the inner loop: compare the todos at [i] and [j] and exchange
    them when the first ranks after the second.  The loops keep both indices
    inside the slice; outside it Go would panic, and the model leaves the
    slice as it is. *)
Definition exchange (i j : nat) (todos : list Todo) : list Todo :=
  match todos !! i, todos !! j with
  | Some a, Some b =>
      if Nat.ltb (statusOrder (Status b)) (statusOrder (Status a))
      then <[j := a]> (<[i := b]> todos)
      else todos
  | _, _ => todos
  end.

Definition sortTodos (todos : list Todo) : list Todo :=
  forUpTo 0 (length todos - 1)
    (fun i todos => forUpTo (i + 1) (length todos) (fun j todos => exchange i j todos) todos)
    todos.

End Chat.

(* ===================================================================== *)
(** ** The message queue and the coordinator's registry (design, 4.1-4.3) *)
(* ===================================================================== *)

Module MessageQueue.

(** Modelled from the spec: a QueueEntry, "a pending user action (new message
    or cancellation request)"; the queue's code is not among the sources. *)
Inductive QueueEntry : Type :=
| NewMessage (text : string)
| CancelRequest.

(** Modelled from the spec: the Message Queue of one session, "an ordered
    sequence of QueueEntries plus a boolean turn-in-progress flag", with the
    Turn Engine executions it has started and that have not reached a terminal
    state ([active], each by the entry that triggered it), and whether
    Shutdown has begun to reject admission ([closed]). *)
Record Queue := mkQueue {
  entries : list QueueEntry;
  inProgress : bool;
  active : list QueueEntry;
  closed : bool
}.

(** Modelled from the spec: what StartOrGetSession allocates, "a new Message
    Queue and idle Turn Engine". *)
Definition idle : Queue := mkQueue [] false [] false.

(** Modelled from the spec: dequeue the next entry and start a Turn on it,
    when an entry waits. *)
Definition startNext (q : Queue) : Queue :=
  match entries q with
  | e :: rest => mkQueue rest true (active q ++ [e]) (closed q)
  | [] => q
  end.

(** Modelled from the spec: "Enqueue(entry): appends; if no turn is in
    progress, immediately dequeues and starts one"; a queue that Shutdown
    drains rejects further admission. *)
Definition Enqueue (e : QueueEntry) (q : Queue) : Queue :=
  if closed q then q
  else
    let q := mkQueue (entries q ++ [e]) (inProgress q) (active q) (closed q) in
    if inProgress q then q else startNext q.

(** Modelled from the spec: "OnTurnComplete(): called by the Turn Engine on
    terminal state; clears the in-progress flag and, if entries remain,
    dequeues the next one and starts a new Turn".  The execution that reports
    is the oldest active one; it leaves [active] as it reaches its terminal
    state. *)
Definition OnTurnComplete (q : Queue) : Queue :=
  startNext (mkQueue (entries q) false (tail (active q)) (closed q)).

(** Modelled from the spec: the first half of Shutdown, which "drains the
    queue (rejecting further admission)". *)
Definition drain (q : Queue) : Queue :=
  mkQueue [] (inProgress q) (active q) true.

(** Modelled from the spec: what can happen to the coordinator's registry,
    one step at a time; steps of different callers interleave in any order
    (each runs under the session's lock). *)
Inductive Event : Type :=
| StartOrGetSession (id : string)
| Submit (id : string) (input : QueueEntry)
| TurnTerminal (id : string)
| ShutdownBegin (id : string)
| ShutdownEvict (id : string).

(** Modelled from the spec: the Coordinator's registry and its steps.
    [Submit] on an unknown session fails and changes nothing; a Turn reports
    its terminal state only while it is active; Shutdown "waits for the active
    Turn to reach a terminal state, and evicts the registry entry". *)
Definition step (sys : gmap string Queue) (ev : Event) : gmap string Queue :=
  match ev with
  | StartOrGetSession id =>
      match sys !! id with
      | Some _ => sys
      | None => <[id := idle]> sys
      end
  | Submit id input =>
      match sys !! id with
      | Some q => <[id := Enqueue input q]> sys
      | None => sys
      end
  | TurnTerminal id =>
      match sys !! id with
      | Some q =>
          match active q with
          | _ :: _ => <[id := OnTurnComplete q]> sys
          | [] => sys
          end
      | None => sys
      end
  | ShutdownBegin id =>
      match sys !! id with
      | Some q => <[id := drain q]> sys
      | None => sys
      end
  | ShutdownEvict id =>
      match sys !! id with
      | Some q =>
          if closed q && negb (inProgress q) then delete id sys else sys
      | None => sys
      end
  end.

(** The registry after a history of events, from the empty registry. *)
Definition after (history : list Event) : gmap string Queue :=
  foldl step ∅ history.

(** The number of Turn Engine executions active for a session. *)
Definition activeTurns (sys : gmap string Queue) (id : string) : nat :=
  match sys !! id with
  | Some q => length (active q)
  | None => 0
  end.

End MessageQueue.

(* ===================================================================== *)
(** ** The context window manager (design, 4.5) *)
(* ===================================================================== *)

Module ContextWindow.

Inductive Role : Type := User | Assistant | System | ToolResult.

(** Modelled from the spec: a Message, "role, ordered content parts, optional
    tool-call requests, optional token-size estimate", with the identifier a
    summary retains of it; the manager's code is not among the sources.
    [awaiting] says that one of its ToolCalls still awaits its result. *)
Record Message := mkMessage {
  ident : nat;
  role : Role;
  content : list string;
  awaiting : bool;
  size : nat;
  replaces : list nat
}.

(** Modelled from the spec: the running size estimate, the "sum of
    per-Message token-size estimates". *)
Definition estimate (log : list Message) : nat :=
  foldr (fun m n => size m + n) 0 log.

(** The messages before the first one that awaits a tool result. *)
Fixpoint settled (log : list Message) : list Message :=
  match log with
  | [] => []
  | m :: rest => if awaiting m then [] else m :: settled rest
  end.

Section Manager.
(** The high-water threshold, the number K of recent messages kept, and the
    summarization request to the LLM collaborator ([None] when it fails). *)
Variables (threshold K : nat) (summarize : list Message -> option Message).

(** Modelled from the spec: "the oldest contiguous run of Messages excluding
    the most recent K", never reaching "a ToolCall still awaiting its result". *)
Definition oldestRun (log : list Message) : list Message :=
  settled (take (length log - K) log).

(** Modelled from the spec: the overflow policy.  "When estimated size exceeds
    a high-water threshold", the run is replaced by "a single summary Message"
    spliced "in place of the originals", with the "identifiers of replaced
    Messages retained in the summary's metadata"; a failed summarization
    request leaves "the un-summarized history". *)
Definition compact (log : list Message) : list Message :=
  if Nat.ltb threshold (estimate log)
  then
    match oldestRun log with
    | [] => log
    | run =>
        match summarize run with
        | Some s =>
            mkMessage (ident s) (role s) (content s) (awaiting s) (size s)
                      (map ident run)
            :: drop (length run) log
        | None => log
        end
    end
  else log.

(** Modelled from the spec: a Message is appended and the log compacted when
    the manager signals overflow. *)
Definition append (log : list Message) (m : Message) : list Message :=
  compact (log ++ [m]).

(** The log after a sequence of appends. *)
Definition appendAll (log : list Message) (ms : list Message) : list Message :=
  foldl append log ms.

End Manager.

(** The [k] most recent messages of a log. *)
Definition mostRecent (k : nat) (log : list Message) : list Message :=
  drop (length log - k) log.

End ContextWindow.

(* ===================================================================== *)
(** ** The job registry of the tool executor (design, 4.4) *)
(* ===================================================================== *)

Module Jobs.

(** Modelled from the spec: a BackgroundJob, "identifier, owning session,
    process/command handle, running/exited state, buffered output" (the
    identifier is its key in the registry); the executor's code is not among
    the sources. *)
Record BackgroundJob := mkJob {
  owner : string;
  command : string;
  running : bool;
  output : string
}.

(** What a JobKill tool call returns. *)
Inductive KillResult : Type :=
| Success
| Failure (e : string).

Section Registry.
(** What JobKill answers when the registry holds no job of that identifier;
    the design leaves it open. *)
Variable unknownJob : KillResult.

(** Modelled from the spec: JobKill, "looked up in the shared job registry";
    "killing an already-exited job is a no-op, not an error".  Killing a
    running job leaves it exited; a job stays in the registry until it is
    reaped. *)
Definition JobKill (jobID : string) (reg : gmap string BackgroundJob)
  : KillResult * gmap string BackgroundJob :=
  match reg !! jobID with
  | None => (unknownJob, reg)
  | Some j =>
      if running j
      then (Success, <[jobID := mkJob (owner j) (command j) false (output j)]> reg)
      else (Success, reg)
  end.

End Registry.

End Jobs.

(* ===================================================================== *)
(** ** A session service in memory *)
(* ===================================================================== *)

Module MemoryService.

(** Sessions kept in a map by their ID; what a session carries besides its
    todos is that ID.  [Get] fails on an ID the map does not hold. *)
#[global] Instance memoryService
  : Session.Service string (gmap string (Session.Session string)) := {
  Get id st :=
    match st !! id with
    | Some s => inr s
    | None => inl "session not found"
    end;
  Save s st := (inr s, <[Session.other s := s]> st)
}.

Definition oneSession : gmap string (Session.Session string) :=
  {[ "s1" := Session.mkSession "s1"
               [Session.mkTodo "write tests" Session.TodoStatusInProgress "Writing tests"] ]}.

Definition sampleParams : Tools.TodosParams :=
  Tools.mkTodosParams
    [Tools.mkTodoItem "write tests" "completed" "Writing tests";
     Tools.mkTodoItem "fix the build" "in_progress" "";
     Tools.mkTodoItem "tag a release" "pending" "Tagging a release";
     Tools.mkTodoItem "celebrate" "later" ""].

End MemoryService.

(* ===================================================================== *)
(** ** A renderer of plain text *)
(* ===================================================================== *)

Module TextRenderer.

Fixpoint spaces (n : nat) : string :=
  match n with
  | 0 => EmptyString
  | S n' => String " " (spaces n')
  end.

(** A styling library without colours and borders: a style is its left and
    right padding, and rendering pads the text with spaces. *)
Definition textLipgloss : Lipgloss.Lipgloss := {|
  Lipgloss.Style := nat * nat;
  Lipgloss.Color := unit;
  Lipgloss.Border := unit;
  Lipgloss.RoundedBorder := tt;
  Lipgloss.HiddenBorder := tt;
  Lipgloss.PaddingLeft := fun st n => (n, snd st);
  Lipgloss.PaddingRight := fun st n => (fst st, n);
  Lipgloss.BorderStyle := fun st _ => st;
  Lipgloss.BorderForeground := fun st _ => st;
  Lipgloss.Foreground := fun st _ => st;
  Lipgloss.Render := fun st s => spaces (fst st) ++ s ++ spaces (snd st)
|}.

Definition textTheme : @Lipgloss.Theme textLipgloss :=
  @Lipgloss.mkTheme textLipgloss (0, 0) tt tt tt tt.

Definition twoTodos : list Session.Todo :=
  [Session.mkTodo "write tests" Session.TodoStatusCompleted "Writing tests";
   Session.mkTodo "fix the build" Session.TodoStatusInProgress "Fixing the build"].

End TextRenderer.

(* ===================================================================== *)
(** ** Package vcs: detection *)
(* ===================================================================== *)

Module VCSDetect.
Import GoStrings.

(** A cleaned absolute path, by its components from the innermost one: the
    root is [[]], and [/home/u/repo] is [["repo"; "u"; "home"]]. *)
Definition Path : Type := list string.

(** filepath.Join(path, name) *)
Definition Join (path : Path) (name : string) : Path := name :: path.

(** filepath.Dir: the parent; the root is its own parent. *)
Definition Dir (path : Path) : Path := tail path.

(** filepath.Base: the last component, "/" for the root. *)
Definition Base (path : Path) : string :=
  match path with
  | name :: _ => name
  | [] => "/"
  end.

(** strings.Contains *)
Fixpoint Contains (s substr : string) : bool :=
  if String.prefix substr s then true
  else match s with
       | EmptyString => false
       | String _ s' => Contains s' substr
       end.

(** [type Type string] and its constants. *)
Definition Type_ : Type := string.
Definition TypeGit : Type_ := "git".
Definition TypeJujutsu : Type_ := "jj".
Definition TypeNone : Type_ := "".

(** [Info]; [RootPath] is [None] for the empty string of the zero value. *)
Record Info := mkInfo {
  InfoType : Type_;
  RepoName : string;
  RootPath : option Path;
  InfoStatus : VCS.Status
}.

(** [Info{Type: TypeNone}], which is also [Info{}]. *)
Definition noInfo : Info := mkInfo TypeNone "" None VCS.zeroStatus.

(** What the jj commands run by [getJujutsuStatus] answer in a repository:
    [Some stdout] when [err == nil]. *)
Record JjRepo := mkJjRepo {
  log_branches : option string;
  log_change_id : option string;
  jj_status : option string
}.

(** The machine the detectors run on: [filepath.Abs] ([None] when it fails),
    [os.Stat] ([Some true] for a directory, [Some false] for another file,
    [None] on error), and the answers of git and jj run in a directory. *)
Record Machine := mkMachine {
  Abs : string -> option Path;
  Stat : Path -> option bool;
  gitIn : Path -> VCS.GitRepo;
  jjIn : Path -> JjRepo
}.

(** [Detector.Detect] *)
Definition Detector : Type := string -> Session.Result Info.

(** The loop of [findVCSRoot], entered at [path]; it ends at the root, whose
    parent is the root itself. *)
Fixpoint walkUp (m : Machine) (markerDir : string) (path : Path) : option Path :=
  match Stat m (Join path markerDir) with
  | Some true => Some path
  | _ =>
      match path with
      | [] => None
      | _ :: parent => walkUp m markerDir parent
      end
  end.

(** [findVCSRoot]: [Some root] for [(root, true)], [None] for [("", false)]. *)
Definition findVCSRoot (m : Machine) (startPath markerDir : string) : option Path :=
  match Abs m startPath with
  | None => None
  | Some path => walkUp m markerDir path
  end.

Definition extractRepoName (rootPath : Path) : string := Base rootPath.

(** [gitDetector.Detect].  The block for a [.git] that is not a directory
    reads the file and changes nothing. *)
Definition gitDetect (m : Machine) : Detector := fun path =>
  match findVCSRoot m path ".git" with
  | None => inr noInfo
  | Some rootPath =>
      let gitPath := Join rootPath ".git" in
      match Stat m gitPath with
      | None => inr noInfo
      | Some _ =>
          let status := VCS.getGitStatus (gitIn m rootPath) in
          inr (mkInfo TypeGit (extractRepoName rootPath) (Some rootPath) status)
      end
  end.

Definition setJjBranch (b : string) (s : VCS.Status) : VCS.Status :=
  VCS.setBranch b (VCS.IsDetached s) s.

(** [getJujutsuStatus] *)
Definition getJujutsuStatus (r : JjRepo) : VCS.Status :=
  let status := VCS.zeroStatus in
  let status :=
    match log_branches r with
    | Some output =>
        let branches := TrimSpace output in
        if negb (String.eqb branches "")
        then match Fields branches with
             | b :: _ => setJjBranch b status
             | [] => status
             end
        else status
    | None => status
    end in
  let status :=
    if String.eqb (VCS.CurrentBranch status) ""
    then match log_change_id r with
         | Some output =>
             let changeID := TrimSpace output in
             if negb (String.eqb changeID "") then setJjBranch changeID status
             else status
         | None => status
         end
    else status in
  match jj_status r with
  | Some statusOutput =>
      let status :=
        if Contains statusOutput "Working copy changes:"
        then VCS.setHasUncommitted status else status in
      if Contains statusOutput "conflict" then VCS.setHasConflicts status
      else status
  | None => status
  end.

(** [jujutsuDetector.Detect] *)
Definition jujutsuDetect (m : Machine) : Detector := fun path =>
  match findVCSRoot m path ".jj" with
  | None => inr noInfo
  | Some rootPath =>
      let status := getJujutsuStatus (jjIn m rootPath) in
      inr (mkInfo TypeJujutsu (extractRepoName rootPath) (Some rootPath) status)
  end.

(** [detector.Detect]: the first detector that finds a repository. *)
Fixpoint detectFirst (detectors : list Detector) (path : string) : Session.Result Info :=
  match detectors with
  | [] => inr noInfo
  | det :: rest =>
      match det path with
      | inl err => inl err
      | inr info =>
          if negb (String.eqb (InfoType info) TypeNone) then inr info
          else detectFirst rest path
      end
  end.

(** [NewDetector]: Git, then Jujutsu. *)
Definition NewDetector (m : Machine) : list Detector := [gitDetect m; jujutsuDetect m].

(** [NewDetector().Detect(path)] *)
Definition Detect (m : Machine) (path : string) : Session.Result Info :=
  detectFirst (NewDetector m) path.

End VCSDetect.

(* ===================================================================== *)
(** ** Package styles: the icons *)
(* ===================================================================== *)

Module Icons.

Definition utf8 (l : list nat) : string :=
  fold_right (fun n s => String (ascii_of_nat n) s) EmptyString l.

(** U+2713, U+2717, U+25CF, U+2716, U+2191, U+2193, U+2195, "?", U+26A0. *)
Definition GitCleanIcon : string := utf8 [226; 156; 147].
Definition GitDirtyIcon : string := utf8 [226; 156; 151].
Definition GitStagedIcon : string := utf8 [226; 151; 143].
Definition GitConflictIcon : string := utf8 [226; 156; 150].
Definition GitUnpushedIcon : string := utf8 [226; 134; 145].
Definition GitBehindIcon : string := utf8 [226; 134; 147].
Definition GitDivergentIcon : string := utf8 [226; 134; 149].
Definition GitUntrackedIcon : string := "?".
Definition GitDetachedIcon : string := utf8 [226; 154; 160].

(** U+25B6, the triangle of the queue pill, and U+2022, the bullet. *)
Definition triangle : string := utf8 [226; 150; 182].
Definition bullet : string := utf8 [226; 128; 162].

End Icons.

(* ===================================================================== *)
(** ** Package util: [VCSInfo] *)
(* ===================================================================== *)

Module Util.
Import Lipgloss VCSDetect Icons.

(** [styles.Theme], as far as [VCSInfo], [todoList], [queueList] and
    [queuePill] read it: the styles [t.S().Base] and [t.S().Muted] and the
    colours. *)
Record Palette `{Lipgloss} := mkPalette {
  PBase : Style;
  PMuted : Style;
  Error : Color;
  Warning : Color;
  Info_ : Color;
  Success : Color;
  PFgSubtle : Color;
  PFgMuted : Color;
  PFgBase : Color;
  PGreenDark : Color;
  PRedDark : Color;
  PAccent : Color;
  PBgOverlay : Color
}.

Section VCSInfo.
Context `{Lipgloss}.

(** The switch on a Git status: the colour and the icon of the first case
    that holds. *)
Definition gitIcon (t : Palette) (status : VCS.Status) : Color * string :=
  if VCS.HasConflicts status then (Error t, GitConflictIcon)
  else if VCS.IsDetached status then (Warning t, GitDetachedIcon)
  else if VCS.HasStaged status then (Warning t, GitStagedIcon)
  else if VCS.HasUncommitted status then (Warning t, GitDirtyIcon)
  else if VCS.HasUntracked status then (PFgSubtle t, GitUntrackedIcon)
  else if Z.ltb 0 (VCS.AheadCount status) && Z.ltb 0 (VCS.BehindCount status)
  then (Warning t, GitDivergentIcon)
  else if VCS.HasUnpushed status || Z.ltb 0 (VCS.AheadCount status)
  then (Info_ t, GitUnpushedIcon)
  else if Z.ltb 0 (VCS.BehindCount status) then (Info_ t, GitBehindIcon)
  else (Success t, GitCleanIcon).

(** The switch on a Jujutsu status. *)
Definition jjIcon (t : Palette) (status : VCS.Status) : Color * string :=
  if VCS.HasConflicts status then (Error t, GitConflictIcon)
  else if VCS.HasUncommitted status then (Warning t, GitDirtyIcon)
  else (Success t, "jj").

(** [styledIcon] *)
Definition styledIcon (t : Palette) (info : Info) : string :=
  let '(colour, icon) :=
    if String.eqb (InfoType info) TypeGit then gitIcon t (InfoStatus info)
    else if String.eqb (InfoType info) TypeJujutsu then jjIcon t (InfoStatus info)
    else (PFgMuted t, InfoType info) in
  Render (Foreground (PBase t) colour) icon.

(** [displayName] *)
Definition displayName (info : Info) : string :=
  if (String.eqb (InfoType info) TypeGit || String.eqb (InfoType info) TypeJujutsu)
     && negb (String.eqb (VCS.CurrentBranch (InfoStatus info)) "")
  then VCS.CurrentBranch (InfoStatus info)
  else RepoName info.

(** [VCSInfo], on the machine it runs on, with the working directory of the
    configuration and the current theme. *)
Definition VCSInfo (m : Machine) (workingDir : string) (t : Palette) : string :=
  match Detect m workingDir with
  | inl _ => ""
  | inr info =>
      if String.eqb (InfoType info) TypeNone then ""
      else
        let styledName := Render (PMuted t) (displayName info) in
        styledIcon t info ++ " " ++ styledName
  end.

End VCSInfo.

End Util.

(* ===================================================================== *)
(** ** Package chat: the lists, the queue pill and the pill spacing *)
(* ===================================================================== *)

Module ChatPanels.
Import GoStrings GoLoops Session Lipgloss Util Icons.

(** strings.Join *)
Fixpoint Join (elems : list string) (sep : string) : string :=
  match elems with
  | [] => EmptyString
  | a :: rest =>
      match rest with
      | [] => a
      | _ => a ++ sep ++ Join rest sep
      end
  end.

(** The slice expression [s[:n]]: the first [n] elements for [n] up to the
    length; [None] for [n] above the length, where Go panics or, with spare
    capacity, reads what lies beyond the slice. *)
Definition sliceTo {A : Type} (s : list A) (n : nat) : option (list A) :=
  if Nat.leb n (length s) then Some (take n s) else None.

(** [text[:59] + "…"] for a text of more than 60 bytes. *)
Definition cutItem (item : string) : string :=
  if Nat.ltb 60 (String.length item)
  then substring 0 59 item ++ Chat.ellipsis
  else item.

(** [addPillSpacing] *)
Definition addPillSpacing (pills : list string) : list string :=
  if Nat.leb (length pills) 1 then pills
  else
    forRange (fun i pill result =>
                let result := (result ++ [pill])%list in
                if Nat.ltb i (length pills - 1) then (result ++ ["  "])%list else result)
             pills [].

Section Panels.
Context `{Lipgloss}.

(** styles.ForegroundGrad, which is not among the sources: the pieces of the
    text, each in its colour of the gradient. *)
Variable ForegroundGrad : string -> bool -> Color -> Color -> list string.

(** One round of the loop of [todoList]: the line of a todo. *)
Definition todoLine (spinnerView : string) (t : Palette) (todo : Todo) : string :=
  let '(prefix, textStyle) :=
    if String.eqb (Status todo) TodoStatusCompleted
    then (Render (Foreground (PBase t) (PFgMuted t)) ("  " ++ Chat.checkMark) ++ " ",
          Foreground (PBase t) (PFgMuted t))
    else if String.eqb (Status todo) TodoStatusInProgress
    then ("  " ++ spinnerView ++ " ", Foreground (PBase t) (PGreenDark t))
    else (Render (Foreground (PBase t) (PFgMuted t)) ("  " ++ bullet) ++ " ",
          Foreground (PBase t) (PFgBase t)) in
  let text := Content todo in
  let text :=
    if String.eqb (Status todo) TodoStatusInProgress
       && negb (String.eqb (ActiveForm todo) "")
    then ActiveForm todo else text in
  prefix ++ Render textStyle text.

(** [todoList]: the slice is copied, the copy sorted, and a line appended for
    each todo of the copy. *)
Definition todoList (todos : list Todo) (spinnerView : string) (t : Palette) : string :=
  if Nat.eqb (length todos) 0 then ""
  else
    let sorted := Chat.sortTodos todos in
    let lines :=
      forRange (fun _ todo lines => (lines ++ [todoLine spinnerView t todo])%list) sorted [] in
    Join lines Tools.nl.

(** One round of the loop of [queueList]. *)
Definition queueLine (t : Palette) (item : string) : string :=
  let text := cutItem item in
  let prefix := Render (Foreground (PBase t) (PFgMuted t)) ("  " ++ bullet) ++ " " in
  prefix ++ Render (Foreground (PBase t) (PFgMuted t)) text.

(** [queueList] *)
Definition queueList (queueItems : list string) (t : Palette) : string :=
  if Nat.eqb (length queueItems) 0 then ""
  else
    let lines := forRange (fun _ item lines => (lines ++ [queueLine t item])%list) queueItems [] in
    Join lines Tools.nl.

(** The nine triangles of the queue pill. *)
Definition nineTriangles : string :=
  triangle ++ triangle ++ triangle ++ triangle ++ triangle
  ++ triangle ++ triangle ++ triangle ++ triangle.

(** The value of [content] in [queuePill] for a positive [queue]; [None] when
    the slice expression leaves the slice. *)
Definition queuePillContent (queue : Z) (t : Palette) : option string :=
  let triangles := ForegroundGrad nineTriangles false (PRedDark t) (PAccent t) in
  match (if Z.ltb queue 10 then sliceTo triangles (Z.to_nat queue) else Some triangles) with
  | Some triangles =>
      Some (Join triangles "" ++ " " ++ fmtD (Z.to_nat queue) ++ " Queued")
  | None => None
  end.

(** [queuePill] of pills.go; [None] when the slice expression leaves the
    slice. *)
Definition queuePill (queue : Z) (focused pillsPanelFocused : bool) (t : Palette)
  : option string :=
  if Z.leb queue 0 then Some ""
  else
    match queuePillContent queue t with
    | Some content =>
        let style := PaddingRight (PaddingLeft (PBase t) 1) 1 in
        let style :=
          if negb pillsPanelFocused || focused
          then BorderForeground (BorderStyle style RoundedBorder) (PBgOverlay t)
          else BorderStyle style HiddenBorder in
        Some (Render style content)
    | None => None
    end.

(** [queuePill] of the earlier pills file. *)
Definition queuePill0 (queue : Z) (t : Palette) : option string :=
  if Z.leb queue 0 then Some ""
  else
    match queuePillContent queue t with
    | Some content =>
        Some (Render (PaddingRight (PaddingLeft
                (BorderForeground (BorderStyle (PBase t) RoundedBorder) (PBgOverlay t)) 1) 1)
                content)
    | None => None
    end.

End Panels.

End ChatPanels.

(* ===================================================================== *)
(** * The vocabulary of the properties *)
(* ===================================================================== *)

Local Open Scope list_scope.

(** ** Todos *)

(** The number of todos of a given status. *)
Definition countOf (st : Session.TodoStatus) (todos : list Session.Todo) : nat :=
  length (filter (fun t => Session.Status t = st) todos).

(** The sessions a run handed to [Save]. *)
Definition savedSessions {Other : Type} (calls : list (Tools.Call Other))
  : list (Session.Session Other) :=
  omap (fun c => match c with
                 | Tools.CallSave s => Some s
                 | Tools.CallGet _ => None
                 end) calls.

(** The rank [sortTodos] compares: 0 completed, 1 in progress, 2 the rest. *)
Definition rank (t : Session.Todo) : nat := Chat.statusOrder (Session.Status t).

(** No todo comes before one of smaller rank. *)
Definition ordered (l : list Session.Todo) : Prop :=
  forall (i j : nat) (a b : Session.Todo),
    i < j -> l !! i = Some a -> l !! j = Some b -> rank a <= rank b.

(** [l'] holds the todos of [l], those at the indices below [i] where they
    were, and those from [i] on among themselves. *)
Definition shuffledFrom (i : nat) (l l' : list Session.Todo) : Prop :=
  length l' = length l
  /\ l' ≡ₚ l
  /\ (forall k, k < i -> l' !! k = l !! k)
  /\ (forall k b, i <= k -> l' !! k = Some b -> exists k', i <= k' /\ l !! k' = Some b).

(** The exchange of the indices [i] and [j]. *)
Definition transpose (i j k : nat) : nat :=
  if decide (k = i) then j else if decide (k = j) then i else k.

(** After the outer loop of [sortTodos] has passed the indices below [i],
    each of them holds a todo of rank at most that of every later one. *)
Definition placed (i : nat) (l : list Session.Todo) : Prop :=
  forall (k1 k2 : nat) (a b : Session.Todo),
    k1 < i -> k1 < k2 -> l !! k1 = Some a -> l !! k2 = Some b -> rank a <= rank b.

(** ** Texts *)

(** [sub] occurs in [s]. *)
Definition Contains (sub s : string) : Prop :=
  exists pre post : string, s = (pre ++ sub ++ post)%string.

(** The decimal numeral of a number, and the fraction completed/total as it
    is written. *)
Definition decimal (n : nat) : string := NilZero.string_of_uint (Nat.to_uint n).

Definition fraction (completed total : nat) : string :=
  (decimal completed ++ "/" ++ decimal total)%string.

(** Printable ASCII only: no control byte, no byte from 0x7f on. *)
Fixpoint plain (s : string) : bool :=
  match s with
  | EmptyString => true
  | String c s' =>
      Nat.leb 32 (nat_of_ascii c) && Nat.leb (nat_of_ascii c) 126 && plain s'
  end.

(** ** Queues, logs and jobs *)

(** The flag tells whether a Turn is active, and then there is one. *)
Definition flagMatches (q : MessageQueue.Queue) : Prop :=
  length (MessageQueue.active q) = if MessageQueue.inProgress q then 1 else 0.

(** Every queue of the registry keeps its flag and its active Turns in step. *)
Definition registryOK (sys : gmap string MessageQueue.Queue) : Prop :=
  forall (id : string) (q : MessageQueue.Queue), sys !! id = Some q -> flagMatches q.

(** [l1] is [l2] with a part that stops short of the [K] most recent
    messages replaced. *)
Definition keepsRecent (K : nat) (l1 l2 : list ContextWindow.Message) : Prop :=
  exists (n : nat) (pre : list ContextWindow.Message),
    l1 = pre ++ drop n l2 /\ (n + K <= length l2 \/ (n = 0 /\ pre = [])).

(** ** Sample data *)

Definition ctx_s1 : Tools.Context := Tools.mkContext "s1".

Definition saved_s1 : Session.Session string :=
  Session.mkSession "s1"
    [Session.mkTodo "write tests" "completed" "Writing tests";
     Session.mkTodo "fix the build" "in_progress" "";
     Session.mkTodo "tag a release" "pending" "Tagging a release";
     Session.mkTodo "celebrate" "later" ""].

(** A message of one unit. *)
Definition unit_message (n : nat) : ContextWindow.Message :=
  ContextWindow.mkMessage n ContextWindow.User ["m"] false 1 [].

(** A summarization request that answers with a summary of one unit. *)
Definition short_summary (run : list ContextWindow.Message)
  : option ContextWindow.Message :=
  Some (ContextWindow.mkMessage 0 ContextWindow.System ["summary"] false 1 []).

Definition twoJobs : gmap string Jobs.BackgroundJob :=
  {[ "J1" := Jobs.mkJob "s1" "go test ./..." false "ok";
     "J2" := Jobs.mkJob "s1" "make watch" true "" ]}.

(** ** White space and numerals *)

(** Every byte is ASCII and none is white space. *)
Fixpoint asciiWord (s : string) : bool :=
  match s with
  | EmptyString => true
  | String c s' =>
      N.ltb (GoStrings.byte c) GoStrings.RuneSelf
      && negb (GoStrings.IsSpace (GoStrings.byte c)) && asciiWord s'
  end.

(** A text that is empty or whose first rune is no white space. *)
Definition leftTrimmed (s : string) : Prop :=
  s = "" \/ GoStrings.IsSpace (GoStrings.DecodeRuneInString s).1 = false.

(** A text that is empty or whose last rune is no white space. *)
Definition rightTrimmed (s : string) : Prop :=
  s = "" \/ GoStrings.IsSpace (GoStrings.DecodeLastRuneInString s).1 = false.

(** A field as [strings.Fields] returns them: not empty, and white space
    neither at its start nor at its end. *)
Definition isField (s : string) : Prop :=
  s <> "" /\ leftTrimmed s /\ rightTrimmed s.

(** Only continuation bytes. *)
Fixpoint continuation (s : string) : bool :=
  match s with
  | EmptyString => true
  | String c s' => negb (GoStrings.RuneStart (GoStrings.byte c)) && continuation s'
  end.

(** Wherever a byte of [cur] starts a rune, the rune read there from [cur]
    followed by [rest] is no white space. *)
Definition spaceFree (cur rest : string) : Prop :=
  forall (pre : string) (c : ascii) (post : string),
    cur = (pre ++ String c post)%string ->
    GoStrings.RuneStart (GoStrings.byte c) = true ->
    GoStrings.IsSpace (GoStrings.DecodeRuneInString (String c post ++ rest)).1 = false.

(** The tab byte. *)
Definition tab : string := String (ascii_of_nat 9) EmptyString.

(** What `git rev-list --left-right --count` prints for [ahead] commits on
    the left and [behind] on the right. *)
Definition revListOutput (ahead behind : nat) : string :=
  (GoStrings.fmtD ahead ++ tab ++ GoStrings.fmtD behind ++ Tools.nl)%string.

(** ** Git status *)

(** The status [getGitStatus] has put together when it comes to the upstream
    comparison: the branch and the state of the working tree. *)
Definition localStatus (r : VCS.GitRepo) : VCS.Status :=
  VCS.mkStatus
    (negb (VCS.diff_quiet r))
    (VCS.nonEmptyOutput (VCS.ls_files_others r))
    (VCS.nonEmptyOutput (VCS.diff_name_only_unmerged r))
    (negb (VCS.diff_cached_quiet r))
    0 0
    match VCS.symbolic_ref_short_HEAD r, VCS.rev_parse_short_HEAD r with
    | Some output, _ => GoStrings.TrimSpace output
    | None, Some output => GoStrings.TrimSpace output
    | None, None => ""
    end
    match VCS.symbolic_ref_short_HEAD r, VCS.rev_parse_short_HEAD r with
    | None, Some _ => true
    | _, _ => false
    end
    false false.

(** A checkout of a branch with nothing to commit, whose upstream comparison
    prints the counts [ahead] and [behind]. *)
Definition cleanRepo (ahead behind : nat) : VCS.GitRepo :=
  VCS.mkGitRepo (Some ("main" ++ Tools.nl)%string) None (Some "") true true (Some "")
                (Some (revListOutput ahead behind)).

(** ** Repositories on a machine *)

(** The directory [path] holds a directory named [markerDir]. *)
Definition hasMarker (m : VCSDetect.Machine) (markerDir : string)
  (path : VCSDetect.Path) : Prop :=
  VCSDetect.Stat m (VCSDetect.Join path markerDir) = Some true.

(** [root] is [path] or a directory above it. *)
Definition isAbove (root path : VCSDetect.Path) : Prop := root `suffix_of` path.

(** [root] is the nearest directory at or above [path] that holds
    [markerDir]. *)
Definition nearestRoot (m : VCSDetect.Machine) (markerDir : string)
  (path root : VCSDetect.Path) : Prop :=
  isAbove root path
  /\ hasMarker m markerDir root
  /\ forall p, isAbove p path -> length root < length p -> ~ hasMarker m markerDir p.

(** No directory at or above [path] holds [markerDir]. *)
Definition noRoot (m : VCSDetect.Machine) (markerDir : string)
  (path : VCSDetect.Path) : Prop :=
  forall p, isAbove p path -> ~ hasMarker m markerDir p.

(** A machine on which [/w/.git] and [/w/sub/.jj] are directories and [/x/.git]
    is a file; a relative path has no absolute form on it. *)
Definition sampleMachine : VCSDetect.Machine :=
  VCSDetect.mkMachine
    (fun s =>
       if String.eqb s "/w/sub/deep" then Some ["deep"; "sub"; "w"]
       else if String.eqb s "/x" then Some ["x"]
       else if String.eqb s "/tmp" then Some ["tmp"]
       else None)
    (fun p =>
       if decide (p = [".git"; "w"]) then Some true
       else if decide (p = [".jj"; "sub"; "w"]) then Some true
       else if decide (p = [".git"; "x"]) then Some false
       else None)
    (fun _ => VCS.repo_12_3)
    (fun _ => VCSDetect.mkJjRepo (Some "trunk") None (Some "")).

(** ** The icon of a clean working tree *)

(** The icon that stands for the counts [ahead] and [behind] of a working
    tree with nothing else to report. *)
Definition iconOfCounts (ahead behind : nat) : string :=
  if Nat.ltb 0 ahead && Nat.ltb 0 behind then Icons.GitDivergentIcon
  else if Nat.ltb 0 ahead then Icons.GitUnpushedIcon
  else if Nat.ltb 0 behind then Icons.GitBehindIcon
  else Icons.GitCleanIcon.

(** The palette of the renderer of plain text. *)
Definition textPalette : @Util.Palette TextRenderer.textLipgloss :=
  @Util.mkPalette TextRenderer.textLipgloss (0, 0) (0, 0) tt tt tt tt tt tt tt tt tt tt tt.

(** ** Pills and panels *)

(** The first todo in progress. *)
Definition firstInProgress (todos : list Session.Todo) : option Session.Todo :=
  head (filter (fun t => Session.Status t = Session.TodoStatusInProgress) todos).

(** The text the pill shows for a todo in progress, before it is cut. *)
Definition taskLabel (todo : Session.Todo) : string :=
  if String.eqb (Session.ActiveForm todo) "" then Session.Content todo
  else Session.ActiveForm todo.

(** The elements of a list with a separator between each two. *)
Fixpoint intersperse {A : Type} (sep : A) (l : list A) : list A :=
  match l with
  | [] => []
  | a :: rest =>
      match rest with
      | [] => [a]
      | _ => a :: sep :: intersperse sep rest
      end
  end.

(** A gradient that answers with the nine triangles, uncoloured. *)
Definition plainGrad (s : string) (bold : bool) (c1 c2 : unit) : list string :=
  replicate 9 Icons.triangle.

(** ** The todos tool: what changed *)

(** The status of the last todo of [old] with the content [c]. *)
Definition lastStatus (old : list Session.Todo) (c : string) : option Session.TodoStatus :=
  Session.Status <$> last (filter (fun t => Session.Content t = c) old).

(** The item is completed, and the last todo of [old] with its content was
    not. *)
Definition newlyCompleted (old : list Session.Todo) (item : Tools.TodoItem) : bool :=
  String.eqb (Tools.Status item) Session.TodoStatusCompleted
  && match lastStatus old (Tools.Content item) with
     | Some s => negb (String.eqb s Session.TodoStatusCompleted)
     | None => false
     end.

(** The item is in progress, and [old] held no todo with its content or the
    last one was not in progress. *)
Definition newlyStarted (old : list Session.Todo) (item : Tools.TodoItem) : bool :=
  String.eqb (Tools.Status item) Session.TodoStatusInProgress
  && match lastStatus old (Tools.Content item) with
     | Some s => negb (String.eqb s Session.TodoStatusInProgress)
     | None => true
     end.

(** The active form of an item, or its content when the active form is
    empty. *)
Definition itemLabel (item : Tools.TodoItem) : string :=
  if String.eqb (Tools.ActiveForm item) "" then Tools.Content item
  else Tools.ActiveForm item.

(** The label of the last item for which [p] holds, empty when there is
    none. *)
Definition lastLabel (p : Tools.TodoItem -> bool) (items : list Tools.TodoItem) : string :=
  match last (filter (fun item => p item = true) items) with
  | Some item => itemLabel item
  | None => ""
  end.

(** The item that submits a todo as it is. *)
Definition asItem (todo : Session.Todo) : Tools.TodoItem :=
  Tools.mkTodoItem (Session.Content todo) (Session.Status todo) (Session.ActiveForm todo).

(** The status is one of the three the tool counts. *)
Definition recognized (todo : Session.Todo) : Prop :=
  Session.Status todo = Session.TodoStatusPending
  \/ Session.Status todo = Session.TodoStatusInProgress
  \/ Session.Status todo = Session.TodoStatusCompleted.

(** Two todos of the same content, the first completed and the second
    pending. *)
Definition twiceA : list Session.Todo :=
  [Session.mkTodo "a" Session.TodoStatusCompleted "";
   Session.mkTodo "a" Session.TodoStatusPending ""].

(** ** More sample data *)

(** A checkout on a detached HEAD. *)
Definition detachedRepo : VCS.GitRepo :=
  VCS.mkGitRepo None (Some ("abc1234" ++ Tools.nl)%string) (Some "") true true (Some "")
                (Some (revListOutput 1 1)).

(** What [Detect] finds from [/w/sub/deep] on the sample machine. *)
Definition sampleInfo : VCSDetect.Info :=
  VCSDetect.mkInfo VCSDetect.TypeGit "w" (Some ["w"]) (VCS.getGitStatus VCS.repo_12_3).

(** A todo in progress whose active form has 50 bytes. *)
Definition longTodo : Session.Todo :=
  Session.mkTodo "refactor" Session.TodoStatusInProgress
    "Refactoring the parser of the configuration files.".

(** Two completed todos. *)
Definition doneTodos : list Session.Todo :=
  [Session.mkTodo "write tests" Session.TodoStatusCompleted "";
   Session.mkTodo "fix the build" Session.TodoStatusCompleted ""].

(** A session service whose store is read-only: [Save] always fails. *)
Definition readOnlyService : Session.Service string (gmap string (Session.Session string)) := {|
  Session.Get := fun id st =>
    match st !! id with
    | Some s => inr s
    | None => inl "session not found"
    end;
  Session.Save := fun s st => (inl "read-only store", st)
|}.

(* ===================================================================== *)
(** * Properties *)
(* ===================================================================== *)

(** ** Loops *)

Section LoopFacts.
Import GoLoops.

Lemma forUpTo_empty {St : Type} (lo hi : nat) (body : nat -> St -> St) (s : St) :
  hi <= lo -> forUpTo lo hi body s = s.
Proof.
  intros Hle. unfold forUpTo.
  replace (hi - lo) with 0 by lia. reflexivity.
Qed.

Lemma forUpTo_last {St : Type} (lo hi : nat) (body : nat -> St -> St) (s : St) :
  lo <= hi -> forUpTo lo (S hi) body s = body hi (forUpTo lo hi body s).
Proof.
  intros Hle. unfold forUpTo.
  replace (S hi - lo) with (S (hi - lo)) by lia.
  rewrite seq_S, foldl_app. simpl.
  replace (lo + (hi - lo)) with hi by lia. reflexivity.
Qed.

(** A property kept by every round holds when the counting loop ends. *)
Lemma forUpTo_invariant {St : Type} (P : nat -> St -> Prop)
  (lo hi : nat) (body : nat -> St -> St) (s : St) :
  lo <= hi ->
  P lo s ->
  (forall j s', lo <= j < hi -> P j s' -> P (S j) (body j s')) ->
  P hi (forUpTo lo hi body s).
Proof.
  intros Hle H0 Hstep. induction hi as [|hi IH].
  - assert (lo = 0) as -> by lia. exact H0.
  - destruct (decide (lo = S hi)) as [->|Hne].
    + rewrite forUpTo_empty by lia. exact H0.
    + rewrite forUpTo_last by lia. apply Hstep; [lia|].
      apply IH; [lia|]. intros j s' Hj. apply Hstep. lia.
Qed.

End LoopFacts.

(** ** The todos tool *)

Section TodosTool.
Import GoLoops Tools.
Context {Other Store : Type} `{!Session.Service Other Store}.

Lemma countOf_cons (st : Session.TodoStatus) (t : Session.Todo) (todos : list Session.Todo) :
  countOf st (t :: todos)
  = (if decide (Session.Status t = st) then 1 else 0) + countOf st todos.
Proof.
  unfold countOf. rewrite filter_cons.
  destruct (decide (Session.Status t = st)); reflexivity.
Qed.

Lemma fill_loop (items : list TodoItem) (done rest : list Session.Todo) :
  length rest = length items ->
  rangeFrom (length done) (fun i item todos => <[i := toTodo item]> todos)
            items (done ++ rest)
  = done ++ map toTodo items.
Proof.
  revert done rest. induction items as [|item items IH]; intros done rest Hlen.
  - destruct rest; [reflexivity | discriminate].
  - destruct rest as [|r rest]; [discriminate|]. simpl in Hlen.
    simpl rangeFrom.
    replace (<[length done := toTodo item]> (done ++ r :: rest))
      with ((done ++ [toTodo item]) ++ rest).
    + replace (S (length done)) with (length (done ++ [toTodo item]))
        by (rewrite length_app; simpl; lia).
      rewrite IH by lia. rewrite <- app_assoc. reflexivity.
    + rewrite insert_app_r_alt by lia.
      replace (length done - length done) with 0 by lia.
      rewrite <- app_assoc. reflexivity.
Qed.

(** The loop of todos.go builds the list item by item, in order. *)
Lemma convertTodos_map (items : list TodoItem) :
  Todos.convertTodos items = map toTodo items.
Proof.
  unfold Todos.convertTodos, forRange.
  apply (fill_loop items [] (replicate (length items) Session.zeroTodo)).
  apply length_replicate.
Qed.

Lemma countLoop (i : nat) (todos : list Session.Todo) (p q r : nat) :
  rangeFrom i (fun _ todo c => Todos.countTodo todo c) todos (p, q, r)
  = (p + countOf Session.TodoStatusPending todos,
     q + countOf Session.TodoStatusInProgress todos,
     r + countOf Session.TodoStatusCompleted todos).
Proof.
  revert i p q r. induction todos as [|t todos IH]; intros i p q r.
  - simpl. unfold countOf. simpl. repeat f_equal; lia.
  - simpl rangeFrom.
    remember (Todos.countTodo t (p, q, r)) as c eqn:Hc.
    unfold Todos.countTodo in Hc. unfold countOf. rewrite !filter_cons.
    destruct (String.eqb_spec (Session.Status t) Session.TodoStatusPending) as [E|E].
    { subst c. rewrite IH, E. unfold countOf. simpl. repeat f_equal; lia. }
    destruct (String.eqb_spec (Session.Status t) Session.TodoStatusInProgress) as [E1|E1].
    { subst c. rewrite IH, E1. unfold countOf. simpl. repeat f_equal; lia. }
    destruct (String.eqb_spec (Session.Status t) Session.TodoStatusCompleted) as [E2|E2].
    { subst c. rewrite IH, E2. unfold countOf. simpl. repeat f_equal; lia. }
    subst c. rewrite IH. unfold countOf.
    rewrite !decide_False by assumption. reflexivity.
Qed.

Lemma countTodos_countOf (todos : list Session.Todo) :
  Todos.countTodos todos
  = (countOf Session.TodoStatusPending todos,
     countOf Session.TodoStatusInProgress todos,
     countOf Session.TodoStatusCompleted todos).
Proof. unfold Todos.countTodos, forRange. rewrite countLoop. reflexivity. Qed.

Lemma convLoop (old : gmap string Session.TodoStatus) (items : list TodoItem)
  (done rest : list Session.Todo) (jc : list string) (js : string) (cc : nat) :
  length rest = length items ->
  let c := rangeFrom (length done) (TodosMeta.convertItem old) items
                     (TodosMeta.mkConv (done ++ rest) jc js cc) in
  TodosMeta.todos c = done ++ map toTodo items
  /\ TodosMeta.completedCount c
     = cc + countOf Session.TodoStatusCompleted (map toTodo items).
Proof.
  revert done rest jc js cc.
  induction items as [|item items IH]; intros done rest jc js cc Hlen.
  - destruct rest; [|discriminate]. simpl. split; [reflexivity|].
    unfold countOf. simpl. lia.
  - destruct rest as [|r rest]; [discriminate|]. simpl in Hlen.
    simpl rangeFrom.
    remember (TodosMeta.convertItem old (length done) item
                (TodosMeta.mkConv (done ++ r :: rest) jc js cc)) as c1 eqn:Hc1.
    assert (TodosMeta.todos c1 = (done ++ [toTodo item]) ++ rest) as Htodos.
    { subst c1. unfold TodosMeta.convertItem. simpl.
      destruct (String.eqb (Status item) Session.TodoStatusCompleted); simpl;
        rewrite insert_app_r_alt by lia;
        replace (length done - length done) with 0 by lia;
        rewrite <- app_assoc; reflexivity. }
    assert (TodosMeta.completedCount c1
            = cc + countOf Session.TodoStatusCompleted [toTodo item]) as Hcount.
    { subst c1. unfold TodosMeta.convertItem, countOf. simpl.
      rewrite filter_cons, filter_nil. simpl.
      destruct (String.eqb_spec (Status item) Session.TodoStatusCompleted) as [E|E];
        simpl.
      - rewrite decide_True by assumption. simpl. lia.
      - rewrite decide_False by assumption. simpl. lia. }
    destruct c1 as [t1 jc1 js1 cc1]. simpl in Htodos, Hcount. subst t1.
    replace (S (length done)) with (length (done ++ [toTodo item]))
      by (rewrite length_app; simpl; lia).
    destruct (IH (done ++ [toTodo item]) rest jc1 js1 cc1 ltac:(lia)) as [IH1 IH2].
    split.
    + rewrite IH1, <- app_assoc. reflexivity.
    + rewrite IH2, Hcount. simpl map. rewrite !countOf_cons.
      unfold countOf. simpl. lia.
Qed.

(** The loop of the variant builds the same list, and its [completedCount]
    is the number of completed todos. *)
Lemma convertTodosMeta_map (old : gmap string Session.TodoStatus) (items : list TodoItem) :
  TodosMeta.todos (TodosMeta.convertTodos old items) = map toTodo items
  /\ TodosMeta.completedCount (TodosMeta.convertTodos old items)
     = countOf Session.TodoStatusCompleted (map toTodo items).
Proof.
  unfold TodosMeta.convertTodos, forRange.
  apply (convLoop old items [] (replicate (length items) Session.zeroTodo) [] "" 0).
  apply length_replicate.
Qed.

Lemma countLoopMeta (i : nat) (todos : list Session.Todo) (p q : nat) :
  rangeFrom i (fun _ todo c => TodosMeta.countTodo todo c) todos (p, q)
  = (p + countOf Session.TodoStatusPending todos,
     q + countOf Session.TodoStatusInProgress todos).
Proof.
  revert i p q. induction todos as [|t todos IH]; intros i p q.
  - simpl. unfold countOf. simpl. repeat f_equal; lia.
  - simpl rangeFrom.
    remember (TodosMeta.countTodo t (p, q)) as c eqn:Hc.
    unfold TodosMeta.countTodo in Hc. unfold countOf. rewrite !filter_cons.
    destruct (String.eqb_spec (Session.Status t) Session.TodoStatusPending) as [E|E].
    { subst c. rewrite IH, E. unfold countOf. simpl. repeat f_equal; lia. }
    destruct (String.eqb_spec (Session.Status t) Session.TodoStatusInProgress) as [E1|E1].
    { subst c. rewrite IH, E1. unfold countOf. simpl. repeat f_equal; lia. }
    subst c. rewrite IH. unfold countOf.
    rewrite !decide_False by assumption. reflexivity.
Qed.

(** Both handlers write the same summary. *)
Lemma buildResponse_same (old : gmap string Session.TodoStatus) (items : list TodoItem) :
  TodosMeta.buildResponse (TodosMeta.convertTodos old items)
  = Todos.buildResponse (Todos.convertTodos items)
  /\ Todos.buildResponse (Todos.convertTodos items)
     = (responseHead ++
        statusLine (countOf Session.TodoStatusPending (map toTodo items))
                   (countOf Session.TodoStatusInProgress (map toTodo items))
                   (countOf Session.TodoStatusCompleted (map toTodo items)))%string.
Proof.
  destruct (convertTodosMeta_map old items) as [Ht Hc].
  unfold TodosMeta.buildResponse, Todos.buildResponse.
  rewrite Ht, Hc, convertTodos_map, countTodos_countOf.
  unfold TodosMeta.countTodos, forRange. rewrite countLoopMeta. simpl.
  split; reflexivity.
Qed.

(** What a run of the handler of todos.go does, case by case. *)
Lemma run_Todos (ctx : Context) (params : TodosParams) (st : Store) :
  run (Todos.NewTodosTool ctx params) st =
  let sessionID := GetSessionFromContext ctx in
  if String.eqb sessionID "" then
    (inl "session ID is required for managing todos", st, [])
  else
    match Session.Get sessionID st with
    | inl err => (inl (wrapError "failed to get session" err), st, [CallGet sessionID])
    | inr cur =>
        let s := Session.setTodos (map toTodo (Todos params)) cur in
        match Session.Save s st with
        | (inl err, st') =>
            (inl (wrapError "failed to save todos" err), st',
             [CallGet sessionID; CallSave s])
        | (inr _, st') =>
            (inr (Fantasy.NewTextResponse
                    (Todos.buildResponse (Todos.convertTodos (Todos params)))),
             st', [CallGet sessionID; CallSave s])
        end
    end.
Proof.
  unfold Todos.NewTodosTool. cbv zeta.
  destruct (String.eqb (GetSessionFromContext ctx) ""); [reflexivity|].
  simpl run. destruct (Session.Get (GetSessionFromContext ctx) st) as [err|cur].
  - reflexivity.
  - simpl run. rewrite convertTodos_map.
    destruct (Session.Save _ st) as [[err|saved] st']; reflexivity.
Qed.

(** What a run of the variant does, case by case. *)
Lemma run_TodosMeta (ctx : Context) (params : TodosParams) (st : Store) :
  run (TodosMeta.NewTodosTool ctx params) st =
  let sessionID := GetSessionFromContext ctx in
  if String.eqb sessionID "" then
    (inl "session ID is required for managing todos", st, [])
  else
    match Session.Get sessionID st with
    | inl err => (inl (wrapError "failed to get session" err), st, [CallGet sessionID])
    | inr cur =>
        let c := TodosMeta.convertTodos
                   (TodosMeta.oldStatusByContent (Session.Todos cur)) (Todos params) in
        let s := Session.setTodos (map toTodo (Todos params)) cur in
        match Session.Save s st with
        | (inl err, st') =>
            (inl (wrapError "failed to save todos" err), st',
             [CallGet sessionID; CallSave s])
        | (inr _, st') =>
            (inr (Fantasy.WithResponseMetadata
                    (Fantasy.NewTextResponse (TodosMeta.buildResponse c))
                    (mkTodosResponseMetadata
                       (Nat.eqb (length (Session.Todos cur)) 0)
                       (TodosMeta.justCompleted c) (TodosMeta.justStarted c)
                       (TodosMeta.completedCount c) (length (TodosMeta.todos c)))),
             st', [CallGet sessionID; CallSave s])
        end
    end.
Proof.
  unfold TodosMeta.NewTodosTool. cbv zeta.
  destruct (String.eqb (GetSessionFromContext ctx) ""); [reflexivity|].
  simpl run. destruct (Session.Get (GetSessionFromContext ctx) st) as [err|cur].
  - reflexivity.
  - simpl run.
    destruct (convertTodosMeta_map
                (TodosMeta.oldStatusByContent (Session.Todos cur)) (Todos params))
      as [-> _].
    destruct (Session.Save _ st) as [[err|saved] st']; reflexivity.
Qed.

(** The session either handler passes to [Save], when it comes that far. *)
Lemma saved_session (v : Version) (ctx : Context) (params : TodosParams) (st : Store)
  (s : Session.Session Other) :
  In (CallSave s) (run (handler v ctx params) st).2 ->
  exists cur,
    Session.Get (GetSessionFromContext ctx) st = inr cur
    /\ s = Session.setTodos (map toTodo (Todos params)) cur.
Proof.
  intros Hin.
  assert (In (CallSave s)
            (if String.eqb (GetSessionFromContext ctx) "" then []
             else match Session.Get (GetSessionFromContext ctx) st with
                  | inl _ => [CallGet (GetSessionFromContext ctx)]
                  | inr cur =>
                      [CallGet (GetSessionFromContext ctx);
                       CallSave (Session.setTodos (map toTodo (Todos params)) cur)]
                  end)) as Hin'.
  { destruct v; simpl handler in Hin;
      [rewrite run_Todos in Hin | rewrite run_TodosMeta in Hin]; cbv zeta in Hin;
      destruct (String.eqb (GetSessionFromContext ctx) ""); try exact Hin;
      destruct (Session.Get (GetSessionFromContext ctx) st) as [err|cur];
      try exact Hin;
      destruct (Session.Save _ st) as [[err|saved] st']; exact Hin. }
  clear Hin.
  destruct (String.eqb (GetSessionFromContext ctx) ""); [destruct Hin'|].
  destruct (Session.Get (GetSessionFromContext ctx) st) as [err|cur].
  - destruct Hin' as [Hd|[]]. discriminate Hd.
  - destruct Hin' as [Hd|[Hs|[]]]; [discriminate Hd|].
    exists cur. split; [reflexivity|]. congruence.
Qed.

(** C4: in both versions of the handler, a session handed to [Save] is the
    session [Get] returned with its [Todos] replaced: everything else the
    session carries is passed on as it was read. *)
Theorem todos_save_changes_only_todos (v : Version) (ctx : Context)
  (params : TodosParams) (st : Store) (s : Session.Session Other) :
  In (CallSave s) (run (handler v ctx params) st).2 ->
  exists cur,
    Session.Get (GetSessionFromContext ctx) st = inr cur
    /\ Session.other s = Session.other cur
    /\ s = Session.setTodos (Session.Todos s) cur.
Proof.
  intros Hin. destruct (saved_session v ctx params st s Hin) as (cur & Hget & ->).
  exists cur. repeat split. exact Hget.
Qed.

(** C5: in both versions of the handler, whenever the context carries a
    session ID and [Get] returns the session, the handler hands exactly one
    session to [Save], whatever [Save] then answers; the todo list of that
    session is as long as [params.Todos], and its todo at each index carries
    the Content, the Status (converted to a [TodoStatus], which keeps the
    string) and the ActiveForm of the item at that index. *)
Theorem todos_saved_list_matches_params (v : Version) (ctx : Context)
  (params : TodosParams) (st : Store) (cur : Session.Session Other) :
  GetSessionFromContext ctx <> "" ->
  Session.Get (GetSessionFromContext ctx) st = inr cur ->
  exists s : Session.Session Other,
    savedSessions (run (handler v ctx params) st).2 = [s]
    /\ (forall s', In (CallSave s') (run (handler v ctx params) st).2 -> s' = s)
    /\ length (Session.Todos s) = length (Todos params)
    /\ forall (i : nat) (item : TodoItem),
         Todos params !! i = Some item ->
         exists todo : Session.Todo,
           Session.Todos s !! i = Some todo
           /\ Session.Content todo = Content item
           /\ Session.Status todo = (Status item : Session.TodoStatus)
           /\ Session.ActiveForm todo = ActiveForm item.
Proof.
  intros Hid Hget. apply String.eqb_neq in Hid.
  exists (Session.setTodos (map toTodo (Todos params)) cur).
  assert ((run (handler v ctx params) st).2
          = [CallGet (GetSessionFromContext ctx);
             CallSave (Session.setTodos (map toTodo (Todos params)) cur)]) as ->.
  { destruct v; simpl handler; [rewrite run_Todos | rewrite run_TodosMeta];
      cbv zeta; rewrite Hid, Hget;
      destruct (Session.Save _ st) as [[err|saved] st']; reflexivity. }
  split; [reflexivity|]. split; [|split].
  - intros s' [Hd|[Hs|[]]]; [discriminate Hd | congruence].
  - simpl. apply length_map.
  - intros i item Hi. exists (toTodo item). split.
    + simpl. rewrite list_lookup_fmap, Hi. reflexivity.
    + repeat split.
Qed.

(** C10: in both versions of the handler, when the context carries no session
    ID or [Get] fails, the handler returns an error, the calls it made include
    no [Save], and the store is the one it was given. *)
Theorem todos_error_before_save (v : Version) (ctx : Context)
  (params : TodosParams) (st : Store) :
  GetSessionFromContext ctx = ""
  \/ (exists err, Session.Get (GetSessionFromContext ctx) st = inl err) ->
  exists (msg : Session.error) (calls : list (Call Other)),
    run (handler v ctx params) st = (inl msg, st, calls)
    /\ forall s, ~ In (CallSave s) calls.
Proof.
  intros Hcase.
  destruct (String.eqb_spec (GetSessionFromContext ctx) "") as [Heq|Hne].
  - exists "session ID is required for managing todos", [].
    split; [|intros s []].
    destruct v; simpl handler; [rewrite run_Todos | rewrite run_TodosMeta];
      cbv zeta; rewrite Heq; reflexivity.
  - destruct Hcase as [Heq|[err Herr]]; [contradiction|].
    exists (wrapError "failed to get session" err), [CallGet (GetSessionFromContext ctx)].
    split.
    + apply String.eqb_neq in Hne.
      destruct v; simpl handler; [rewrite run_Todos | rewrite run_TodosMeta];
        cbv zeta; rewrite Hne, Herr; reflexivity.
    + intros s [Hd|[]]. discriminate Hd.
Qed.

(** C8: on an input on which both versions succeed, they make the same calls,
    hand the same session, with the same todo list, to [Save], leave the same
    store, and answer with the same text: "Todo list updated successfully."
    and the line of the pending, in-progress and completed counts. *)
Theorem todos_versions_agree (ctx : Context) (params : TodosParams) (st : Store)
  (r1 r2 : ToolResponse) (st1 st2 : Store) (calls1 calls2 : list (Call Other)) :
  run (Todos.NewTodosTool ctx params) st = (inr r1, st1, calls1) ->
  run (TodosMeta.NewTodosTool ctx params) st = (inr r2, st2, calls2) ->
  calls1 = calls2
  /\ st1 = st2
  /\ (exists cur,
        Session.Get (GetSessionFromContext ctx) st = inr cur
        /\ savedSessions calls1 = [Session.setTodos (map toTodo (Todos params)) cur]
        /\ savedSessions calls2 = [Session.setTodos (map toTodo (Todos params)) cur])
  /\ Fantasy.Content r1 = Fantasy.Content r2
  /\ Fantasy.Content r1
     = (responseHead ++
        statusLine (countOf Session.TodoStatusPending (map toTodo (Todos params)))
                   (countOf Session.TodoStatusInProgress (map toTodo (Todos params)))
                   (countOf Session.TodoStatusCompleted (map toTodo (Todos params))))%string.
Proof.
  rewrite run_Todos, run_TodosMeta. cbv zeta.
  destruct (String.eqb (GetSessionFromContext ctx) ""); [discriminate|].
  destruct (Session.Get (GetSessionFromContext ctx) st) as [err|cur]; [discriminate|].
  destruct (Session.Save _ st) as [[err|saved] st']; [discriminate|].
  intros H1 H2. injection H1 as <- <- <-. injection H2 as <- <- <-.
  destruct (buildResponse_same (TodosMeta.oldStatusByContent (Session.Todos cur))
              (Todos params)) as [Hsame Htext].
  split; [reflexivity|]. split; [reflexivity|]. split.
  { exists cur. repeat split. }
  simpl. split; [symmetry; exact Hsame | exact Htext].
Qed.

End TodosTool.

(** *** The handlers at work on the session service in memory *)

Section TodosToolExamples.
Import Tools MemoryService.

Example run_current_s1 :
  run (handler Current ctx_s1 sampleParams) oneSession
  = (inr (Fantasy.NewTextResponse
            ("Todo list updated successfully." ++ nl ++ nl
             ++ "Status: 1 pending, 1 in progress, 1 completed" ++ nl)%string),
     {[ "s1" := saved_s1 ]},
     [CallGet "s1"; CallSave saved_s1]).
Proof. vm_compute. reflexivity. Qed.

Example run_metadata_s1 :
  (run (handler WithMetadata ctx_s1 sampleParams) oneSession).1.1
  = inr (Fantasy.mkToolResponse "text"
           ("Todo list updated successfully." ++ nl ++ nl
            ++ "Status: 1 pending, 1 in progress, 1 completed" ++ nl)%string
           (Some (mkTodosResponseMetadata false ["write tests"] "fix the build" 1 4))).
Proof. vm_compute. reflexivity. Qed.

End TodosToolExamples.

(** On the session [s1] of the service in memory, with the handler of todos.go. *)
Lemma todos_save_changes_only_todos_witness :
  In (Tools.CallSave saved_s1)
     (Tools.run (Tools.handler Tools.Current ctx_s1 MemoryService.sampleParams)
                MemoryService.oneSession).2
  /\ exists cur,
       Session.Get (Tools.GetSessionFromContext ctx_s1) MemoryService.oneSession = inr cur
       /\ Session.other saved_s1 = Session.other cur
       /\ saved_s1 = Session.setTodos (Session.Todos saved_s1) cur.
Proof.
  assert (In (Tools.CallSave saved_s1)
            (Tools.run (Tools.handler Tools.Current ctx_s1 MemoryService.sampleParams)
                       MemoryService.oneSession).2) as Hin.
  { vm_compute. right. left. reflexivity. }
  split; [exact Hin|].
  exact (todos_save_changes_only_todos Tools.Current ctx_s1
           MemoryService.sampleParams MemoryService.oneSession saved_s1 Hin).
Defined.

(** On the same session, with the handler of todos.go and with the variant:
    the session handed to [Save] carries the four items of the parameters. *)
Lemma todos_saved_list_matches_params_witness :
  (exists s : Session.Session string,
     savedSessions
       (Tools.run (Tools.handler Tools.Current ctx_s1 MemoryService.sampleParams)
                  MemoryService.oneSession).2 = [s]
     /\ (forall s',
           In (Tools.CallSave s')
              (Tools.run (Tools.handler Tools.Current ctx_s1 MemoryService.sampleParams)
                         MemoryService.oneSession).2 -> s' = s)
     /\ length (Session.Todos s) = 4
     /\ forall (i : nat) (item : Tools.TodoItem),
          Tools.Todos MemoryService.sampleParams !! i = Some item ->
          exists todo : Session.Todo,
            Session.Todos s !! i = Some todo
            /\ Session.Content todo = Tools.Content item
            /\ Session.Status todo = (Tools.Status item : Session.TodoStatus)
            /\ Session.ActiveForm todo = Tools.ActiveForm item)
  /\ (exists s : Session.Session string,
     savedSessions
       (Tools.run (Tools.handler Tools.WithMetadata ctx_s1 MemoryService.sampleParams)
                  MemoryService.oneSession).2 = [s]
     /\ (forall s',
           In (Tools.CallSave s')
              (Tools.run (Tools.handler Tools.WithMetadata ctx_s1 MemoryService.sampleParams)
                         MemoryService.oneSession).2 -> s' = s)
     /\ length (Session.Todos s) = 4
     /\ forall (i : nat) (item : Tools.TodoItem),
          Tools.Todos MemoryService.sampleParams !! i = Some item ->
          exists todo : Session.Todo,
            Session.Todos s !! i = Some todo
            /\ Session.Content todo = Tools.Content item
            /\ Session.Status todo = (Tools.Status item : Session.TodoStatus)
            /\ Session.ActiveForm todo = Tools.ActiveForm item).
Proof.
  split.
  - apply (todos_saved_list_matches_params Tools.Current ctx_s1
             MemoryService.sampleParams MemoryService.oneSession
             (Session.mkSession "s1"
                [Session.mkTodo "write tests" Session.TodoStatusInProgress
                   "Writing tests"])).
    + discriminate.
    + vm_compute. reflexivity.
  - apply (todos_saved_list_matches_params Tools.WithMetadata ctx_s1
             MemoryService.sampleParams MemoryService.oneSession
             (Session.mkSession "s1"
                [Session.mkTodo "write tests" Session.TodoStatusInProgress
                   "Writing tests"])).
    + discriminate.
    + vm_compute. reflexivity.
Defined.

(** On a session ID the service does not hold. *)
Lemma todos_error_before_save_witness :
  exists (msg : Session.error) (calls : list (Tools.Call string)),
    Tools.run (Tools.handler Tools.Current (Tools.mkContext "s2") MemoryService.sampleParams)
              MemoryService.oneSession
    = (inl msg, MemoryService.oneSession, calls)
    /\ forall s, ~ In (Tools.CallSave s) calls.
Proof.
  apply (todos_error_before_save Tools.Current (Tools.mkContext "s2")
           MemoryService.sampleParams MemoryService.oneSession).
  right. exists "session not found". vm_compute. reflexivity.
Defined.

(** On the session [s1]: the two responses carry the same text. *)
Lemma todos_versions_agree_witness :
  Fantasy.Content
    (Fantasy.NewTextResponse (M := Tools.TodosResponseMetadata)
       ("Todo list updated successfully." ++ Tools.nl ++ Tools.nl
        ++ "Status: 1 pending, 1 in progress, 1 completed" ++ Tools.nl)%string)
  = Fantasy.Content
      (Fantasy.mkToolResponse "text"
         ("Todo list updated successfully." ++ Tools.nl ++ Tools.nl
          ++ "Status: 1 pending, 1 in progress, 1 completed" ++ Tools.nl)%string
         (Some (Tools.mkTodosResponseMetadata false ["write tests"] "fix the build" 1 4))).
Proof.
  refine (proj1 (proj2 (proj2 (proj2
    (todos_versions_agree ctx_s1 MemoryService.sampleParams MemoryService.oneSession
       _ _ {[ "s1" := saved_s1 ]} {[ "s1" := saved_s1 ]}
       [Tools.CallGet "s1"; Tools.CallSave saved_s1]
       [Tools.CallGet "s1"; Tools.CallSave saved_s1] _ _))))).
  - vm_compute. reflexivity.
  - vm_compute. reflexivity.
Defined.

(** ** sortTodos *)

Section SortTodos.
Import GoLoops Session Chat.

Lemma transpose_involutive (i j k : nat) : transpose i j (transpose i j k) = k.
Proof. unfold transpose. repeat case_decide; congruence. Qed.

Lemma swap_lookup (l : list Todo) (i j k : nat) (a b : Todo) :
  i <> j -> l !! i = Some a -> l !! j = Some b ->
  <[j := a]> (<[i := b]> l) !! k = l !! transpose i j k.
Proof.
  intros Hij Ha Hb. unfold transpose.
  assert (i < length l) by (apply lookup_lt_is_Some; eauto).
  assert (j < length l) by (apply lookup_lt_is_Some; eauto).
  destruct (decide (k = i)) as [->|Hki].
  - rewrite list_lookup_insert_ne by congruence.
    rewrite list_lookup_insert_eq by assumption. congruence.
  - destruct (decide (k = j)) as [->|Hkj].
    + rewrite list_lookup_insert_eq by (rewrite length_insert; assumption).
      congruence.
    + rewrite !list_lookup_insert_ne by congruence. reflexivity.
Qed.

Lemma swap_perm (l : list Todo) (i j : nat) (a b : Todo) :
  i <> j -> l !! i = Some a -> l !! j = Some b ->
  <[j := a]> (<[i := b]> l) ≡ₚ l.
Proof.
  intros Hij Ha Hb. apply Permutation_inj. split.
  - rewrite !length_insert. reflexivity.
  - exists (transpose i j). split.
    + intros x y Hxy.
      rewrite <- (transpose_involutive i j x), Hxy. apply transpose_involutive.
    + intros k. apply swap_lookup; assumption.
Qed.

(** What one comparison of the inner loop does. *)
Lemma exchange_cases (i j : nat) (l : list Todo) :
  i < j -> j < length l ->
  exists a b,
    l !! i = Some a /\ l !! j = Some b
    /\ ((rank b < rank a /\ exchange i j l = <[j := a]> (<[i := b]> l))
        \/ (rank a <= rank b /\ exchange i j l = l)).
Proof.
  intros Hij Hj.
  destruct (lookup_lt_is_Some_2 l i ltac:(lia)) as [a Ha].
  destruct (lookup_lt_is_Some_2 l j Hj) as [b Hb].
  exists a, b. split; [exact Ha|]. split; [exact Hb|].
  unfold exchange. rewrite Ha, Hb. fold (rank a). fold (rank b).
  destruct (Nat.ltb_spec (rank b) (rank a)); [left | right]; split; auto.
Qed.

Lemma shuffledFrom_refl (i : nat) (l : list Todo) : shuffledFrom i l l.
Proof. repeat split; eauto. Qed.

Lemma shuffledFrom_trans (i : nat) (l1 l2 l3 : list Todo) :
  shuffledFrom i l1 l2 -> shuffledFrom i l2 l3 -> shuffledFrom i l1 l3.
Proof.
  intros (Hl1 & Hp1 & Hf1 & Hb1) (Hl2 & Hp2 & Hf2 & Hb2). repeat split.
  - congruence.
  - etransitivity; eassumption.
  - intros k Hk. rewrite Hf2, Hf1 by assumption. reflexivity.
  - intros k b Hk Hb. destruct (Hb2 k b Hk Hb) as (k' & Hk' & Hb').
    exact (Hb1 k' b Hk' Hb').
Qed.

Lemma shuffledFrom_weaken (i i' : nat) (l l' : list Todo) :
  i <= i' -> shuffledFrom i' l l' -> shuffledFrom i l l'.
Proof.
  intros Hle (Hl & Hp & Hf & Hb). repeat split; auto.
  - intros k Hk. apply Hf. lia.
  - intros k b Hk Hkb. destruct (decide (k < i')) as [Hlt|Hge].
    + exists k. split; [assumption|]. rewrite <- Hf by assumption. exact Hkb.
    + destruct (Hb k b ltac:(lia) Hkb) as (k' & Hk' & Hb').
      exists k'. split; [lia | assumption].
Qed.

Lemma shuffledFrom_exchange (i j : nat) (l : list Todo) :
  i < j -> j < length l -> shuffledFrom i l (exchange i j l).
Proof.
  intros Hij Hj.
  destruct (exchange_cases i j l Hij Hj) as (a & b & Ha & Hb & [[_ ->]|[_ ->]]);
    [|apply shuffledFrom_refl].
  repeat split.
  - rewrite !length_insert. reflexivity.
  - apply swap_perm; [lia | assumption | assumption].
  - intros k Hk. rewrite !list_lookup_insert_ne by lia. reflexivity.
  - intros k c Hk Hc. rewrite (swap_lookup l i j k a b) in Hc by (lia || assumption).
    exists (transpose i j k). split; [|exact Hc].
    unfold transpose. repeat case_decide; lia.
Qed.

(** The inner loop at [i] brings a todo of least rank among those from [i] on
    to index [i]. *)
Lemma inner_loop (i : nat) (l : list Todo) :
  i < length l ->
  let l' := forUpTo (i + 1) (length l) (fun j todos => exchange i j todos) l in
  shuffledFrom i l l'
  /\ forall k a b, i < k -> l' !! i = Some a -> l' !! k = Some b -> rank a <= rank b.
Proof.
  intros Hi l'.
  assert (shuffledFrom i l l'
          /\ forall k a b, i < k < length l ->
               l' !! i = Some a -> l' !! k = Some b -> rank a <= rank b) as [Hs Hmin].
  { subst l'.
    apply (forUpTo_invariant
             (fun j todos =>
                shuffledFrom i l todos
                /\ forall k a b, i < k < j ->
                     todos !! i = Some a -> todos !! k = Some b -> rank a <= rank b)).
    - lia.
    - split; [apply shuffledFrom_refl|]. intros k a b Hk. lia.
    - intros j todos Hj [Hs Hmin].
      assert (length todos = length l) as Hlen by apply Hs.
      split.
      + eapply shuffledFrom_trans; [exact Hs|].
        apply shuffledFrom_exchange; lia.
      + intros k a b Hk Ha Hb.
        destruct (exchange_cases i j todos ltac:(lia) ltac:(lia))
          as (a0 & b0 & Ha0 & Hb0 & [[Hlt Heq]|[Hle Heq]]); rewrite Heq in Ha, Hb.
        * rewrite (swap_lookup todos i j i a0 b0) in Ha by (lia || assumption).
          rewrite (swap_lookup todos i j k a0 b0) in Hb by (lia || assumption).
          unfold transpose in Ha, Hb.
          rewrite decide_True in Ha by reflexivity.
          rewrite decide_False in Hb by lia.
          assert (a = b0) as -> by congruence.
          destruct (decide (k = j)) as [->|Hkj].
          -- assert (b = a0) as -> by congruence. lia.
          -- specialize (Hmin k a0 b ltac:(lia) Ha0 Hb). lia.
        * destruct (decide (k = j)) as [->|Hkj].
          -- assert (a = a0) as -> by congruence.
             assert (b = b0) as -> by congruence. exact Hle.
          -- apply (Hmin k a b); [lia | assumption | assumption]. }
  split; [exact Hs|].
  intros k a b Hk Ha Hb. apply (Hmin k a b); auto.
  split; [exact Hk|].
  replace (length l) with (length l') by apply Hs.
  apply lookup_lt_is_Some. eauto.
Qed.

Lemma sortTodos_placed (l : list Todo) :
  shuffledFrom 0 l (sortTodos l) /\ placed (length l - 1) (sortTodos l).
Proof.
  unfold sortTodos.
  apply (forUpTo_invariant (fun i todos => shuffledFrom 0 l todos /\ placed i todos)).
  - lia.
  - split; [apply shuffledFrom_refl|]. intros k1 k2 a b Hk. lia.
  - intros i todos Hi [Hs Hp].
    assert (length todos = length l) as Hlen by apply Hs.
    destruct (inner_loop i todos ltac:(lia)) as [Hs' Hmin].
    set (todos' := forUpTo (i + 1) (length todos)
                     (fun j todos0 => exchange i j todos0) todos) in *.
    split.
    + eapply shuffledFrom_trans; [exact Hs|].
      apply (shuffledFrom_weaken 0 i); [lia | exact Hs'].
    + destruct Hs' as (_ & _ & Hfix & Hback).
      intros k1 k2 a b Hk1 Hk12 Ha Hb.
      destruct (decide (k1 = i)) as [->|Hne].
      * apply (Hmin k2 a b); assumption.
      * rewrite Hfix in Ha by lia.
        destruct (decide (k2 < i)) as [Hlt|Hge].
        -- rewrite Hfix in Hb by lia. apply (Hp k1 k2 a b); auto. lia.
        -- destruct (Hback k2 b ltac:(lia) Hb) as (k' & Hk' & Hb').
           apply (Hp k1 k' a b); auto; lia.
Qed.

Lemma sortTodos_ordered (l : list Todo) : ordered (sortTodos l).
Proof.
  destruct (sortTodos_placed l) as [(Hlen & _) Hp].
  intros i j a b Hij Ha Hb. apply (Hp i j a b); auto.
  assert (j < length (sortTodos l)) by (apply lookup_lt_is_Some; eauto).
  lia.
Qed.

Lemma exchange_ordered (i j : nat) (l : list Todo) :
  i < j -> ordered l -> exchange i j l = l.
Proof.
  intros Hij Hord. unfold exchange.
  destruct (l !! i) as [a|] eqn:Ha; [|reflexivity].
  destruct (l !! j) as [b|] eqn:Hb; [|reflexivity].
  specialize (Hord i j a b Hij Ha Hb). unfold rank in Hord.
  destruct (Nat.ltb_spec (statusOrder (Status b)) (statusOrder (Status a)));
    [lia | reflexivity].
Qed.

(** On a list in order no comparison exchanges anything. *)
Lemma sortTodos_fixes_ordered (l : list Todo) : ordered l -> sortTodos l = l.
Proof.
  intros Hord. unfold sortTodos.
  apply (forUpTo_invariant (fun _ todos => todos = l)); [lia | reflexivity |].
  intros i todos Hi ->.
  apply (forUpTo_invariant (fun _ todos => todos = l)); [lia | reflexivity |].
  intros j todos Hj ->. apply exchange_ordered; [lia | assumption].
Qed.

Lemma rank_completed (t : Todo) : Status t = TodoStatusCompleted -> rank t = 0.
Proof. intros E. unfold rank. rewrite E. reflexivity. Qed.

Lemma rank_in_progress (t : Todo) : Status t = TodoStatusInProgress -> rank t = 1.
Proof. intros E. unfold rank. rewrite E. reflexivity. Qed.

Lemma rank_other (t : Todo) :
  Status t <> TodoStatusCompleted -> Status t <> TodoStatusInProgress -> rank t = 2.
Proof.
  intros E1 E2. unfold rank, statusOrder.
  destruct (String.eqb_spec (Status t) TodoStatusCompleted); [contradiction|].
  destruct (String.eqb_spec (Status t) TodoStatusInProgress); [contradiction|].
  reflexivity.
Qed.

(** In a list in order a todo of smaller rank stands before one of greater
    rank. *)
Lemma ordered_precedes (l : list Todo) (i j : nat) (a b : Todo) :
  ordered l -> l !! i = Some a -> l !! j = Some b -> rank a < rank b -> i < j.
Proof.
  intros Hord Ha Hb Hlt.
  destruct (lt_eq_lt_dec i j) as [[Hij|Hij]|Hij]; [assumption| |].
  - subst j. assert (a = b) by congruence. subst b. lia.
  - specialize (Hord j i b a Hij Hb Ha). lia.
Qed.

(** C9: [sortTodos] returns a permutation of its list in which every
    completed todo stands before every todo in progress, and every todo in
    progress before every todo of another status (pending or unrecognized);
    a list already in that order is returned as it is, so sorting twice is
    sorting once. *)
Theorem sortTodos_sorts (l : list Todo) :
  sortTodos l ≡ₚ l
  /\ (forall (i j : nat) (a b : Todo),
        sortTodos l !! i = Some a -> sortTodos l !! j = Some b ->
        (Status a = TodoStatusCompleted /\ Status b = TodoStatusInProgress
         \/ Status a = TodoStatusInProgress
            /\ Status b <> TodoStatusCompleted /\ Status b <> TodoStatusInProgress) ->
        i < j)
  /\ (ordered l -> sortTodos l = l)
  /\ sortTodos (sortTodos l) = sortTodos l.
Proof.
  split; [apply sortTodos_placed|]. split.
  - intros i j a b Ha Hb Hcase.
    apply (ordered_precedes (sortTodos l) i j a b (sortTodos_ordered l) Ha Hb).
    destruct Hcase as [[E1 E2]|(E1 & E2 & E3)].
    + rewrite (rank_completed a E1), (rank_in_progress b E2). lia.
    + rewrite (rank_in_progress a E1), (rank_other b E2 E3). lia.
  - split; [apply sortTodos_fixes_ordered|].
    apply sortTodos_fixes_ordered, sortTodos_ordered.
Qed.

End SortTodos.

Example sortTodos_sample :
  Chat.sortTodos
    [Session.mkTodo "a" "pending" ""; Session.mkTodo "b" "completed" "";
     Session.mkTodo "c" "in_progress" ""; Session.mkTodo "d" "later" "";
     Session.mkTodo "e" "completed" ""; Session.mkTodo "f" "in_progress" ""]
  = [Session.mkTodo "b" "completed" ""; Session.mkTodo "e" "completed" "";
     Session.mkTodo "c" "in_progress" ""; Session.mkTodo "f" "in_progress" "";
     Session.mkTodo "a" "pending" ""; Session.mkTodo "d" "later" ""].
Proof. vm_compute. reflexivity. Qed.

(** On the two todos of [TextRenderer.twoTodos], in and out of order. *)
Lemma sortTodos_sorts_witness :
  Chat.sortTodos (rev TextRenderer.twoTodos) ≡ₚ rev TextRenderer.twoTodos
  /\ Chat.sortTodos TextRenderer.twoTodos = TextRenderer.twoTodos.
Proof.
  split.
  - exact (proj1 (sortTodos_sorts (rev TextRenderer.twoTodos))).
  - apply (proj1 (proj2 (proj2 (sortTodos_sorts TextRenderer.twoTodos)))).
    intros i j a b Hij Ha Hb.
    destruct i as [|[|i]]; destruct j as [|[|j]]; try lia;
      simpl in Ha, Hb; try discriminate.
    injection Ha as <-. injection Hb as <-. vm_compute. lia.
Defined.

(** ** The todo pill *)

Section StringFacts.
Local Open Scope string_scope.
Local Arguments String.append !_ _ / : simpl nomatch.

Lemma append_assoc (a b c : string) : (a ++ b) ++ c = a ++ (b ++ c).
Proof. induction a as [|x a IH]; simpl; [reflexivity | f_equal; exact IH]. Qed.

Lemma append_empty_r (a : string) : a ++ "" = a.
Proof. induction a as [|x a IH]; simpl; [reflexivity | f_equal; exact IH]. Qed.

Lemma length_append (a b : string) :
  String.length (a ++ b) = String.length a + String.length b.
Proof. induction a as [|c a IH]; simpl; [reflexivity | rewrite IH; reflexivity]. Qed.

Lemma Contains_refl (s : string) : Contains s s.
Proof. exists "", "". simpl. rewrite append_empty_r. reflexivity. Qed.

Lemma Contains_append_r (sub a s : string) : Contains sub s -> Contains sub (a ++ s).
Proof.
  intros (pre & post & ->). exists (a ++ pre), post. rewrite append_assoc. reflexivity.
Qed.

Lemma Contains_append_l (sub s b : string) : Contains sub s -> Contains sub (s ++ b).
Proof.
  intros (pre & post & ->). exists pre, (post ++ b).
  rewrite !append_assoc. reflexivity.
Qed.

Lemma Contains_trans (a b c : string) : Contains a b -> Contains b c -> Contains a c.
Proof.
  intros Hab (pre & post & ->). apply Contains_append_r, Contains_append_l, Hab.
Qed.

Lemma Contains_nonempty (sub s : string) : Contains sub s -> sub <> "" -> s <> "".
Proof.
  intros (pre & post & ->) Hsub Hs. apply Hsub.
  destruct pre; [|discriminate]. destruct sub; [reflexivity | discriminate].
Qed.

Lemma plain_append (a b : string) : plain (a ++ b) = plain a && plain b.
Proof.
  induction a as [|x a IH]; simpl; [reflexivity|].
  rewrite IH, andb_assoc. reflexivity.
Qed.

Lemma plain_string_of_uint (d : Decimal.uint) : plain (NilEmpty.string_of_uint d) = true.
Proof. induction d; simpl; auto. Qed.

Lemma plain_fmtD (n : nat) : plain (GoStrings.fmtD n) = true.
Proof.
  unfold GoStrings.fmtD, NilZero.string_of_uint.
  destruct (Nat.to_uint n); try reflexivity; apply plain_string_of_uint.
Qed.

Lemma plain_progressText (completed total : nat) :
  plain (Chat.progressText completed total) = true.
Proof.
  unfold Chat.progressText. rewrite !plain_append, !plain_fmtD. reflexivity.
Qed.

Lemma progressText_nonempty (completed total : nat) :
  Chat.progressText completed total <> "".
Proof.
  unfold Chat.progressText. intros Heq.
  destruct (GoStrings.fmtD completed); discriminate.
Qed.

End StringFacts.

Section TodoPill.
Import GoLoops Session Lipgloss Chat.
Local Open Scope string_scope.
Context `{Lipgloss}.

(** What the pills need of the styling library: a stretch of printable ASCII
    in a text is still there, in one piece, when the text has been rendered.
    Colours, padding and borders add to a text and leave such a stretch as
    it is. *)
Hypothesis Render_keeps_plain :
  forall (st : Style) (text sub : string),
    plain sub = true -> Contains sub text -> Contains sub (Render st text).

Lemma scanLoop (i : nat) (todos : list Todo) (n : nat) (cur : option Todo) :
  (rangeFrom i (fun _ todo c => scanTodo todo c) todos (n, cur)).1
  = n + countOf TodoStatusCompleted todos.
Proof.
  revert i n cur. induction todos as [|t todos IH]; intros i n cur.
  - simpl. unfold countOf. simpl. lia.
  - simpl rangeFrom. rewrite countOf_cons.
    remember (scanTodo t (n, cur)) as c eqn:Hc. unfold scanTodo in Hc.
    destruct (String.eqb_spec (Status t) TodoStatusCompleted) as [E|E].
    + subst c. rewrite IH. rewrite decide_True by assumption. lia.
    + rewrite decide_False by assumption.
      destruct (String.eqb (Status t) TodoStatusInProgress);
        [destruct cur|]; subst c; rewrite IH; lia.
Qed.

(** The loop of [todoPill] counts the completed todos. *)
Lemma scanTodos_completed (todos : list Todo) :
  (scanTodos todos).1 = countOf TodoStatusCompleted todos.
Proof. unfold scanTodos, forRange. rewrite scanLoop. reflexivity. Qed.

(** [fmt.Sprintf("%d/%d", completed, total)] writes the fraction. *)
Lemma progressText_fraction (completed total : nat) :
  progressText completed total = fraction completed total.
Proof. reflexivity. Qed.

Lemma plain_fraction (completed total : nat) : plain (fraction completed total) = true.
Proof. rewrite <- progressText_fraction. apply plain_progressText. Qed.

Lemma fraction_nonempty (completed total : nat) : fraction completed total <> "".
Proof. rewrite <- progressText_fraction. apply progressText_nonempty. Qed.

Lemma todoPillContent_progress (todos : list Todo) (spinnerView : string)
  (pillsPanelFocused : bool) (t : Theme) :
  Contains (fraction (countOf TodoStatusCompleted todos) (length todos))
           (todoPillContent todos spinnerView pillsPanelFocused t).
Proof.
  unfold todoPillContent. rewrite <- scanTodos_completed, <- progressText_fraction.
  destruct (scanTodos todos) as [completed currentTodo]. simpl.
  set (p := progressText completed (length todos)).
  destruct pillsPanelFocused; [|destruct currentTodo as [cur|]].
  - do 3 apply Contains_append_r. apply Contains_refl.
  - do 4 apply Contains_append_r. apply Contains_append_l, Contains_refl.
  - do 3 apply Contains_append_r. apply Contains_refl.
Qed.

Lemma todoPillContent0_progress (todos : list Todo) (spinnerView : string) (t : Theme) :
  Contains (fraction (countOf TodoStatusCompleted todos) (length todos))
           (todoPillContent0 todos spinnerView t).
Proof.
  unfold todoPillContent0. rewrite <- scanTodos_completed, <- progressText_fraction.
  destruct (scanTodos todos) as [completed currentTodo]. simpl.
  set (p := progressText completed (length todos)).
  assert (Contains p (Render (Foreground (Base t) (FgMuted t)) p)) as Hp
    by (apply Render_keeps_plain; [apply plain_progressText | apply Contains_refl]).
  destruct currentTodo as [cur|].
  - do 4 apply Contains_append_r. apply Contains_append_l, Hp.
  - do 4 apply Contains_append_r. exact Hp.
Qed.

(** C6: in both versions of [todoPill], the pill is the empty string exactly
    for the empty list; for a list that is not empty the text the pill
    returns contains the fraction completed/total, in decimal, completed
    being the number of todos whose status is completed and total the length
    of the list. *)
Theorem todoPill_empty_iff_and_progress (todos : list Todo) (spinnerView : string)
  (focused pillsPanelFocused : bool) (t : Theme) :
  (todoPill todos spinnerView focused pillsPanelFocused t = "" <-> todos = [])
  /\ (todoPill0 todos spinnerView t = "" <-> todos = [])
  /\ (todos <> [] ->
      let progress := fraction (countOf TodoStatusCompleted todos) (length todos) in
      Contains progress (todoPill todos spinnerView focused pillsPanelFocused t)
      /\ Contains progress (todoPill0 todos spinnerView t)).
Proof.
  pose proof (todoPillContent_progress todos spinnerView pillsPanelFocused t) as Hc.
  pose proof (todoPillContent0_progress todos spinnerView t) as Hc0.
  pose proof (fraction_nonempty (countOf TodoStatusCompleted todos) (length todos)) as Hp.
  pose proof (plain_fraction (countOf TodoStatusCompleted todos) (length todos)) as Hplain.
  apply (Render_keeps_plain (todoPillStyle focused pillsPanelFocused t) _ _ Hplain) in Hc.
  apply (Render_keeps_plain (todoPillStyle0 t) _ _ Hplain) in Hc0.
  unfold todoPill, todoPill0.
  destruct todos as [|todo todos].
  - simpl. repeat split; intros; congruence.
  - change (Nat.eqb (length (todo :: todos)) 0) with false. cbv iota.
    split; [|split].
    + split; [|discriminate]. intros Heq. exfalso.
      apply (Contains_nonempty _ _ Hc Hp Heq).
    + split; [|discriminate]. intros Heq. exfalso.
      apply (Contains_nonempty _ _ Hc0 Hp Heq).
    + intros _. cbv zeta. split; assumption.
Qed.

End TodoPill.

(** *** The pill in plain text *)

Section TextPill.
Import Lipgloss TextRenderer.
Local Open Scope string_scope.
Local Arguments String.append !_ _ / : simpl nomatch.

Lemma text_Render_nonempty (st : @Style textLipgloss) (s : string) :
  s <> "" -> @Render textLipgloss st s <> "".
Proof.
  intros Hs. apply (Contains_nonempty s); [|exact Hs].
  exists (spaces (fst st)), (spaces (snd st)). reflexivity.
Qed.

Lemma text_Render_keeps_plain (st : @Style textLipgloss) (text sub : string) :
  plain sub = true -> Contains sub text -> Contains sub (@Render textLipgloss st text).
Proof.
  intros _ Hsub. apply Contains_append_r, Contains_append_l, Hsub.
Qed.

Example decimal_samples :
  decimal 0 = "0" /\ decimal 7 = "7" /\ decimal 12 = "12" /\ decimal 305 = "305"
  /\ fraction 3 10 = "3/10".
Proof. repeat split. Qed.

Example todoPill_text :
  @Chat.todoPill textLipgloss twoTodos "*" false false textTheme
  = " * To-Do 1/2  Fixing the build "
  /\ @Chat.todoPill textLipgloss twoTodos "*" false true textTheme = " To-Do 1/2 "
  /\ @Chat.todoPill0 textLipgloss twoTodos "*" textTheme
     = " * To-Do 1/2  Fixing the build "
  /\ @Chat.todoPill textLipgloss [] "*" false false textTheme = "".
Proof. vm_compute. repeat split. Qed.

End TextPill.

(** With the renderer of plain text, on one completed todo out of two: both
    pills show "1/2". *)
Lemma todoPill_empty_iff_and_progress_witness :
  TextRenderer.twoTodos <> []
  /\ Contains "1/2"
       (@Chat.todoPill TextRenderer.textLipgloss TextRenderer.twoTodos
          "*" false false TextRenderer.textTheme)
  /\ Contains "1/2"
       (@Chat.todoPill0 TextRenderer.textLipgloss TextRenderer.twoTodos
          "*" TextRenderer.textTheme).
Proof.
  split; [discriminate|].
  refine (proj2 (proj2
    (todoPill_empty_iff_and_progress text_Render_keeps_plain
       TextRenderer.twoTodos "*" false false TextRenderer.textTheme)) _).
  discriminate.
Defined.

(** ** The message queue *)

Section MessageQueueFacts.
Import MessageQueue.

Lemma flagMatches_idle : flagMatches idle.
Proof. reflexivity. Qed.

Lemma flagMatches_startNext (q : Queue) :
  inProgress q = false -> active q = [] -> flagMatches (startNext q).
Proof.
  intros Hflag Hact. unfold startNext, flagMatches.
  destruct (entries q); simpl; rewrite ?Hflag, Hact; reflexivity.
Qed.

Lemma flagMatches_Enqueue (e : QueueEntry) (q : Queue) :
  flagMatches q -> flagMatches (Enqueue e q).
Proof.
  intros Hq. unfold Enqueue.
  destruct (closed q); [exact Hq|]. simpl.
  destruct (inProgress q) eqn:Hflag.
  - unfold flagMatches in *. simpl. rewrite Hflag in Hq. exact Hq.
  - apply flagMatches_startNext; [reflexivity|]. simpl.
    unfold flagMatches in Hq. rewrite Hflag in Hq.
    destruct (active q); [reflexivity | discriminate].
Qed.

Lemma flagMatches_OnTurnComplete (q : Queue) :
  flagMatches q -> flagMatches (OnTurnComplete q).
Proof.
  intros Hq. unfold OnTurnComplete.
  apply flagMatches_startNext; [reflexivity|]. simpl.
  unfold flagMatches in Hq.
  destruct (active q) as [|t [|t' rest]]; [reflexivity | reflexivity |].
  destruct (inProgress q); discriminate.
Qed.

Lemma flagMatches_drain (q : Queue) : flagMatches q -> flagMatches (drain q).
Proof. intros Hq. exact Hq. Qed.

Lemma registryOK_insert (sys : gmap string Queue) (id : string) (q : Queue) :
  registryOK sys -> flagMatches q -> registryOK (<[id := q]> sys).
Proof.
  intros Hsys Hq id' q' Hlook.
  destruct (decide (id = id')) as [->|Hne].
  - rewrite lookup_insert_eq in Hlook. injection Hlook as <-. exact Hq.
  - rewrite lookup_insert_ne in Hlook by assumption. exact (Hsys id' q' Hlook).
Qed.

Lemma registryOK_step (sys : gmap string Queue) (ev : Event) :
  registryOK sys -> registryOK (step sys ev).
Proof.
  intros Hsys. destruct ev as [id|id input|id|id|id]; simpl;
    destruct (sys !! id) as [q|] eqn:Hq; try exact Hsys.
  - apply registryOK_insert; [exact Hsys | apply flagMatches_idle].
  - apply registryOK_insert; [exact Hsys|].
    apply flagMatches_Enqueue, (Hsys id q Hq).
  - destruct (active q) eqn:Hact; [exact Hsys|].
    apply registryOK_insert; [exact Hsys|].
    apply flagMatches_OnTurnComplete, (Hsys id q Hq).
  - apply registryOK_insert; [exact Hsys|].
    apply flagMatches_drain, (Hsys id q Hq).
  - destruct (closed q && negb (inProgress q)); [|exact Hsys].
    intros id' q' Hlook. apply lookup_delete_Some in Hlook as [_ Hlook].
    exact (Hsys id' q' Hlook).
Qed.

Lemma registryOK_after (history : list Event) : registryOK (after history).
Proof.
  unfold after. induction history as [|ev history IH] using rev_ind.
  - intros id q Hlook. simpl in Hlook. rewrite lookup_empty in Hlook. discriminate.
  - rewrite foldl_app. simpl. apply registryOK_step, IH.
Qed.

(** C2: after every history of submissions, terminal states and shutdown
    steps, interleaved in any order over any sessions, each session has at
    most one active Turn Engine execution. *)
Theorem at_most_one_active_turn (history : list Event) (id : string) :
  activeTurns (after history) id <= 1.
Proof.
  unfold activeTurns. destruct (after history !! id) as [q|] eqn:Hq; [|lia].
  pose proof (registryOK_after history id q Hq) as Hflag.
  unfold flagMatches in Hflag. destruct (inProgress q); lia.
Qed.

(** Three messages submitted while the first Turn runs are taken one at a
    time, in the order of their arrival. *)
Example queue_in_order :
  let m1 := NewMessage "m1" in
  let m2 := NewMessage "m2" in
  let m3 := NewMessage "m3" in
  after [StartOrGetSession "s"; Submit "s" m1; Submit "s" m2; Submit "s" m3] !! "s"
    = Some (mkQueue [m2; m3] true [m1] false)
  /\ after [StartOrGetSession "s"; Submit "s" m1; Submit "s" m2; Submit "s" m3;
            TurnTerminal "s"] !! "s"
    = Some (mkQueue [m3] true [m2] false)
  /\ after [StartOrGetSession "s"; Submit "s" m1; Submit "s" m2; Submit "s" m3;
            TurnTerminal "s"; TurnTerminal "s"; TurnTerminal "s"] !! "s"
    = Some (mkQueue [] false [] false).
Proof. vm_compute. repeat split. Qed.

End MessageQueueFacts.

(** ** The context window manager *)

Section ContextWindowFacts.
Import ContextWindow.
Variables (threshold K : nat) (summarize : list Message -> option Message).

Lemma settled_length (log : list Message) : length (settled log) <= length log.
Proof.
  induction log as [|m log IH]; simpl; [lia|].
  destruct (awaiting m); simpl; lia.
Qed.

Lemma oldestRun_length (log : list Message) :
  length (oldestRun K log) <= length log - K.
Proof.
  unfold oldestRun. etransitivity; [apply settled_length|].
  rewrite length_take. lia.
Qed.

(** What compaction does to a log, when it changes it at all. *)
Lemma compact_cases (log : list Message) :
  compact threshold K summarize log = log
  \/ exists (s : Message) (r : nat),
       1 <= r <= length log - K
       /\ compact threshold K summarize log = s :: drop r log.
Proof.
  unfold compact.
  destruct (Nat.ltb threshold (estimate log)); [|left; reflexivity].
  pose proof (oldestRun_length log) as Hlen.
  destruct (oldestRun K log) as [|m0 run] eqn:Hrun; [left; reflexivity|].
  destruct (summarize (m0 :: run)) as [s|]; [|left; reflexivity].
  right. eexists _, (length (m0 :: run)). split; [|reflexivity].
  simpl in *. lia.
Qed.

Lemma keepsRecent_refl (l : list Message) : keepsRecent K l l.
Proof. exists 0, []. split; [reflexivity | right; split; reflexivity]. Qed.

Lemma keepsRecent_mostRecent (l1 l2 : list Message) :
  keepsRecent K l1 l2 -> mostRecent K l1 = mostRecent K l2.
Proof.
  intros (n & pre & -> & [Hn|[-> ->]]); [|reflexivity].
  unfold mostRecent. rewrite length_app, length_drop.
  replace (length pre + (length l2 - n) - K)
    with (length pre + (length l2 - n - K)) by lia.
  rewrite drop_app_add, drop_drop. f_equal. lia.
Qed.

Lemma keepsRecent_snoc (l1 l2 : list Message) (m : Message) :
  keepsRecent K l1 l2 -> keepsRecent K (l1 ++ [m]) (l2 ++ [m]).
Proof.
  intros (n & pre & -> & Hn). exists n, pre. split.
  - destruct Hn as [Hn|[-> ->]].
    + rewrite drop_app_le by lia. rewrite <- app_assoc. reflexivity.
    + reflexivity.
  - rewrite length_app. simpl. destruct Hn as [Hn|[-> ->]]; [left; lia|].
    right. split; reflexivity.
Qed.

Lemma keepsRecent_compact (l1 l2 : list Message) :
  keepsRecent K l1 l2 -> keepsRecent K (compact threshold K summarize l1) l2.
Proof.
  intros Hk. destruct (compact_cases l1) as [->|(s & r & Hr & ->)]; [exact Hk|].
  destruct Hk as (n & pre & -> & Hn).
  rewrite length_app, length_drop in Hr.
  destruct Hn as [Hn|[-> ->]].
  - destruct (decide (r <= length pre)) as [Hle|Hgt].
    + exists n, (s :: drop r pre). split; [|left; exact Hn].
      rewrite drop_app_le by assumption. reflexivity.
    + exists (n + (r - length pre)), [s]. split; [|left; lia].
      rewrite drop_app_ge by lia. rewrite drop_drop. reflexivity.
  - simpl in Hr. exists r, [s]. split; [|left; lia].
    rewrite drop_0. reflexivity.
Qed.

Lemma keepsRecent_appendAll (log ms : list Message) :
  keepsRecent K (appendAll threshold K summarize log ms) (log ++ ms).
Proof.
  unfold appendAll. induction ms as [|m ms IH] using rev_ind.
  - simpl. rewrite app_nil_r. apply keepsRecent_refl.
  - rewrite foldl_snoc, app_assoc. unfold append at 1.
    apply keepsRecent_compact, keepsRecent_snoc, IH.
Qed.

(** C3: whatever the log, the threshold and the answer of the summarization
    request, compaction leaves the [K] most recent messages as they were; so
    does every append, with the compaction it may trigger; and after any
    sequence of appends the [K] most recent messages of the log are the [K]
    most recent of all that was appended. *)
Theorem compaction_keeps_most_recent (log ms : list Message) (m : Message) :
  mostRecent K (compact threshold K summarize log) = mostRecent K log
  /\ mostRecent K (append threshold K summarize log m) = mostRecent K (log ++ [m])
  /\ mostRecent K (appendAll threshold K summarize log ms) = mostRecent K (log ++ ms).
Proof.
  split; [|split].
  - apply keepsRecent_mostRecent, keepsRecent_compact, keepsRecent_refl.
  - apply keepsRecent_mostRecent, keepsRecent_compact, keepsRecent_refl.
  - apply keepsRecent_mostRecent, keepsRecent_appendAll.
Qed.

End ContextWindowFacts.

Section ContextWindowScenario.
Import ContextWindow.

(** Threshold 8, K = 2: the ninth append crosses the threshold and leaves one
    summary, which names the seven messages it replaces, and the two most
    recent messages. *)
Example nine_appends :
  appendAll 8 2 short_summary [] (map unit_message (seq 1 9))
  = [mkMessage 0 System ["summary"] false 1 [1; 2; 3; 4; 5; 6; 7];
     unit_message 8; unit_message 9].
Proof. vm_compute. reflexivity. Qed.

End ContextWindowScenario.

(** ** The job registry *)

Section JobFacts.
Import Jobs.
Variable unknownJob : KillResult.

(** C7: JobKill on a job that has exited returns success and leaves the
    registry as it is; on every job identifier, a second JobKill returns what
    the first returned and leaves the registry the first left. *)
Theorem JobKill_idempotent (jobID : string) (reg : gmap string BackgroundJob) :
  (forall j : BackgroundJob,
     reg !! jobID = Some j -> running j = false ->
     JobKill unknownJob jobID reg = (Success, reg))
  /\ JobKill unknownJob jobID (JobKill unknownJob jobID reg).2
     = JobKill unknownJob jobID reg.
Proof.
  split.
  - intros j Hj Hexited. unfold JobKill. rewrite Hj, Hexited. reflexivity.
  - unfold JobKill at 2 3.
    destruct (reg !! jobID) as [j|] eqn:Hj.
    + destruct (running j) eqn:Hrun; simpl.
      * unfold JobKill. rewrite lookup_insert_eq. reflexivity.
      * unfold JobKill. rewrite Hj, Hrun. reflexivity.
    + simpl. unfold JobKill. rewrite Hj. reflexivity.
Qed.

End JobFacts.

(** *** The job registry at work *)

Example JobKill_running :
  Jobs.JobKill (Jobs.Failure "unknown job") "J2" twoJobs
  = (Jobs.Success,
     {[ "J1" := Jobs.mkJob "s1" "go test ./..." false "ok";
        "J2" := Jobs.mkJob "s1" "make watch" false "" ]}).
Proof. vm_compute. reflexivity. Qed.

(** On the job [J1], which has exited. *)
Lemma JobKill_idempotent_witness :
  Jobs.JobKill (Jobs.Failure "unknown job") "J1" twoJobs = (Jobs.Success, twoJobs).
Proof.
  apply (proj1 (JobKill_idempotent (Jobs.Failure "unknown job") "J1" twoJobs)
           (Jobs.mkJob "s1" "go test ./..." false "ok")).
  - vm_compute. reflexivity.
  - reflexivity.
Defined.

(** ** getGitStatus *)

Section GitStatusFacts.
Import GoStrings VCS.

(** On a branch whose upstream comparison succeeds with two fields, the
    counts [getGitStatus] stores are the lengths of the fields, and zero for
    a field "0". *)
Lemma aheadBehind_lengths (r : GitRepo) (status : Status) (output p0 p1 : string) :
  IsDetached status = false ->
  CurrentBranch status <> "" ->
  rev_list_left_right_count r = Some output ->
  Fields (TrimSpace output) = [p0; p1] ->
  AheadCount (aheadBehind r status)
  = (if String.eqb (TrimSpace p0) "0" then AheadCount status else len (TrimSpace p0))
  /\ BehindCount (aheadBehind r status)
     = (if String.eqb (TrimSpace p1) "0" then BehindCount status else len (TrimSpace p1)).
Proof.
  intros Hdet Hbr Hout Hfields. unfold aheadBehind.
  rewrite Hdet, Hout, Hfields.
  apply String.eqb_neq in Hbr. rewrite Hbr. simpl.
  destruct (String.eqb (TrimSpace p0) "0"), (String.eqb (TrimSpace p1) "0");
    simpl; split; reflexivity.
Qed.

End GitStatusFacts.

(** C1, at the repository [VCS.repo_12_3]: `git rev-list --left-right --count`
    prints "12<TAB>3", whose two fields denote 12 and 3, and [getGitStatus]
    stores the lengths of the fields, 2 and 1. *)
Theorem getGitStatus_counts_are_field_lengths :
  VCS.rev_list_left_right_count VCS.repo_12_3
    = Some ("12" ++ String (ascii_of_nat 9) ("3" ++ String (ascii_of_nat 10) ""))%string
  /\ GoStrings.Fields (GoStrings.TrimSpace
       ("12" ++ String (ascii_of_nat 9) ("3" ++ String (ascii_of_nat 10) ""))%string)
     = ["12"; "3"]%string
  /\ GoStrings.atoi "12" = Some 12%Z
  /\ GoStrings.atoi "3" = Some 3%Z
  /\ VCS.AheadCount (VCS.getGitStatus VCS.repo_12_3) = 2%Z
  /\ VCS.BehindCount (VCS.getGitStatus VCS.repo_12_3) = 1%Z.
Proof. vm_compute. repeat split. Qed.

(* ===================================================================== *)
(** * Further properties of the code *)
(* ===================================================================== *)

(** ** Runes *)

Section Utf8Facts.
Import GoStrings.
Local Open Scope string_scope.
Local Arguments String.append !_ _ / : simpl nomatch.

Lemma first_sz (b : N) (size : nat) (lo hi : N) :
  first b = sz size lo hi ->
  2 <= size <= 4 /\ (locb <= lo)%N /\ (hi <= hicb)%N.
Proof.
  unfold first, locb, hicb.
  repeat match goal with
         | |- context [if ?c then _ else _] => destruct c
         end;
    intros Heq; try discriminate; injection Heq as <- <- <-; repeat split; lia.
Qed.

Lemma continuation_byte (c : ascii) :
  N.ltb (byte c) locb || N.ltb hicb (byte c) = false -> RuneStart (byte c) = false.
Proof.
  destruct c as [[] [] [] [] [] [] [] []]; vm_compute; intros; congruence.
Qed.

Lemma first_RuneStart (c : ascii) : first (byte c) <> xx -> RuneStart (byte c) = true.
Proof.
  destruct c as [[] [] [] [] [] [] [] []]; vm_compute; intros; congruence.
Qed.

Lemma accepted_continuation (b : N) (size : nat) (lo hi : N) (c : ascii) :
  first b = sz size lo hi ->
  N.ltb (byte c) lo || N.ltb hi (byte c) = false -> RuneStart (byte c) = false.
Proof.
  intros Hf Hc. apply first_sz in Hf as (_ & Hlo & Hhi).
  apply continuation_byte.
  apply orb_false_iff in Hc as [H1 H2]. apply N.ltb_ge in H1, H2.
  apply orb_false_iff. split; apply N.ltb_ge; lia.
Qed.

Lemma IsSpace_RuneError : IsSpace RuneError = false.
Proof. reflexivity. Qed.

(** A byte below 0x80 is a rune of its own. *)
Lemma Decode_ascii (c : ascii) (s : string) :
  N.ltb (byte c) RuneSelf = true -> DecodeRuneInString (String c s) = (byte c, 1).
Proof.
  intros Hc. unfold DecodeRuneInString, first. 
  change (0x80)%N with RuneSelf at 1. rewrite Hc. reflexivity.
Qed.

Ltac decode_cases :=
  repeat match goal with
         | |- context [match first ?b with _ => _ end] => destruct (first b) eqn:?
         | |- context [if ?c then _ else _] => destruct c eqn:?
         | H : context [match first ?b with _ => _ end] |- _ => destruct (first b) eqn:?
         | H : context [if ?c then _ else _] |- _ => destruct c eqn:?
         end.

(** The width of a rune: at least one byte, and no more than there are. *)
Lemma Decode_size (s : string) :
  s <> "" -> 1 <= (DecodeRuneInString s).2 <= String.length s.
Proof.
  intros Hs. destruct s as [|c0 [|c1 [|c2 [|c3 t]]]]; [congruence|..];
    unfold DecodeRuneInString; decode_cases; simpl; lia.
Qed.

(** A rune that was decoded, and is not the error rune, is decoded the
    same whatever follows the text. *)
Lemma Decode_append (s rest : string) :
  (DecodeRuneInString s).1 <> RuneError ->
  DecodeRuneInString (s ++ rest) = DecodeRuneInString s.
Proof.
  destruct s as [|c0 [|c1 [|c2 [|c3 t]]]]; simpl; intros Hr;
    try (exfalso; apply Hr; reflexivity);
    revert Hr; decode_cases; intros Hr; try reflexivity;
    try (exfalso; apply Hr; reflexivity);
    destruct rest; try reflexivity; decode_cases; try reflexivity;
    try (exfalso; apply Hr; reflexivity).
Qed.

(** The bytes of a rune after its first are continuation bytes. *)
Lemma Decode_continuation (c0 : ascii) (t0 : string) :
  continuation (upto ((DecodeRuneInString (String c0 t0)).2 - 1) t0) = true.
Proof.
  destruct t0 as [|c1 [|c2 [|c3 t]]];
    unfold DecodeRuneInString; decode_cases; try reflexivity; simpl;
    repeat match goal with
           | Hf : first _ = sz _ _ _, H : N.ltb (byte ?c) _ || N.ltb _ (byte ?c) = false |- _ =>
               rewrite (accepted_continuation _ _ _ _ c Hf H); clear H
           | H : N.ltb (byte ?c) locb || N.ltb hicb (byte ?c) = false |- _ =>
               rewrite (continuation_byte c H); clear H
           end; reflexivity.
Qed.

(** A rune that is not the error rune starts with a byte that starts a
    rune. *)
Lemma Decode_RuneStart (s : string) :
  (DecodeRuneInString s).1 <> RuneError ->
  exists (c : ascii) (t : string), s = String c t /\ RuneStart (byte c) = true.
Proof.
  destruct s as [|c t]; [intros Hr; exfalso; apply Hr; reflexivity|].
  intros Hr. exists c, t. split; [reflexivity|].
  apply first_RuneStart. intros Hx. apply Hr.
  unfold DecodeRuneInString. rewrite Hx. reflexivity.
Qed.

Lemma upto_from (i : nat) (s : string) : upto i s ++ from i s = s.
Proof.
  revert i. induction s as [|c s IH]; intros [|i]; simpl; try reflexivity.
  f_equal. apply IH.
Qed.

Lemma length_from (i : nat) (s : string) :
  String.length (from i s) = String.length s - i.
Proof.
  revert i. induction s as [|c s IH]; intros [|i]; simpl; try reflexivity. apply IH.
Qed.

Lemma length_upto (i : nat) (s : string) :
  String.length (upto i s) = Nat.min i (String.length s).
Proof.
  revert i. induction s as [|c s IH]; intros [|i]; simpl; try reflexivity.
  rewrite IH. reflexivity.
Qed.

Lemma from_nonempty (i : nat) (s : string) : i < String.length s -> from i s <> "".
Proof.
  intros Hi Hs. pose proof (length_from i s) as Hl. rewrite Hs in Hl. simpl in Hl. lia.
Qed.

(** The last byte of a text. *)
Lemma last_byte (s : string) :
  s <> "" ->
  exists (pre : string) (c : ascii),
    s = pre ++ String c "" /\ at_ s (String.length s - 1) = byte c.
Proof.
  induction s as [|d s IH]; [congruence|]. intros _.
  destruct s as [|e s].
  - exists "", d. split; reflexivity.
  - destruct IH as (pre & c & Hs & Hat); [discriminate|].
    exists (String d pre), c. split.
    + simpl. rewrite <- Hs. reflexivity.
    + rewrite <- Hat. simpl. rewrite Nat.sub_0_r. reflexivity.
Qed.

Lemma backToRuneStart_le (n : nat) (s : string) (lim start : Z) :
  (backToRuneStart n s lim start <= start)%Z.
Proof.
  revert start. induction n as [|n IH]; intros start; simpl; [lia|].
  destruct (Z.ltb start lim); [lia|].
  destruct (RuneStart _); [lia|]. specialize (IH (start - 1)%Z). lia.
Qed.

(** The width of the last rune. *)
Lemma DecodeLast_size (s : string) :
  s <> "" -> 1 <= (DecodeLastRuneInString s).2 <= String.length s.
Proof.
  intros Hs. assert (1 <= String.length s) as Hlen by (destruct s; [congruence | simpl; lia]).
  unfold DecodeLastRuneInString.
  destruct (Z.eqb_spec (Z.of_nat (String.length s)) 0) as [E|E]; [lia|].
  destruct (N.ltb _ RuneSelf); [simpl; lia|].
  match goal with
  | |- context [backToRuneStart ?n ?t ?lim ?st] =>
      pose proof (backToRuneStart_le n t lim st) as Hle;
      set (start := backToRuneStart n t lim st) in *
  end.
  set (start' := if Z.ltb start 0 then 0%Z else start).
  destruct (DecodeRuneInString (from (Z.to_nat start') s)) as [r size] eqn:Hd.
  destruct (Z.eqb_spec (start' + Z.of_nat size) (Z.of_nat (String.length s))) as [Hend|Hend];
    [|simpl; lia].
  simpl.
  assert (from (Z.to_nat start') s <> "") as Hne.
  { apply from_nonempty. subst start'. destruct (Z.ltb_spec start 0); lia. }
  pose proof (Decode_size _ Hne) as Hsz. rewrite Hd in Hsz. simpl in Hsz.
  subst start'. destruct (Z.ltb_spec start 0); lia.
Qed.

(** A last rune that is not the error rune is the rune decoded from the last
    bytes of the text. *)
Lemma DecodeLast_Decode (s : string) :
  (DecodeLastRuneInString s).1 <> RuneError ->
  exists pre q : string,
    s = pre ++ q
    /\ String.length q = (DecodeLastRuneInString s).2
    /\ DecodeRuneInString q = DecodeLastRuneInString s.
Proof.
  unfold DecodeLastRuneInString.
  destruct (Z.eqb_spec (Z.of_nat (String.length s)) 0) as [E|E];
    [intros Hr; exfalso; apply Hr; reflexivity|].
  assert (s <> "") as Hs by (intros ->; apply E; reflexivity).
  destruct (last_byte s Hs) as (pre & c & Heq & Hat).
  replace (Z.to_nat (Z.of_nat (String.length s) - 1)) with (String.length s - 1) by lia.
  rewrite Hat.
  destruct (N.ltb (byte c) RuneSelf) eqn:Hc.
  - intros _. exists pre, (String c ""). split; [exact Heq|]. split; [reflexivity|].
    apply Decode_ascii, Hc.
  - match goal with
    | |- context [backToRuneStart ?n ?t ?lim ?st] =>
        set (start := backToRuneStart n t lim st)
    end.
    set (start' := if Z.ltb start 0 then 0%Z else start).
    assert (0 <= start')%Z as Hpos by (subst start'; destruct (Z.ltb_spec start 0); lia).
    destruct (DecodeRuneInString (from (Z.to_nat start') s)) as [r size] eqn:Hd.
    destruct (Z.eqb_spec (start' + Z.of_nat size) (Z.of_nat (String.length s))) as [Hend|Hend];
      [|intros Hr; exfalso; apply Hr; reflexivity].
    intros _. exists (upto (Z.to_nat start') s), (from (Z.to_nat start') s).
    split; [symmetry; apply upto_from|]. split; [|exact Hd].
    rewrite length_from. simpl. lia.
Qed.

End Utf8Facts.

(** ** White space and fields *)

Section SpaceFacts.
Import GoStrings.
Local Open Scope string_scope.
Local Arguments String.append !_ _ / : simpl nomatch.

Lemma trimLeftLoop_S (f : N -> bool) (n : nat) (s : string) :
  s <> "" ->
  trimLeftLoop f (S n) s
  = if f (DecodeRuneInString s).1
    then trimLeftLoop f n (from (DecodeRuneInString s).2 s)
    else s.
Proof.
  destruct s as [|c t]; [congruence|]. intros _. cbn [trimLeftLoop].
  destruct (DecodeRuneInString (String c t)). reflexivity.
Qed.

Lemma trimRightLoop_S (f : N -> bool) (n : nat) (s : string) :
  s <> "" ->
  trimRightLoop f (S n) s
  = if f (DecodeLastRuneInString s).1
    then trimRightLoop f n (upto (String.length s - (DecodeLastRuneInString s).2) s)
    else s.
Proof.
  destruct s as [|c t]; [congruence|]. intros _. cbn [trimRightLoop].
  destruct (DecodeLastRuneInString (String c t)). reflexivity.
Qed.

Lemma fieldsLoop_S (f : N -> bool) (n : nat) (cur s : string) :
  s <> "" ->
  fieldsLoop f (S n) cur s
  = if f (DecodeRuneInString s).1
    then closeField cur (fieldsLoop f n "" (from (DecodeRuneInString s).2 s))
    else fieldsLoop f n (cur ++ upto (DecodeRuneInString s).2 s)
           (from (DecodeRuneInString s).2 s).
Proof.
  destruct s as [|c t]; [congruence|]. intros _. cbn [fieldsLoop].
  destruct (DecodeRuneInString (String c t)). reflexivity.
Qed.

(** The loops end within [len(s)] rounds: more rounds change nothing. *)
Lemma trimLeftLoop_rounds (f : N -> bool) (n m : nat) (s : string) :
  String.length s <= n -> String.length s <= m ->
  trimLeftLoop f n s = trimLeftLoop f m s.
Proof.
  revert m s. induction n as [|n IH]; intros m s Hn Hm.
  - destruct s; [destruct m; reflexivity | simpl in Hn; lia].
  - destruct s as [|c t] eqn:Hs; [destruct m; reflexivity|].
    destruct m as [|m]; [simpl in Hm; lia|].
    rewrite <- Hs in *. assert (s <> "") as Hne by (rewrite Hs; discriminate).
    rewrite !trimLeftLoop_S by exact Hne.
    pose proof (Decode_size s Hne) as Hsz.
    destruct (f _); [|reflexivity]. apply IH; rewrite length_from; lia.
Qed.

Lemma trimRightLoop_rounds (f : N -> bool) (n m : nat) (s : string) :
  String.length s <= n -> String.length s <= m ->
  trimRightLoop f n s = trimRightLoop f m s.
Proof.
  revert m s. induction n as [|n IH]; intros m s Hn Hm.
  - destruct s; [destruct m; reflexivity | simpl in Hn; lia].
  - destruct s as [|c t] eqn:Hs; [destruct m; reflexivity|].
    destruct m as [|m]; [simpl in Hm; lia|].
    rewrite <- Hs in *. assert (s <> "") as Hne by (rewrite Hs; discriminate).
    rewrite !trimRightLoop_S by exact Hne.
    pose proof (DecodeLast_size s Hne) as Hsz.
    destruct (f _); [|reflexivity]. apply IH; rewrite length_upto; lia.
Qed.

Lemma fieldsLoop_rounds (f : N -> bool) (n m : nat) (cur s : string) :
  String.length s <= n -> String.length s <= m ->
  fieldsLoop f n cur s = fieldsLoop f m cur s.
Proof.
  revert m cur s. induction n as [|n IH]; intros m cur s Hn Hm.
  - destruct s; [destruct m; reflexivity | simpl in Hn; lia].
  - destruct s as [|c t] eqn:Hs; [destruct m; reflexivity|].
    destruct m as [|m]; [simpl in Hm; lia|].
    rewrite <- Hs in *. assert (s <> "") as Hne by (rewrite Hs; discriminate).
    rewrite !fieldsLoop_S by exact Hne.
    pose proof (Decode_size s Hne) as Hsz.
    destruct (f _); [f_equal|]; apply IH; rewrite length_from; lia.
Qed.

(** What the loop of [TrimLeftFunc] returns is left of nothing but the end
    of the text, and starts with no white space. *)
Lemma trimLeftLoop_spec (n : nat) (s : string) :
  String.length s <= n ->
  leftTrimmed (trimLeftLoop IsSpace n s)
  /\ exists pre, s = pre ++ trimLeftLoop IsSpace n s.
Proof.
  revert s. induction n as [|n IH]; intros s Hlen.
  - simpl. split; [left; reflexivity|]. exists s. rewrite append_empty_r. reflexivity.
  - destruct s as [|c t] eqn:Hs; [split; [left; reflexivity | exists ""; reflexivity]|].
    rewrite <- Hs in *. assert (s <> "") as Hne by (rewrite Hs; discriminate).
    rewrite (trimLeftLoop_S _ _ _ Hne).
    pose proof (Decode_size s Hne) as Hsz.
    destruct (IsSpace (DecodeRuneInString s).1) eqn:Hsp.
    + destruct (IH (from (DecodeRuneInString s).2 s)) as (Ht & pre & Hpre).
      { rewrite length_from. lia. }
      split; [exact Ht|].
      exists (upto (DecodeRuneInString s).2 s ++ pre).
      rewrite append_assoc, <- Hpre, upto_from. reflexivity.
    + split; [right; exact Hsp | exists ""; reflexivity].
Qed.

Lemma TrimLeftFunc_leftTrimmed (s : string) : leftTrimmed (TrimLeftFunc s IsSpace).
Proof. apply trimLeftLoop_spec. reflexivity. Qed.

Lemma TrimLeftFunc_fixed (s : string) : leftTrimmed s -> TrimLeftFunc s IsSpace = s.
Proof.
  unfold TrimLeftFunc. intros [->|H]; [reflexivity|].
  destruct (String.length s) as [|n] eqn:Hn; [destruct s; [reflexivity | discriminate]|].
  rewrite trimLeftLoop_S, H; [reflexivity|]. intros ->. discriminate.
Qed.

Lemma trimRightLoop_spec (n : nat) (s : string) :
  String.length s <= n ->
  rightTrimmed (trimRightLoop IsSpace n s)
  /\ exists post, s = trimRightLoop IsSpace n s ++ post.
Proof.
  revert s. induction n as [|n IH]; intros s Hlen.
  - simpl. split; [left; reflexivity|]. exists s. reflexivity.
  - destruct s as [|c t] eqn:Hs; [split; [left; reflexivity | exists ""; reflexivity]|].
    rewrite <- Hs in *. assert (s <> "") as Hne by (rewrite Hs; discriminate).
    rewrite (trimRightLoop_S _ _ _ Hne).
    pose proof (DecodeLast_size s Hne) as Hsz.
    destruct (IsSpace (DecodeLastRuneInString s).1) eqn:Hsp.
    + destruct (IH (upto (String.length s - (DecodeLastRuneInString s).2) s))
        as (Ht & post & Hpost).
      { rewrite length_upto. lia. }
      split; [exact Ht|].
      exists (post ++ from (String.length s - (DecodeLastRuneInString s).2) s).
      rewrite <- append_assoc, <- Hpost, upto_from. reflexivity.
    + split; [right; exact Hsp | exists ""; rewrite append_empty_r; reflexivity].
Qed.

Lemma TrimRightFunc_rightTrimmed (s : string) : rightTrimmed (TrimRightFunc s IsSpace).
Proof. apply trimRightLoop_spec. reflexivity. Qed.

Lemma TrimRightFunc_fixed (s : string) : rightTrimmed s -> TrimRightFunc s IsSpace = s.
Proof.
  unfold TrimRightFunc. intros [->|H]; [reflexivity|].
  destruct (String.length s) as [|n] eqn:Hn; [destruct s; [reflexivity | discriminate]|].
  rewrite trimRightLoop_S, H; [reflexivity|]. intros ->. discriminate.
Qed.

(** A text that starts with no white space has no beginning that starts with
    white space. *)
Lemma leftTrimmed_prefix (t post : string) : leftTrimmed (t ++ post) -> leftTrimmed t.
Proof.
  intros [H|H].
  - left. destruct t; [reflexivity | discriminate].
  - right. destruct (IsSpace (DecodeRuneInString t).1) eqn:Hsp; [|reflexivity].
    rewrite Decode_append in H; [congruence|].
    intros Herr. rewrite Herr, IsSpace_RuneError in Hsp. discriminate.
Qed.

Lemma TrimRightFunc_leftTrimmed (s : string) :
  leftTrimmed s -> leftTrimmed (TrimRightFunc s IsSpace).
Proof.
  intros Hs. destruct (trimRightLoop_spec (String.length s) s (le_n _)) as (_ & post & Hpost).
  apply (leftTrimmed_prefix _ post). unfold TrimRightFunc. rewrite <- Hpost. exact Hs.
Qed.

(** Trimming a field changes nothing. *)
Lemma TrimSpace_field (s : string) : isField s -> TrimSpace s = s.
Proof.
  intros (_ & Hl & Hr). unfold TrimSpace, TrimFunc.
  rewrite (TrimLeftFunc_fixed s Hl). apply TrimRightFunc_fixed, Hr.
Qed.

(** Trimming twice is trimming once. *)
Lemma TrimSpace_idempotent (s : string) : TrimSpace (TrimSpace s) = TrimSpace s.
Proof.
  unfold TrimSpace, TrimFunc.
  rewrite (TrimLeftFunc_fixed (TrimRightFunc (TrimLeftFunc s IsSpace) IsSpace))
    by apply TrimRightFunc_leftTrimmed, TrimLeftFunc_leftTrimmed.
  apply TrimRightFunc_fixed, TrimRightFunc_rightTrimmed.
Qed.

Lemma append_split (a b pre : string) (c : ascii) (post : string) :
  a ++ b = pre ++ String c post ->
  (exists post1, a = pre ++ String c post1 /\ post = post1 ++ b)
  \/ (exists pre2, pre = a ++ pre2 /\ b = pre2 ++ String c post).
Proof.
  revert pre. induction a as [|x a IH]; intros pre Heq.
  - right. exists pre. split; [reflexivity | exact Heq].
  - destruct pre as [|y pre]; simpl in Heq; injection Heq as -> Heq.
    + left. exists a. split; [reflexivity | symmetry; exact Heq].
    + destruct (IH pre Heq) as [(post1 & -> & ->)|(pre2 & -> & ->)].
      * left. exists post1. split; reflexivity.
      * right. exists pre2. split; reflexivity.
Qed.

Lemma continuation_no_start (pre : string) (c : ascii) (post : string) :
  continuation (pre ++ String c post) = true -> RuneStart (byte c) = false.
Proof.
  induction pre as [|x pre IH]; simpl; intros H; apply andb_prop in H as [H1 H2].
  - apply negb_true_iff in H1. exact H1.
  - apply IH, H2.
Qed.

(** Reading on a rune that is no white space keeps the text read free of
    white space. *)
Lemma spaceFree_step (cur s : string) :
  s <> "" ->
  spaceFree cur s ->
  IsSpace (DecodeRuneInString s).1 = false ->
  spaceFree (cur ++ upto (DecodeRuneInString s).2 s) (from (DecodeRuneInString s).2 s).
Proof.
  intros Hne Hcur Hsp pre c post Heq Hstart.
  apply append_split in Heq as [(post1 & Hc & ->)|(pre2 & -> & Hq)].
  - replace (String c (post1 ++ upto (DecodeRuneInString s).2 s)
             ++ from (DecodeRuneInString s).2 s)
      with (String c post1 ++ s)
      by (simpl; rewrite append_assoc, upto_from; reflexivity).
    apply (Hcur pre c post1 Hc Hstart).
  - destruct s as [|c0 t0]; [congruence|].
    pose proof (Decode_continuation c0 t0) as Hcont.
    pose proof (Decode_size (String c0 t0) Hne) as Hsz.
    destruct ((DecodeRuneInString (String c0 t0)).2) as [|k] eqn:Hk; [lia|].
    simpl in Hq, Hcont. rewrite Nat.sub_0_r in Hcont.
    destruct pre2 as [|x pre2]; simpl in Hq; injection Hq as -> Hq.
    + rewrite <- Hq.
      change (String c (upto k t0) ++ from (S k) (String c t0))
        with (upto (S k) (String c t0) ++ from (S k) (String c t0)).
      rewrite upto_from. exact Hsp.
    + rewrite Hq in Hcont. apply continuation_no_start in Hcont. congruence.
Qed.

(** A text read free of white space is a field. *)
Lemma spaceFree_field (cur rest : string) : cur <> "" -> spaceFree cur rest -> isField cur.
Proof.
  intros Hne Hcur. split; [exact Hne|]. split; right.
  - destruct (IsSpace (DecodeRuneInString cur).1) eqn:Hsp; [|reflexivity].
    assert ((DecodeRuneInString cur).1 <> RuneError) as Herr
      by (intros Herr; rewrite Herr, IsSpace_RuneError in Hsp; discriminate).
    destruct (Decode_RuneStart cur Herr) as (c & t & -> & Hstart).
    rewrite <- (Hcur "" c t eq_refl Hstart), <- Hsp.
    f_equal. f_equal. symmetry. apply (Decode_append (String c t) rest Herr).
  - destruct (IsSpace (DecodeLastRuneInString cur).1) eqn:Hsp; [|reflexivity].
    assert ((DecodeLastRuneInString cur).1 <> RuneError) as Herr
      by (intros Herr; rewrite Herr, IsSpace_RuneError in Hsp; discriminate).
    destruct (DecodeLast_Decode cur Herr) as (pre & q & Hq & _ & Hd).
    rewrite <- Hd in Herr, Hsp.
    destruct (Decode_RuneStart q Herr) as (c & t & -> & Hstart).
    rewrite <- (Hcur pre c t Hq Hstart), <- Hsp.
    f_equal. f_equal. symmetry. apply (Decode_append (String c t) rest Herr).
Qed.

Lemma fieldsLoop_fields (n : nat) (cur s : string) :
  spaceFree cur s -> Forall isField (fieldsLoop IsSpace n cur s).
Proof.
  assert (forall cur rest l, spaceFree cur rest -> Forall isField l ->
                             Forall isField (closeField cur l)) as Hclose.
  { intros w rest l Hw Hl. destruct w as [|x w'] eqn:Hx; [exact Hl|].
    constructor; [|exact Hl]. apply (spaceFree_field _ rest); [discriminate | exact Hw]. }
  assert (forall rest, spaceFree "" rest) as Hnil.
  { intros rest pre c post Heq. destruct pre; discriminate. }
  revert cur s. induction n as [|n IH]; intros cur s Hcur.
  - apply (Hclose cur s); [exact Hcur | constructor].
  - destruct s as [|c t] eqn:Hs; [apply (Hclose cur ""); [exact Hcur | constructor]|].
    rewrite <- Hs in *. assert (s <> "") as Hne by (rewrite Hs; discriminate).
    rewrite (fieldsLoop_S _ _ _ _ Hne).
    destruct (IsSpace (DecodeRuneInString s).1) eqn:Hsp.
    + apply (Hclose cur s); [exact Hcur|]. apply IH, Hnil.
    + apply IH, spaceFree_step; assumption.
Qed.

(** Every field is non-empty and has no white space at its ends. *)
Lemma Fields_fields (s : string) : Forall isField (Fields s).
Proof.
  apply fieldsLoop_fields. intros pre c post Heq. destruct pre; discriminate.
Qed.

(** White space beyond ASCII: the no-break space U+00A0, the em space U+2003,
    the line separator U+2028 and the ideographic space U+3000 are trimmed
    and split at; a byte 0xA0 that is not part of an encoding is not. *)
Example TrimSpace_unicode :
  TrimSpace (Chat.bytes [0xC2; 0xA0; 10]) = ""
  /\ TrimSpace (Chat.bytes [0xC2; 0xA0] ++ " main" ++ Chat.bytes [0xE3; 0x80; 0x80; 10])
     = "main"
  /\ Fields (Chat.bytes [0xE2; 0x80; 0x83] ++ "12" ++ Chat.bytes [0xC2; 0xA0; 9]
             ++ "3" ++ Chat.bytes [0xE2; 0x80; 0xA8])
     = ["12"; "3"]
  /\ TrimSpace (Chat.bytes [0xA0] ++ "x " ++ Chat.bytes [0xC2])
     = Chat.bytes [0xA0] ++ "x " ++ Chat.bytes [0xC2].
Proof. vm_compute. repeat split. Qed.

End SpaceFacts.

(** ** getGitStatus: the counts *)

Section GitCountFacts.
Import GoStrings VCS.
Local Open Scope string_scope.
Local Arguments String.append !_ _ / : simpl nomatch.

Lemma getGitStatus_local (r : GitRepo) :
  getGitStatus r = aheadBehind r (localStatus r).
Proof.
  unfold getGitStatus, localStatus.
  destruct r as [sym rp unm cached quiet untracked revlist]; simpl.
  destruct sym, rp, (nonEmptyOutput unm), cached, quiet, (nonEmptyOutput untracked);
    reflexivity.
Qed.

Lemma asciiWord_append (a b : string) : asciiWord (a ++ b) = asciiWord a && asciiWord b.
Proof.
  induction a as [|c a IH]; simpl; [reflexivity|].
  rewrite IH, andb_assoc. reflexivity.
Qed.

Lemma append_nonempty_l (a b : string) : a <> "" -> a ++ b <> "".
Proof. destruct a; [congruence | discriminate]. Qed.

(** The last byte of a text, when it is below 0x80, is its last rune. *)
Lemma DecodeLast_ascii (pre : string) (c : ascii) :
  N.ltb (byte c) RuneSelf = true ->
  DecodeLastRuneInString (pre ++ String c "") = (byte c, 1).
Proof.
  intros Hc. unfold DecodeLastRuneInString.
  assert (pre ++ String c "" <> "") as Hne by (destruct pre; discriminate).
  destruct (last_byte _ Hne) as (pre' & c' & Heq & Hat).
  assert (c' = c) as ->.
  { clear Hat Hne. revert pre' Heq. induction pre as [|x pre IH]; intros pre' Heq.
    - destruct pre' as [|y [|z pre']]; simpl in Heq; congruence.
    - destruct pre' as [|y pre']; simpl in Heq.
      + destruct pre; discriminate.
      + injection Heq as _ Heq. apply (IH pre' Heq). }
  destruct (Z.eqb_spec (Z.of_nat (String.length (pre ++ String c ""))) 0) as [E|E].
  { destruct pre; discriminate. }
  replace (Z.to_nat (Z.of_nat (String.length (pre ++ String c "")) - 1))
    with (String.length (pre ++ String c "") - 1) by lia.
  rewrite Hat, Hc. reflexivity.
Qed.

Lemma upto_length (a b : string) : upto (String.length a) (a ++ b) = a.
Proof. induction a as [|c a IH]; simpl; [destruct b; reflexivity | f_equal; exact IH]. Qed.

(** A text that starts with an ASCII word starts with no white space, and
    one that ends with an ASCII word ends with none. *)
Lemma asciiWord_leftTrimmed (x rest : string) :
  asciiWord x = true -> x <> "" -> leftTrimmed (x ++ rest).
Proof.
  destruct x as [|c x]; [congruence|]. simpl. intros Hx _.
  apply andb_prop in Hx as [Hx _]. apply andb_prop in Hx as [Hc Hsp].
  right. rewrite (Decode_ascii c _ Hc). apply negb_true_iff, Hsp.
Qed.

Lemma asciiWord_last (x : string) :
  asciiWord x = true -> x <> "" ->
  exists (y : string) (c : ascii),
    x = y ++ String c ""
    /\ N.ltb (byte c) RuneSelf = true /\ IsSpace (byte c) = false.
Proof.
  induction x as [|d x IH]; [congruence|]. simpl. intros Hx _.
  apply andb_prop in Hx as [Hd Hx]. apply andb_prop in Hd as [Hd Hsp].
  destruct x as [|e x].
  - exists "", d. repeat split; [exact Hd | apply negb_true_iff, Hsp].
  - destruct (IH Hx ltac:(discriminate)) as (y & c & Hy & Hc).
    exists (String d y), c. split; [simpl; rewrite <- Hy; reflexivity | exact Hc].
Qed.

Lemma asciiWord_rightTrimmed (pre x : string) :
  asciiWord x = true -> x <> "" -> rightTrimmed (pre ++ x).
Proof.
  intros Hx Hne. destruct (asciiWord_last x Hx Hne) as (y & c & -> & Hc & Hsp).
  right. rewrite <- append_assoc, (DecodeLast_ascii _ c Hc). exact Hsp.
Qed.

(** A white space byte at the end is trimmed. *)
Lemma TrimRightFunc_space (s : string) (c : ascii) :
  N.ltb (byte c) RuneSelf = true -> IsSpace (byte c) = true ->
  TrimRightFunc (s ++ String c "") IsSpace = TrimRightFunc s IsSpace.
Proof.
  intros Hc Hsp. unfold TrimRightFunc.
  rewrite length_append. simpl String.length. rewrite Nat.add_1_r.
  rewrite trimRightLoop_S by (destruct s; discriminate).
  rewrite (DecodeLast_ascii s c Hc). simpl fst. simpl snd. rewrite Hsp.
  rewrite length_append. simpl String.length.
  replace (String.length s + 1 - 1) with (String.length s) by lia.
  rewrite upto_length. reflexivity.
Qed.

(** The loop of [FieldsFunc] on an ASCII word. *)
Lemma fieldsLoop_asciiWord (x rest cur : string) (n : nat) :
  asciiWord x = true ->
  fieldsLoop IsSpace (String.length x + n) cur (x ++ rest)
  = fieldsLoop IsSpace n (cur ++ x) rest.
Proof.
  revert cur. induction x as [|c x IH]; intros cur Hx.
  - simpl. rewrite append_empty_r. reflexivity.
  - simpl in Hx. apply andb_prop in Hx as [Hc Hx]. apply andb_prop in Hc as [Hc Hsp].
    apply negb_true_iff in Hsp.
    change (String.length (String c x) + n) with (S (String.length x + n)).
    simpl String.append.
    rewrite fieldsLoop_S by discriminate.
    rewrite (Decode_ascii c _ Hc). simpl fst. simpl snd. rewrite Hsp.
    cbn [upto from]. rewrite (IH _ Hx), append_assoc. reflexivity.
Qed.

Lemma asciiWord_string_of_uint (d : Decimal.uint) :
  asciiWord (NilEmpty.string_of_uint d) = true.
Proof. induction d; simpl; auto. Qed.

Lemma asciiWord_fmtD (n : nat) : asciiWord (fmtD n) = true.
Proof.
  unfold fmtD, NilZero.string_of_uint.
  destruct (Nat.to_uint n); try reflexivity; apply asciiWord_string_of_uint.
Qed.

Lemma fmtD_nonempty (n : nat) : fmtD n <> "".
Proof.
  unfold fmtD, NilZero.string_of_uint. destruct (Nat.to_uint n); discriminate.
Qed.

(** A numeral is a field. *)
Lemma fmtD_field (n : nat) : isField (fmtD n).
Proof.
  split; [apply fmtD_nonempty|]. split.
  - rewrite <- (append_empty_r (fmtD n)).
    apply asciiWord_leftTrimmed; [apply asciiWord_fmtD | apply fmtD_nonempty].
  - apply (asciiWord_rightTrimmed ""); [apply asciiWord_fmtD | apply fmtD_nonempty].
Qed.

Lemma string_of_uint_empty (d : Decimal.uint) :
  NilEmpty.string_of_uint d = "" -> d = Decimal.Nil.
Proof. destruct d; simpl; [reflexivity | discriminate ..]. Qed.

(** Only zero is printed as "0". *)
Lemma fmtD_zero (n : nat) : fmtD n = "0" <-> n = 0.
Proof.
  split; [|intros ->; reflexivity].
  unfold fmtD, NilZero.string_of_uint. intros Hs.
  rewrite <- (DecimalNat.Unsigned.of_to n).
  destruct (Nat.to_uint n) as [|d|d|d|d|d|d|d|d|d|d] eqn:Hn; simpl in Hs;
    try discriminate.
  - reflexivity.
  - injection Hs as Hs. apply string_of_uint_empty in Hs. rewrite Hs. reflexivity.
Qed.

(** What rev-list prints, trimmed. *)
Lemma TrimSpace_revListOutput (ahead behind : nat) :
  TrimSpace (revListOutput ahead behind) = fmtD ahead ++ tab ++ fmtD behind.
Proof.
  unfold TrimSpace, TrimFunc, revListOutput.
  rewrite TrimLeftFunc_fixed
    by (apply asciiWord_leftTrimmed; [apply asciiWord_fmtD | apply fmtD_nonempty]).
  replace (fmtD ahead ++ tab ++ fmtD behind ++ Tools.nl)
    with ((fmtD ahead ++ tab ++ fmtD behind) ++ Tools.nl)
    by (rewrite !append_assoc; reflexivity).
  unfold Tools.nl. rewrite TrimRightFunc_space by reflexivity.
  apply TrimRightFunc_fixed.
  rewrite <- append_assoc.
  apply asciiWord_rightTrimmed; [apply asciiWord_fmtD | apply fmtD_nonempty].
Qed.

(** The two fields of what rev-list prints. *)
Lemma Fields_revListOutput (ahead behind : nat) :
  Fields (TrimSpace (revListOutput ahead behind)) = [fmtD ahead; fmtD behind].
Proof.
  rewrite TrimSpace_revListOutput. unfold Fields, FieldsFunc.
  rewrite length_append.
  rewrite fieldsLoop_asciiWord by apply asciiWord_fmtD.
  unfold tab. simpl String.append. simpl String.length.
  rewrite fieldsLoop_S by discriminate.
  rewrite Decode_ascii by reflexivity. simpl fst. simpl snd.
  change (IsSpace (byte (ascii_of_nat 9))) with true. cbv iota. cbn [from].
  pose proof (fmtD_nonempty ahead) as Ha.
  destruct (fmtD ahead) as [|c a] eqn:Hfa; [congruence|]. cbn [closeField].
  f_equal.
  rewrite <- (append_empty_r (fmtD behind)) at 2.
  rewrite <- (Nat.add_0_r (String.length (fmtD behind))).
  rewrite fieldsLoop_asciiWord by apply asciiWord_fmtD.
  simpl. pose proof (fmtD_nonempty behind) as Hb.
  destruct (fmtD behind) as [|c' b] eqn:Hfb; [congruence|]. reflexivity.
Qed.

(** What the upstream comparison adds to a status, when it is made and yields
    two fields. *)
Lemma aheadBehind_two_fields (r : GitRepo) (status : Status) (output p0 p1 : string) :
  IsDetached status = false ->
  CurrentBranch status <> "" ->
  rev_list_left_right_count r = Some output ->
  Fields (TrimSpace output) = [p0; p1] ->
  aheadBehind r status
  = let s1 := setRemoteTrackingOK status in
    let s2 := if String.eqb p0 "0" then s1 else setAhead (len p0) s1 in
    if String.eqb p1 "0" then s2 else setBehind (len p1) s2.
Proof.
  intros Hdet Hbr Hout Hfields.
  pose proof (Fields_fields (TrimSpace output)) as Hf. rewrite Hfields in Hf.
  apply Forall_cons in Hf as [H0 Hf]. apply Forall_cons in Hf as [H1 _].
  unfold aheadBehind. rewrite Hdet, Hout, Hfields.
  apply String.eqb_neq in Hbr. rewrite Hbr. simpl.
  rewrite (TrimSpace_field p0 H0), (TrimSpace_field p1 H1).
  destruct (String.eqb p0 "0"), (String.eqb p1 "0"); reflexivity.
Qed.

Lemma len_field_positive (p : string) : isField p -> (0 < len p)%Z.
Proof. intros [Hp _]. destruct p; [congruence|]. unfold len. simpl. lia. Qed.

(** X1: whatever the git commands answer, the two counts of the status are
    not negative, and [HasUnpushed] is set exactly when [AheadCount] is
    positive. *)
Theorem getGitStatus_unpushed_iff_ahead (r : GitRepo) :
  (0 <= AheadCount (getGitStatus r))%Z
  /\ (0 <= BehindCount (getGitStatus r))%Z
  /\ (HasUnpushed (getGitStatus r) = true <-> (0 < AheadCount (getGitStatus r))%Z).
Proof.
  rewrite getGitStatus_local.
  assert (AheadCount (localStatus r) = 0%Z /\ BehindCount (localStatus r) = 0%Z
          /\ HasUnpushed (localStatus r) = false) as (Ha & Hb & Hu) by (repeat split).
  revert Ha Hb Hu. generalize (localStatus r) as status. intros status Ha Hb Hu.
  assert ((0 <= AheadCount status)%Z /\ (0 <= BehindCount status)%Z
          /\ (HasUnpushed status = true <-> (0 < AheadCount status)%Z)) as Hkeep.
  { rewrite Ha, Hb, Hu. repeat split; try lia; discriminate. }
  unfold aheadBehind.
  destruct (negb (IsDetached status) && negb (String.eqb (CurrentBranch status) ""));
    [|exact Hkeep].
  destruct (rev_list_left_right_count r) as [output|]; [|exact Hkeep].
  pose proof (Fields_fields (TrimSpace output)) as Hf.
  destruct (Fields (TrimSpace output)) as [|p0 [|p1 [|p2 rest]]];
    try (simpl; rewrite Ha, Hb, Hu; repeat split; try lia; discriminate).
  apply Forall_cons in Hf as [H0 Hf]. apply Forall_cons in Hf as [H1 _].
  rewrite (TrimSpace_field p0 H0), (TrimSpace_field p1 H1).
  pose proof (len_field_positive p0 H0). pose proof (len_field_positive p1 H1).
  destruct (String.eqb p0 "0"), (String.eqb p1 "0"); simpl;
    rewrite ?Ha, ?Hb, ?Hu; repeat split; intros; try lia; try discriminate.
Qed.

(** X2: the counts stay zero and [HasUnpushed] unset unless the upstream
    comparison was made and succeeded: so it is when [RemoteTrackingOK] is
    unset, and [RemoteTrackingOK] is unset on a detached HEAD. *)
Theorem getGitStatus_untracked_counts_zero (r : GitRepo) :
  (RemoteTrackingOK (getGitStatus r) = false ->
   AheadCount (getGitStatus r) = 0%Z /\ BehindCount (getGitStatus r) = 0%Z
   /\ HasUnpushed (getGitStatus r) = false)
  /\ (IsDetached (getGitStatus r) = true -> RemoteTrackingOK (getGitStatus r) = false)
  /\ (RemoteTrackingOK (getGitStatus r) = true ->
      exists output, rev_list_left_right_count r = Some output).
Proof.
  rewrite getGitStatus_local.
  assert (AheadCount (localStatus r) = 0%Z /\ BehindCount (localStatus r) = 0%Z
          /\ HasUnpushed (localStatus r) = false
          /\ RemoteTrackingOK (localStatus r) = false) as (Ha & Hb & Hu & Ht)
    by (repeat split).
  revert Ha Hb Hu Ht. generalize (localStatus r) as status. intros status Ha Hb Hu Ht.
  unfold aheadBehind.
  destruct (IsDetached status) eqn:Hdet; simpl.
  { rewrite Hdet. repeat split; auto. congruence. }
  destruct (String.eqb (CurrentBranch status) ""); simpl.
  { rewrite Hdet. repeat split; auto; congruence. }
  destruct (rev_list_left_right_count r) as [output|].
  - split; [|split]; [| |intros _; eauto].
    + destruct (Fields (TrimSpace output)) as [|p0 [|p1 [|p2 rest]]];
        try (simpl; discriminate).
      destruct (String.eqb (TrimSpace p0) "0"), (String.eqb (TrimSpace p1) "0");
        simpl; discriminate.
    + destruct (Fields (TrimSpace output)) as [|p0 [|p1 [|p2 rest]]];
        try (simpl; rewrite Hdet; discriminate).
      destruct (String.eqb (TrimSpace p0) "0"), (String.eqb (TrimSpace p1) "0");
        simpl; rewrite Hdet; discriminate.
  - rewrite Hdet. repeat split; auto; congruence.
Qed.

(** X3: on a branch whose upstream comparison prints the counts [ahead] and
    [behind], the status has [RemoteTrackingOK] set, each stored count is
    positive exactly when the count printed is, and [HasUnpushed] says
    whether [ahead] is positive. *)
Theorem getGitStatus_counts_positive_iff (r : GitRepo) (branch : string)
  (ahead behind : nat) :
  symbolic_ref_short_HEAD r = Some branch ->
  TrimSpace branch <> "" ->
  rev_list_left_right_count r = Some (revListOutput ahead behind) ->
  RemoteTrackingOK (getGitStatus r) = true
  /\ ((0 < AheadCount (getGitStatus r))%Z <-> 0 < ahead)
  /\ ((0 < BehindCount (getGitStatus r))%Z <-> 0 < behind)
  /\ (HasUnpushed (getGitStatus r) = true <-> 0 < ahead).
Proof.
  intros Hsym Hbranch Hrev. rewrite getGitStatus_local.
  assert (IsDetached (localStatus r) = false) as Hdet
    by (unfold localStatus; rewrite Hsym; reflexivity).
  assert (CurrentBranch (localStatus r) = TrimSpace branch) as Hcur
    by (unfold localStatus; rewrite Hsym; reflexivity).
  rewrite (aheadBehind_two_fields r (localStatus r) _ (fmtD ahead) (fmtD behind)
             Hdet ltac:(rewrite Hcur; exact Hbranch) Hrev (Fields_revListOutput _ _)).
  cbv zeta.
  pose proof (len_field_positive (fmtD ahead)
                (fmtD_field ahead)) as Hla.
  pose proof (len_field_positive (fmtD behind)
                (fmtD_field behind)) as Hlb.
  destruct (String.eqb_spec (fmtD ahead) "0") as [Ea|Ea];
    destruct (String.eqb_spec (fmtD behind) "0") as [Eb|Eb];
    rewrite ?fmtD_zero in Ea, Eb; simpl;
    repeat split; intros; try lia; try discriminate; try reflexivity.
Qed.

(** X4: the branch name of the status carries no white space at its ends,
    and the HEAD counts as detached exactly when `git symbolic-ref` fails and
    `git rev-parse` succeeds. *)
Theorem getGitStatus_branch_trimmed (r : GitRepo) :
  TrimSpace (CurrentBranch (getGitStatus r)) = CurrentBranch (getGitStatus r)
  /\ (IsDetached (getGitStatus r) = true <->
      symbolic_ref_short_HEAD r = None /\ exists output, rev_parse_short_HEAD r = Some output).
Proof.
  rewrite getGitStatus_local.
  assert (forall status, CurrentBranch (aheadBehind r status) = CurrentBranch status
                         /\ IsDetached (aheadBehind r status) = IsDetached status) as Hkeep.
  { intros status. unfold aheadBehind.
    destruct (negb (IsDetached status) && negb (String.eqb (CurrentBranch status) ""));
      [|split; reflexivity].
    destruct (rev_list_left_right_count r) as [output|]; [|split; reflexivity].
    destruct (Fields (TrimSpace output)) as [|p0 [|p1 [|p2 rest]]];
      try (split; reflexivity).
    destruct (String.eqb (TrimSpace p0) "0"), (String.eqb (TrimSpace p1) "0");
      split; reflexivity. }
  destruct (Hkeep (localStatus r)) as [-> ->]. unfold localStatus. simpl.
  destruct (symbolic_ref_short_HEAD r) as [o|], (rev_parse_short_HEAD r) as [o'|];
    (split; [try apply TrimSpace_idempotent; reflexivity|]);
    split; try discriminate; try (intros [? [? ?]]; discriminate); eauto.
Qed.

(** A branch name of white space only, here a no-break space, counts as no
    branch: the upstream comparison is not made. *)
Example getGitStatus_blank_branch :
  let r := mkGitRepo (Some (Chat.bytes [0xC2; 0xA0; 10])) None (Some "") true true
             (Some "") (Some (revListOutput 2 1)) in
  CurrentBranch (getGitStatus r) = ""
  /\ RemoteTrackingOK (getGitStatus r) = false
  /\ AheadCount (getGitStatus r) = 0%Z
  /\ BehindCount (getGitStatus r) = 0%Z.
Proof. vm_compute. repeat split. Qed.

End GitCountFacts.

(** ** Detection *)

Section DetectFacts.
Import GoStrings VCSDetect.

Lemma isAbove_cons_inv (p parent : Path) (c : string) :
  isAbove p (c :: parent) -> p = c :: parent \/ isAbove p parent.
Proof.
  unfold isAbove. destruct p as [|x p]; [right; apply suffix_nil|].
  apply suffix_cons_inv.
Qed.

Lemma hasMarker_dec (m : Machine) (markerDir : string) (path : Path) :
  hasMarker m markerDir path \/ ~ hasMarker m markerDir path.
Proof.
  unfold hasMarker. destruct (Stat m (Join path markerDir)) as [[|]|];
    [left; reflexivity | right; discriminate | right; discriminate].
Qed.

Lemma walkUp_unfold (m : Machine) (markerDir : string) (path : Path) :
  walkUp m markerDir path =
  match Stat m (Join path markerDir) with
  | Some true => Some path
  | _ => match path with
         | [] => None
         | _ :: parent => walkUp m markerDir parent
         end
  end.
Proof. destruct path; reflexivity. Qed.

(** The loop of [findVCSRoot] stops at the nearest directory that holds the
    marker, and finds nothing only when there is none up to the root. *)
Lemma walkUp_nearest (m : Machine) (markerDir : string) (path : Path) :
  match walkUp m markerDir path with
  | Some root => nearestRoot m markerDir path root
  | None => noRoot m markerDir path
  end.
Proof.
  induction path as [|c parent IH]; rewrite walkUp_unfold;
    [destruct (hasMarker_dec m markerDir []) as [Hm|Hm]
    |destruct (hasMarker_dec m markerDir (c :: parent)) as [Hm|Hm]].
  - pose proof Hm as Hs. unfold hasMarker in Hs. rewrite Hs.
    repeat split; [reflexivity | exact Hm|].
    intros p Hp Hlen. apply suffix_length in Hp. simpl in *. lia.
  - assert (noRoot m markerDir []) as Hno.
    { intros p Hp. apply suffix_nil_inv in Hp as ->. exact Hm. }
    unfold hasMarker in Hm.
    destruct (Stat m (Join [] markerDir)) as [[|]|]; [congruence | exact Hno | exact Hno].
  - pose proof Hm as Hs. unfold hasMarker in Hs. rewrite Hs.
    repeat split; [reflexivity | exact Hm|].
    intros p Hp Hlen. apply suffix_length in Hp. lia.
  - assert (match walkUp m markerDir parent with
            | Some root => nearestRoot m markerDir (c :: parent) root
            | None => noRoot m markerDir (c :: parent)
            end) as Hup.
    { destruct (walkUp m markerDir parent) as [root|].
      - destruct IH as (Habove & Hroot & Hnear). repeat split.
        + apply suffix_cons_r, Habove.
        + exact Hroot.
        + intros p Hp Hlen. apply isAbove_cons_inv in Hp as [->|Hp];
            [exact Hm | apply Hnear; assumption].
      - intros p Hp. apply isAbove_cons_inv in Hp as [->|Hp];
          [exact Hm | apply IH, Hp]. }
    unfold hasMarker in Hm.
    destruct (Stat m (Join (c :: parent) markerDir)) as [[|]|];
      [congruence | exact Hup | exact Hup].
Qed.

(** X5: [findVCSRoot] returns the nearest directory, at or above the start
    path, that holds the marker directory, and reports nothing found exactly
    when no directory up to the root holds it; a marker that is not a
    directory does not count. *)
Theorem findVCSRoot_nearest (m : Machine) (startPath markerDir : string) (path : Path) :
  Abs m startPath = Some path ->
  match findVCSRoot m startPath markerDir with
  | Some root => nearestRoot m markerDir path root
  | None => noRoot m markerDir path
  end.
Proof. intros Habs. unfold findVCSRoot. rewrite Habs. apply walkUp_nearest. Qed.

Lemma walkUp_Some_iff (m : Machine) (markerDir : string) (path : Path) :
  (exists root, walkUp m markerDir path = Some root)
  <-> exists p, isAbove p path /\ hasMarker m markerDir p.
Proof.
  pose proof (walkUp_nearest m markerDir path) as Hw.
  destruct (walkUp m markerDir path) as [root|]; split.
  - intros _. exists root. split; apply Hw.
  - intros _. eauto.
  - intros [root Hroot]. discriminate.
  - intros (p & Hp & Hm). exfalso. exact (Hw p Hp Hm).
Qed.

(** What [Detect] returns, by what the two walks find. *)
Lemma Detect_cases (m : Machine) (startPath : string) (path : Path) :
  Abs m startPath = Some path ->
  Detect m startPath =
  match walkUp m ".git" path, walkUp m ".jj" path with
  | Some root, _ =>
      inr (mkInfo TypeGit (Base root) (Some root) (VCS.getGitStatus (gitIn m root)))
  | None, Some root =>
      inr (mkInfo TypeJujutsu (Base root) (Some root) (getJujutsuStatus (jjIn m root)))
  | None, None => inr noInfo
  end.
Proof.
  intros Habs. unfold Detect, NewDetector, detectFirst, gitDetect, jujutsuDetect,
    findVCSRoot. rewrite Habs.
  pose proof (walkUp_nearest m ".git" path) as Hgit.
  destruct (walkUp m ".git" path) as [root|].
  - destruct Hgit as (_ & Hroot & _). unfold hasMarker in Hroot.
    rewrite Hroot. reflexivity.
  - simpl. destruct (walkUp m ".jj" path) as [root|]; reflexivity.
Qed.

(** X6: [Detect] never fails.  It reports a Git repository exactly when a
    directory at or above the start path holds a [.git] directory, also when
    a [.jj] directory lies nearer; a Jujutsu repository exactly when none
    holds a [.git] directory and one holds a [.jj] directory; and no
    repository otherwise.  A [.git] that is a file is not a repository. *)
Theorem Detect_git_before_jujutsu (m : Machine) (startPath : string) (path : Path) :
  Abs m startPath = Some path ->
  exists info,
    Detect m startPath = inr info
    /\ (InfoType info = TypeGit <-> exists p, isAbove p path /\ hasMarker m ".git" p)
    /\ (InfoType info = TypeJujutsu <->
        noRoot m ".git" path /\ exists p, isAbove p path /\ hasMarker m ".jj" p)
    /\ (InfoType info = TypeNone <-> noRoot m ".git" path /\ noRoot m ".jj" path).
Proof.
  intros Habs. rewrite (Detect_cases m startPath path Habs).
  pose proof (walkUp_nearest m ".git" path) as Hgit.
  pose proof (walkUp_nearest m ".jj" path) as Hjj.
  destruct (walkUp m ".git" path) as [root|].
  - eexists. split; [reflexivity|]. simpl.
    destruct Hgit as (Ha & Hm & _).
    split; [split; [intros _; eauto | reflexivity]|].
    split; split; try discriminate; intros [Hno _]; exfalso; exact (Hno root Ha Hm).
  - destruct (walkUp m ".jj" path) as [root|].
    + eexists. split; [reflexivity|]. simpl.
      destruct Hjj as (Ha & Hm & _).
      split; [split; [discriminate | intros (p & Hp & Hpm); exfalso; exact (Hgit p Hp Hpm)]|].
      split; [split; [intros _; split; eauto | reflexivity]|].
      split; [discriminate|]. intros [_ Hno]. exfalso. exact (Hno root Ha Hm).
    + eexists. split; [reflexivity|]. simpl.
      split; [split; [discriminate | intros (p & Hp & Hpm); exfalso; exact (Hgit p Hp Hpm)]|].
      split; [split; [discriminate | intros [_ (p & Hp & Hpm)]; exfalso; exact (Hjj p Hp Hpm)]|].
      split; [intros _; split; assumption | reflexivity].
Qed.

(** X7: for a Git repository [Detect] returns the nearest directory that
    holds a [.git] directory as the root, its last component as the name,
    and the status of git run in that directory. *)
Theorem Detect_git_root (m : Machine) (startPath : string) (path : Path) (info : Info) :
  Abs m startPath = Some path ->
  Detect m startPath = inr info ->
  InfoType info = TypeGit ->
  exists root,
    nearestRoot m ".git" path root
    /\ RootPath info = Some root
    /\ RepoName info = Base root
    /\ InfoStatus info = VCS.getGitStatus (gitIn m root).
Proof.
  intros Habs Hdet Htype. rewrite (Detect_cases m startPath path Habs) in Hdet.
  pose proof (walkUp_nearest m ".git" path) as Hgit.
  destruct (walkUp m ".git" path) as [root|].
  - injection Hdet as <-. exists root. repeat split; apply Hgit.
  - destruct (walkUp m ".jj" path); injection Hdet as <-; discriminate.
Qed.

(** A start path that has no absolute form is no repository: [Detect]
    reports none, without an error. *)
Lemma Detect_without_absolute_path (m : Machine) (startPath : string) :
  Abs m startPath = None -> Detect m startPath = inr noInfo.
Proof.
  intros Habs. unfold Detect, NewDetector, detectFirst, gitDetect, jujutsuDetect,
    findVCSRoot. rewrite Habs. reflexivity.
Qed.

End DetectFacts.

Example Detect_sample :
  match VCSDetect.Detect sampleMachine "/w/sub/deep" with
  | inr info =>
      VCSDetect.InfoType info = "git" /\ VCSDetect.RootPath info = Some ["w"]
      /\ VCSDetect.RepoName info = "w"
  | inl _ => False
  end
  /\ VCSDetect.Detect sampleMachine "/x" = inr VCSDetect.noInfo
  /\ VCSDetect.Detect sampleMachine "relative" = inr VCSDetect.noInfo.
Proof. vm_compute. repeat split. Qed.

(** ** VCSInfo *)

Section VCSInfoFacts.
Import GoStrings VCS VCSDetect Lipgloss Util Icons.
Context `{Lipgloss}.

Lemma joined_nonempty (a b : string) : (a ++ " " ++ b)%string <> "".
Proof. destruct a; discriminate. Qed.

(** X8: [VCSInfo] is the empty string exactly when no directory at or above
    the working directory holds a [.git] or a [.jj] directory, whatever the
    renderer does. *)
Theorem VCSInfo_empty_iff (m : Machine) (workingDir : string) (path : Path)
  (t : Palette) :
  Abs m workingDir = Some path ->
  (VCSInfo m workingDir t = "" <-> noRoot m ".git" path /\ noRoot m ".jj" path).
Proof.
  intros Habs. unfold VCSInfo. rewrite (Detect_cases m workingDir path Habs).
  pose proof (walkUp_nearest m ".git" path) as Hgit.
  pose proof (walkUp_nearest m ".jj" path) as Hjj.
  destruct (walkUp m ".git" path) as [root|].
  - simpl. split.
    + intros Heq. exfalso. exact (joined_nonempty _ _ Heq).
    + intros [Hno _]. exfalso. destruct Hgit as (Ha & Hm & _). exact (Hno root Ha Hm).
  - destruct (walkUp m ".jj" path) as [root|]; simpl.
    + split.
      * intros Heq. exfalso. exact (joined_nonempty _ _ Heq).
      * intros [_ Hno]. exfalso. destruct Hjj as (Ha & Hm & _). exact (Hno root Ha Hm).
    + split; [intros _; split; assumption | reflexivity].
Qed.

(** X9: the icon of a Git status is the conflict icon exactly when the
    status has conflicts, and the icon of a clean tree exactly when no flag
    of the status is set and neither count is positive. *)
Theorem gitIcon_conflict_and_clean (t : Palette) (status : Status) :
  ((gitIcon t status).2 = GitConflictIcon <-> HasConflicts status = true)
  /\ ((gitIcon t status).2 = GitCleanIcon <->
      HasConflicts status = false /\ IsDetached status = false
      /\ HasStaged status = false /\ HasUncommitted status = false
      /\ HasUntracked status = false /\ HasUnpushed status = false
      /\ (AheadCount status <= 0)%Z /\ (BehindCount status <= 0)%Z).
Proof.
  unfold gitIcon.
  destruct (HasConflicts status), (IsDetached status), (HasStaged status),
    (HasUncommitted status), (HasUntracked status), (HasUnpushed status);
    destruct (Z.ltb_spec 0 (AheadCount status));
    destruct (Z.ltb_spec 0 (BehindCount status)); simpl;
    (split; split; intros Hx; try discriminate Hx; try reflexivity;
     try (repeat split; (reflexivity || lia));
     try (destruct Hx as (? & ? & ? & ? & ? & ? & ? & ?); (discriminate || lia))).
Qed.

(** X10: for a branch with nothing to commit whose upstream comparison
    prints the counts [ahead] and [behind], the icon of the status that
    [getGitStatus] computes is the one of those counts: diverged when both
    are positive, unpushed or behind when one is, clean when none is. *)
Theorem gitIcon_of_clean_tree (t : Palette) (r : GitRepo) (branch : string)
  (ahead behind : nat) :
  symbolic_ref_short_HEAD r = Some branch ->
  TrimSpace branch <> "" ->
  nonEmptyOutput (diff_name_only_unmerged r) = false ->
  diff_cached_quiet r = true ->
  diff_quiet r = true ->
  nonEmptyOutput (ls_files_others r) = false ->
  rev_list_left_right_count r = Some (revListOutput ahead behind) ->
  (gitIcon t (getGitStatus r)).2 = iconOfCounts ahead behind.
Proof.
  intros Hsym Hbranch Hunm Hcached Hquiet Huntracked Hrev.
  rewrite getGitStatus_local.
  assert (IsDetached (localStatus r) = false) as Hdet
    by (unfold localStatus; rewrite Hsym; reflexivity).
  assert (CurrentBranch (localStatus r) = TrimSpace branch) as Hcur
    by (unfold localStatus; rewrite Hsym; reflexivity).
  rewrite (aheadBehind_two_fields r (localStatus r) _ (fmtD ahead) (fmtD behind)
             Hdet ltac:(rewrite Hcur; exact Hbranch) Hrev (Fields_revListOutput _ _)).
  cbv zeta. unfold localStatus. rewrite Hsym, Hunm, Hcached, Hquiet, Huntracked.
  pose proof (len_field_positive (fmtD ahead)
                (fmtD_field ahead)) as Hla.
  pose proof (len_field_positive (fmtD behind)
                (fmtD_field behind)) as Hlb.
  apply Z.ltb_lt in Hla, Hlb. unfold iconOfCounts.
  destruct (String.eqb_spec (fmtD ahead) "0") as [Ea|Ea];
    destruct (String.eqb_spec (fmtD behind) "0") as [Eb|Eb];
    rewrite ?fmtD_zero in Ea, Eb; subst; unfold gitIcon; simpl;
    rewrite ?Hla, ?Hlb; simpl.
  - reflexivity.
  - destruct behind; [congruence|]. reflexivity.
  - destruct ahead; [congruence|]. reflexivity.
  - destruct ahead; [congruence|]. destruct behind; [congruence|]. reflexivity.
Qed.

End VCSInfoFacts.

(** ** The pills and the panels *)

Section TextLengths.
Local Open Scope string_scope.
Local Arguments String.append !_ _ / : simpl nomatch.

Lemma length_substring_0 (n : nat) (s : string) :
  n <= String.length s -> String.length (substring 0 n s) = n.
Proof.
  revert s. induction n as [|n IH]; intros s Hn.
  - destruct s; reflexivity.
  - destruct s as [|c s]; simpl in *; [lia|]. rewrite IH by lia. reflexivity.
Qed.

(** A text cut at [limit] bytes: kept when it fits, else its first
    [limit - 1] bytes and the three bytes of the ellipsis. *)
Lemma cut_length (limit : nat) (s : string) :
  1 <= limit ->
  let cut := if Nat.ltb limit (String.length s)
             then substring 0 (limit - 1) s ++ Chat.ellipsis else s in
  (String.length s <= limit -> cut = s)
  /\ (limit < String.length s -> String.length cut = limit + 2)
  /\ String.length cut <= limit + 2.
Proof.
  intros Hpos. cbv zeta.
  destruct (Nat.ltb_spec limit (String.length s)) as [Hlt|Hle].
  - assert (String.length (substring 0 (limit - 1) s ++ Chat.ellipsis) = limit + 2) as Hl.
    { rewrite length_append, length_substring_0 by lia.
      change (String.length Chat.ellipsis) with 3. lia. }
    repeat split; intros; lia.
  - repeat split; intros; lia.
Qed.

End TextLengths.

Section PillFacts.
Import GoStrings GoLoops Session Lipgloss Chat.
Local Open Scope string_scope.
Context `{Lipgloss}.

(** X11: the task text of the pill is the active form of the todo, or its
    content when the active form is empty; a text of at most 40 bytes is
    shown whole, and a longer one as its first 39 bytes and an ellipsis,
    which makes 42 bytes. *)
Theorem taskTextOf_cut (todo : Todo) :
  (String.length (taskLabel todo) <= 40 -> taskTextOf todo = taskLabel todo)
  /\ (40 < String.length (taskLabel todo) ->
      taskTextOf todo = substring 0 39 (taskLabel todo) ++ ellipsis
      /\ String.length (taskTextOf todo) = 42)
  /\ String.length (taskTextOf todo) <= 42.
Proof.
  assert (taskTextOf todo
          = if Nat.ltb 40 (String.length (taskLabel todo))
            then substring 0 39 (taskLabel todo) ++ ellipsis else taskLabel todo) as ->.
  { unfold taskTextOf, taskLabel. destruct (String.eqb (ActiveForm todo) ""); reflexivity. }
  destruct (cut_length 40 (taskLabel todo) ltac:(lia)) as (Hfit & Hcut & Hmax).
  simpl in Hfit, Hcut, Hmax.
  split; [exact Hfit|]. split; [|exact Hmax].
  intros Hlong. split; [|apply Hcut, Hlong].
  apply Nat.ltb_lt in Hlong. rewrite Hlong. reflexivity.
Qed.

Lemma scanLoop_current (i : nat) (todos : list Todo) (n : nat) (cur : option Todo) :
  (rangeFrom i (fun _ todo c => scanTodo todo c) todos (n, cur)).2
  = match cur with
    | Some _ => cur
    | None => firstInProgress todos
    end.
Proof.
  revert i n cur. induction todos as [|t todos IH]; intros i n cur.
  - simpl. destruct cur; reflexivity.
  - simpl rangeFrom. unfold firstInProgress. rewrite filter_cons.
    remember (scanTodo t (n, cur)) as c eqn:Hc. unfold scanTodo in Hc.
    destruct (String.eqb_spec (Status t) TodoStatusCompleted) as [E|E].
    + subst c. rewrite IH.
      rewrite decide_False by (rewrite E; discriminate). reflexivity.
    + destruct (String.eqb_spec (Status t) TodoStatusInProgress) as [E1|E1].
      * rewrite decide_True by assumption.
        destruct cur; subst c; rewrite IH; reflexivity.
      * rewrite decide_False by assumption. subst c. rewrite IH. reflexivity.
Qed.

(** The loop of [todoPill] keeps the first todo in progress. *)
Lemma scanTodos_current (todos : list Todo) :
  (scanTodos todos).2 = firstInProgress todos.
Proof. unfold scanTodos, forRange. rewrite scanLoop_current. reflexivity. Qed.

Lemma scanTodos_pair (todos : list Todo) :
  scanTodos todos = (countOf TodoStatusCompleted todos, firstInProgress todos).
Proof.
  rewrite <- scanTodos_completed, <- scanTodos_current.
  destruct (scanTodos todos); reflexivity.
Qed.

(** X12: when the pills panel is not focused and some todo is in progress,
    the pill shows the spinner, the progress and the task text of the first
    todo in progress, whatever follows it in the list. *)
Theorem todoPill_shows_first_in_progress (todos : list Todo) (spinnerView : string)
  (t : Theme) (cur : Todo) :
  firstInProgress todos = Some cur ->
  todoPillContent todos spinnerView false t
  = spinnerView ++ " To-Do "
    ++ progressText (countOf TodoStatusCompleted todos) (length todos)
    ++ "  " ++ Render (Foreground (Base t) (FgSubtle t)) (taskTextOf cur).
Proof.
  intros Hcur. unfold todoPillContent. rewrite scanTodos_pair, Hcur. reflexivity.
Qed.

Lemma all_completed_none_in_progress (todos : list Todo) :
  countOf TodoStatusCompleted todos = length todos -> firstInProgress todos = None.
Proof.
  unfold firstInProgress. induction todos as [|todo todos IH]; [reflexivity|].
  rewrite countOf_cons, filter_cons. simpl length.
  assert (countOf TodoStatusCompleted todos <= length todos) as Hle
    by (unfold countOf; apply length_filter).
  destruct (decide (Status todo = TodoStatusCompleted)) as [E|E]; [|lia].
  intros Hall. rewrite decide_False by (rewrite E; discriminate).
  apply IH. lia.
Qed.

(** X13: when the pills panel is focused or no todo is in progress, the pill
    shows the label and the progress, behind a check mark exactly when every
    todo is completed; and when every todo is completed no todo is in
    progress, so the pill is the same in both states of the panel. *)
Theorem todoPill_check_mark_iff_all_done (todos : list Todo) (spinnerView : string)
  (pillsPanelFocused : bool) (t : Theme) :
  (pillsPanelFocused = true \/ firstInProgress todos = None ->
   todoPillContent todos spinnerView pillsPanelFocused t
   = (if Nat.eqb (countOf TodoStatusCompleted todos) (length todos)
      then Render (Foreground (Base t) (Green t)) checkMark ++ " " else "")
     ++ "To-Do "
     ++ progressText (countOf TodoStatusCompleted todos) (length todos))
  /\ (countOf TodoStatusCompleted todos = length todos ->
      todoPillContent todos spinnerView pillsPanelFocused t
      = (Render (Foreground (Base t) (Green t)) checkMark ++ " ") ++ "To-Do "
        ++ progressText (length todos) (length todos)).
Proof.
  split.
  - intros Hcase. unfold todoPillContent. rewrite scanTodos_pair.
    destruct pillsPanelFocused; [reflexivity|].
    destruct Hcase as [Hf|Hnone]; [discriminate|]. rewrite Hnone. reflexivity.
  - intros Hall. unfold todoPillContent. rewrite scanTodos_pair.
    rewrite (all_completed_none_in_progress todos Hall), Hall, Nat.eqb_refl.
    destruct pillsPanelFocused; reflexivity.
Qed.

End PillFacts.

Section PanelFacts.
Import GoStrings GoLoops Session Lipgloss Util ChatPanels.
Local Open Scope string_scope.
Context `{Lipgloss}.

Lemma appendLoop {A B : Type} (f : A -> B) (i : nat) (l : list A) (acc : list B) :
  rangeFrom i (fun _ x lines => (lines ++ [f x])%list) l acc = (acc ++ map f l)%list.
Proof.
  revert i acc. induction l as [|x l IH]; intros i acc; simpl.
  - rewrite app_nil_r. reflexivity.
  - rewrite IH, <- app_assoc. reflexivity.
Qed.

Lemma Join_nonempty (lines : list string) (sep : string) :
  lines <> [] -> Forall (fun line => line <> "") lines -> Join lines sep <> "".
Proof.
  destruct lines as [|a rest]; [congruence|]. intros _ Hall.
  apply Forall_cons in Hall as [Ha _]. simpl.
  destruct rest; [exact Ha|]. destruct a; [congruence | discriminate].
Qed.

Lemma todoLine_nonempty (spinnerView : string) (t : Palette) (todo : Todo) :
  todoLine spinnerView t todo <> "".
Proof.
  unfold todoLine.
  destruct (String.eqb (Status todo) TodoStatusCompleted).
  - rewrite append_assoc. apply joined_nonempty.
  - destruct (String.eqb (Status todo) TodoStatusInProgress); simpl.
    + discriminate.
    + rewrite append_assoc. apply joined_nonempty.
Qed.

Lemma queueLine_nonempty (t : Palette) (item : string) : queueLine t item <> "".
Proof. unfold queueLine. rewrite append_assoc. apply joined_nonempty. Qed.

(** X14: [todoList] is the empty string exactly for the empty list, whatever
    the renderer does; for another list it joins one line for each todo, in
    the order [sortTodos] gives them. *)
Theorem todoList_lines (todos : list Todo) (spinnerView : string) (t : Palette) :
  (todoList todos spinnerView t = "" <-> todos = [])
  /\ todoList todos spinnerView t
     = Join (map (todoLine spinnerView t) (Chat.sortTodos todos)) Tools.nl
  /\ length (map (todoLine spinnerView t) (Chat.sortTodos todos)) = length todos.
Proof.
  assert (todoList todos spinnerView t
          = Join (map (todoLine spinnerView t) (Chat.sortTodos todos)) Tools.nl) as Heq.
  { unfold todoList. destruct todos as [|todo todos]; [reflexivity|].
    change (Nat.eqb (length (todo :: todos)) 0) with false. cbv iota zeta.
    unfold forRange. rewrite appendLoop. reflexivity. }
  assert (length (Chat.sortTodos todos) = length todos) as Hlen
    by apply (sortTodos_placed todos).
  split; [|split; [exact Heq | rewrite length_map; exact Hlen]].
  rewrite Heq. split.
  - intros Hempty. destruct todos as [|todo todos]; [reflexivity|]. exfalso.
    revert Hempty. apply Join_nonempty.
    + destruct (Chat.sortTodos (todo :: todos)); [discriminate Hlen | discriminate].
    + apply Forall_forall. intros line Hin. apply list_elem_of_fmap in Hin as (x & -> & _).
      apply todoLine_nonempty.
  - intros ->. reflexivity.
Qed.

(** X15: [queueList] is the empty string exactly for the empty queue; for
    another queue it joins one line for each item, in order, and the text of
    an item of more than 60 bytes is cut to its first 59 bytes and an
    ellipsis, which makes 62 bytes. *)
Theorem queueList_lines (queueItems : list string) (t : Palette) :
  (queueList queueItems t = "" <-> queueItems = [])
  /\ queueList queueItems t = Join (map (queueLine t) queueItems) Tools.nl
  /\ (forall item,
        (String.length item <= 60 -> cutItem item = item)
        /\ (60 < String.length item ->
            cutItem item = substring 0 59 item ++ Chat.ellipsis
            /\ String.length (cutItem item) = 62)).
Proof.
  assert (queueList queueItems t = Join (map (queueLine t) queueItems) Tools.nl) as Heq.
  { unfold queueList. destruct queueItems as [|item items]; [reflexivity|].
    change (Nat.eqb (length (item :: items)) 0) with false. cbv iota zeta.
    unfold forRange. rewrite appendLoop. reflexivity. }
  split; [|split; [exact Heq|]].
  - rewrite Heq. split.
    + intros Hempty. destruct queueItems as [|item items]; [reflexivity|]. exfalso.
      revert Hempty. apply Join_nonempty; [discriminate|].
      apply Forall_forall. intros line Hin.
      apply list_elem_of_fmap in Hin as (x & -> & _). apply queueLine_nonempty.
    + intros ->. reflexivity.
  - intros item. destruct (cut_length 60 item ltac:(lia)) as (Hfit & Hcut & _).
    unfold cutItem. simpl in Hfit, Hcut. split; [exact Hfit|].
    intros Hlong. split; [|apply Hcut, Hlong].
    apply Nat.ltb_lt in Hlong. rewrite Hlong. reflexivity.
Qed.

End PanelFacts.

Section SpacingFacts.
Import GoLoops ChatPanels.

Lemma spacingLoop (n i : nat) (l acc : list string) :
  i + length l = n ->
  rangeFrom i (fun i pill result =>
                 let result := result ++ [pill] in
                 if Nat.ltb i (n - 1) then result ++ ["  "%string] else result) l acc
  = acc ++ intersperse "  "%string l.
Proof.
  revert i acc. induction l as [|x l IH]; intros i acc Hn.
  - simpl. rewrite app_nil_r. reflexivity.
  - simpl rangeFrom. cbv zeta. simpl in Hn.
    destruct l as [|y l].
    + simpl in *. destruct (Nat.ltb_spec i (n - 1)); [lia|]. reflexivity.
    + destruct (Nat.ltb_spec i (n - 1)); [|simpl in *; lia].
      rewrite IH by (simpl in *; lia).
      change (intersperse "  "%string (x :: y :: l))
        with (x :: "  "%string :: intersperse "  "%string (y :: l)).
      rewrite <- !app_assoc. reflexivity.
Qed.

Lemma intersperse_length {A : Type} (sep : A) (l : list A) :
  length (intersperse sep l) = 2 * length l - 1.
Proof.
  induction l as [|a l IH]; [reflexivity|].
  destruct l as [|b l]; [reflexivity|].
  change (intersperse sep (a :: b :: l)) with (a :: sep :: intersperse sep (b :: l)).
  simpl length in *. lia.
Qed.

Lemma intersperse_lookup {A : Type} (sep : A) (l : list A) (i : nat) :
  intersperse sep l !! (2 * i) = l !! i
  /\ (S i < length l -> intersperse sep l !! (2 * i + 1) = Some sep).
Proof.
  revert i. induction l as [|a l IH]; intros i.
  - split; [reflexivity | simpl; lia].
  - destruct l as [|b l].
    + destruct i; simpl; split; try reflexivity; lia.
    + change (intersperse sep (a :: b :: l)) with (a :: sep :: intersperse sep (b :: l)).
      destruct i as [|i].
      * split; reflexivity.
      * replace (2 * S i) with (S (S (2 * i))) by lia.
        replace (S (S (2 * i)) + 1) with (S (S (2 * i + 1))) by lia.
        simpl lookup. destruct (IH i) as [IH1 IH2]. split; [exact IH1|].
        intros Hi. apply IH2. simpl in *. lia.
Qed.

(** X16: [addPillSpacing] puts two spaces between each two pills and nowhere
    else: [n] pills give [2n - 1] strings (none for none), the pill [i] at
    index [2i] and the spacing at the odd indices between. *)
Theorem addPillSpacing_intersperses (pills : list string) :
  addPillSpacing pills = intersperse "  "%string pills
  /\ length (addPillSpacing pills) = 2 * length pills - 1
  /\ forall i,
       addPillSpacing pills !! (2 * i) = pills !! i
       /\ (S i < length pills -> addPillSpacing pills !! (2 * i + 1) = Some "  "%string).
Proof.
  assert (addPillSpacing pills = intersperse "  "%string pills) as Heq.
  { unfold addPillSpacing.
    destruct (Nat.leb_spec (length pills) 1) as [Hle|Hgt].
    - destruct pills as [|a [|b l]]; [reflexivity | reflexivity | simpl in Hle; lia].
    - unfold forRange. rewrite (spacingLoop (length pills)) by lia. reflexivity. }
  rewrite Heq. split; [reflexivity|]. split; [apply intersperse_length|].
  intros i. apply intersperse_lookup.
Qed.

End SpacingFacts.

Section QueuePillFacts.
Import GoStrings Lipgloss Util ChatPanels.
Local Open Scope string_scope.
Context `{Lipgloss}.
Variable ForegroundGrad : string -> bool -> Color -> Color -> list string.

(** X17: [queuePill] is the empty string for a queue of zero or fewer.  When
    the gradient returns the nine triangles, the pill of a positive queue is
    the rendering of as many triangles as are queued, at most nine, and the
    number queued. *)
Theorem queuePill_triangles (queue : Z) (focused pillsPanelFocused : bool) (t : Palette) :
  length (ForegroundGrad nineTriangles false (PRedDark t) (PAccent t)) = 9 ->
  ((queue <= 0)%Z -> queuePill ForegroundGrad queue focused pillsPanelFocused t = Some "")
  /\ ((0 < queue)%Z ->
      exists style,
        queuePill ForegroundGrad queue focused pillsPanelFocused t
        = Some (Render style
                  (Join (take (Z.to_nat (Z.min queue 9))
                           (ForegroundGrad nineTriangles false (PRedDark t) (PAccent t))) ""
                   ++ " " ++ fmtD (Z.to_nat queue) ++ " Queued"))).
Proof.
  intros Hnine. unfold queuePill, queuePillContent, sliceTo.
  set (triangles := ForegroundGrad nineTriangles false (PRedDark t) (PAccent t)) in *.
  destruct (Z.leb_spec queue 0) as [Hle|Hpos].
  - split; [reflexivity | intros; lia].
  - split; [intros; lia|]. intros _.
    destruct (Z.ltb_spec queue 10) as [Hlt|Hge].
    + destruct (Nat.leb_spec (Z.to_nat queue) (length triangles)) as [Hin|Hout]; [|lia].
      rewrite Z.min_l by lia. eexists. reflexivity.
    + rewrite Z.min_r by lia. rewrite take_ge by (rewrite Hnine; simpl; lia).
      eexists. reflexivity.
Qed.

End QueuePillFacts.

(** ** The todos tool: the metadata of the variant *)

Section MetadataFacts.
Import GoLoops Tools.

Lemma oldStatusLoop (i : nat) (old : list Session.Todo)
  (m : gmap string Session.TodoStatus) (c : string) :
  rangeFrom i (fun _ todo m => <[Session.Content todo := Session.Status todo]> m) old m !! c
  = match lastStatus old c with
    | Some s => Some s
    | None => m !! c
    end.
Proof.
  revert i m. induction old as [|t old IH]; intros i m; [reflexivity|].
  simpl rangeFrom. rewrite IH. unfold lastStatus. rewrite filter_cons.
  destruct (decide (Session.Content t = c)) as [E|E].
  - rewrite last_cons.
    destruct (last (filter (fun t0 => Session.Content t0 = c) old)); simpl;
      [reflexivity|]. rewrite E, lookup_insert_eq. reflexivity.
  - destruct (last (filter (fun t0 => Session.Content t0 = c) old)); simpl;
      [reflexivity|]. rewrite lookup_insert_ne by assumption. reflexivity.
Qed.

(** X18: the map of old statuses holds, for a content, the status of the
    last todo of the session with that content, and nothing for a content no
    todo has. *)
Theorem oldStatusByContent_last (old : list Session.Todo) (c : string) :
  TodosMeta.oldStatusByContent old !! c = lastStatus old c
  /\ (TodosMeta.oldStatusByContent old !! c = None <->
      forall t, In t old -> Session.Content t <> c).
Proof.
  assert (TodosMeta.oldStatusByContent old !! c = lastStatus old c) as Heq.
  { unfold TodosMeta.oldStatusByContent, forRange. rewrite oldStatusLoop.
    destruct (lastStatus old c); [reflexivity | apply lookup_empty]. }
  split; [exact Heq|]. rewrite Heq. unfold lastStatus.
  rewrite fmap_None, last_None. split.
  - intros Hnil t Hin Hc.
    apply (filter_nil_not_elem_of _ _ t Hnil Hc). apply list_elem_of_In, Hin.
  - intros Hall. destruct (filter _ old) as [|t l] eqn:Hf; [reflexivity|].
    exfalso. assert (t ∈ filter (fun t0 => Session.Content t0 = c) old) as Hin
      by (rewrite Hf; left).
    apply list_elem_of_filter in Hin as [Hc Hin].
    exact (Hall t (proj1 (list_elem_of_In _ _) Hin) Hc).
Qed.

Lemma oldStatus_lookup (old : list Session.Todo) (c : string) :
  TodosMeta.oldStatusByContent old !! c = lastStatus old c.
Proof.
  unfold TodosMeta.oldStatusByContent, forRange. rewrite oldStatusLoop.
  destruct (lastStatus old c); [reflexivity | apply lookup_empty].
Qed.

Lemma last_cons_filter (p : TodoItem -> bool) (item : TodoItem) (items : list TodoItem) :
  last (filter (fun x => p x = true) (item :: items))
  = match last (filter (fun x => p x = true) items) with
    | Some y => Some y
    | None => if p item then Some item else None
    end.
Proof.
  rewrite filter_cons. destruct (p item) eqn:Hp.
  - rewrite decide_True by reflexivity. apply last_cons.
  - rewrite decide_False by discriminate.
    destruct (last (filter _ items)); reflexivity.
Qed.

Lemma filter_bool_ext (p q : TodoItem -> bool) (items : list TodoItem) :
  (forall item, p item = q item) ->
  filter (fun item => p item = true) items = filter (fun item => q item = true) items.
Proof.
  intros Hpq. induction items as [|item items IH]; [reflexivity|].
  rewrite !filter_cons, IH, Hpq. reflexivity.
Qed.

(** What one round of the conversion loop does to the two change records. *)
Lemma convertItem_changes (old : list Session.Todo) (i : nat) (item : TodoItem)
  (c : TodosMeta.Conv) :
  let c' := TodosMeta.convertItem (TodosMeta.oldStatusByContent old) i item c in
  TodosMeta.justCompleted c'
  = TodosMeta.justCompleted c
    ++ (if newlyCompleted old item then [Content item] else [])
  /\ TodosMeta.justStarted c'
     = if newlyStarted old item then itemLabel item else TodosMeta.justStarted c.
Proof.
  cbv zeta. unfold TodosMeta.convertItem, newlyCompleted, newlyStarted, itemLabel.
  pose proof (oldStatus_lookup old (Content item)) as Hlook.
  unfold Session.TodoStatus in *. rewrite !Hlook. clear Hlook.
  destruct (lastStatus old (Content item)) as [s|]; simpl.
  - destruct (String.eqb (Status item) Session.TodoStatusCompleted),
      (String.eqb (Status item) Session.TodoStatusInProgress),
      (String.eqb s Session.TodoStatusCompleted),
      (String.eqb s Session.TodoStatusInProgress),
      (String.eqb (ActiveForm item) ""); simpl; rewrite ?app_nil_r; split; reflexivity.
  - destruct (String.eqb (Status item) Session.TodoStatusCompleted),
      (String.eqb (Status item) Session.TodoStatusInProgress),
      (String.eqb (ActiveForm item) ""); simpl; rewrite ?app_nil_r; split; reflexivity.
Qed.

Lemma changesLoop (old : list Session.Todo) (items : list TodoItem) (i : nat)
  (c : TodosMeta.Conv) :
  let c' := rangeFrom i (TodosMeta.convertItem (TodosMeta.oldStatusByContent old)) items c in
  TodosMeta.justCompleted c'
  = TodosMeta.justCompleted c
    ++ map Content (filter (fun item => newlyCompleted old item = true) items)
  /\ TodosMeta.justStarted c'
     = match last (filter (fun item => newlyStarted old item = true) items) with
       | Some item => itemLabel item
       | None => TodosMeta.justStarted c
       end.
Proof.
  revert i c. induction items as [|item items IH]; intros i c; cbv zeta.
  - simpl. rewrite app_nil_r. split; reflexivity.
  - simpl rangeFrom.
    destruct (convertItem_changes old i item c) as [Hjc Hjs].
    destruct (IH (S i) (TodosMeta.convertItem (TodosMeta.oldStatusByContent old) i item c))
      as [IH1 IH2].
    rewrite IH1, IH2, Hjc, Hjs. split.
    + rewrite filter_cons. destruct (newlyCompleted old item).
      * rewrite decide_True by reflexivity. simpl map. rewrite <- app_assoc. reflexivity.
      * rewrite decide_False by discriminate. rewrite app_nil_r. reflexivity.
    + rewrite last_cons_filter.
      destruct (last (filter _ items)); [reflexivity|].
      destruct (newlyStarted old item); reflexivity.
Qed.

(** X19: the variant reports as just completed the contents of the items, in
    their order, that are completed while the last todo of the session with
    that content was not; and as just started the label of the last item that
    is in progress while the session held no todo with its content or the
    last one was not in progress. *)
Theorem todos_change_detection (old : list Session.Todo) (items : list TodoItem) :
  let c := TodosMeta.convertTodos (TodosMeta.oldStatusByContent old) items in
  TodosMeta.justCompleted c
  = map Content (filter (fun item => newlyCompleted old item = true) items)
  /\ TodosMeta.justStarted c = lastLabel (newlyStarted old) items.
Proof.
  cbv zeta. unfold TodosMeta.convertTodos, forRange, lastLabel.
  destruct (changesLoop old items 0
              (TodosMeta.mkConv (replicate (length items) Session.zeroTodo) [] "" 0))
    as [H1 H2].
  rewrite H1, H2. split; reflexivity.
Qed.

(** X20: on a session without todos nothing is reported as just completed,
    and the label of the last item in progress is reported as just
    started. *)
Theorem todos_changes_of_new_list (items : list TodoItem) :
  let c := TodosMeta.convertTodos (TodosMeta.oldStatusByContent []) items in
  TodosMeta.justCompleted c = []
  /\ TodosMeta.justStarted c
     = lastLabel (fun item => String.eqb (Status item) Session.TodoStatusInProgress) items.
Proof.
  cbv zeta. unfold TodosMeta.convertTodos, forRange, lastLabel.
  destruct (changesLoop [] items 0
              (TodosMeta.mkConv (replicate (length items) Session.zeroTodo) [] "" 0))
    as [H1 H2].
  rewrite H1, H2. simpl.
  rewrite (filter_bool_ext (newlyCompleted []) (fun _ => false) items),
    (filter_bool_ext (newlyStarted [])
       (fun item => String.eqb (Status item) Session.TodoStatusInProgress) items).
  - split; [|reflexivity]. clear H1 H2.
    induction items as [|item items IH]; [reflexivity|].
    rewrite filter_cons, decide_False by discriminate. exact IH.
  - intros item. unfold newlyStarted, lastStatus. simpl. apply andb_true_r.
  - intros item. unfold newlyCompleted, lastStatus. simpl. apply andb_false_r.
Qed.

Lemma lastStatus_NoDup (old : list Session.Todo) (t : Session.Todo) :
  NoDup (map Session.Content old) -> In t old ->
  lastStatus old (Session.Content t) = Some (Session.Status t).
Proof.
  unfold lastStatus. induction old as [|t0 old IH]; intros Hnd Hin; [destruct Hin|].
  simpl in Hnd. apply NoDup_cons in Hnd as [Hfresh Hnd].
  rewrite filter_cons. destruct Hin as [->|Hin].
  - rewrite decide_True by reflexivity.
    assert (filter (fun t0 => Session.Content t0 = Session.Content t) old = []) as ->;
      [|reflexivity].
    destruct (filter _ old) as [|y l] eqn:Hf; [reflexivity|]. exfalso.
    assert (y ∈ filter (fun t0 => Session.Content t0 = Session.Content t) old) as Hy
      by (rewrite Hf; left).
    apply list_elem_of_filter in Hy as [Hc Hy]. apply Hfresh.
    rewrite <- Hc. apply list_elem_of_fmap. exists y. split; [reflexivity | exact Hy].
  - rewrite decide_False.
    + apply IH; assumption.
    + intros Hc. apply Hfresh. rewrite Hc.
      apply list_elem_of_fmap. exists t. split; [reflexivity|].
      apply list_elem_of_In, Hin.
Qed.

Lemma filter_asItem_none (p : TodoItem -> bool) (l : list Session.Todo) :
  (forall t, In t l -> p (asItem t) = false) ->
  filter (fun item => p item = true) (map asItem l) = [].
Proof.
  intros Hp. induction l as [|t l IH]; [reflexivity|].
  simpl map. rewrite filter_cons, decide_False
    by (rewrite (Hp t (or_introl eq_refl)); discriminate).
  apply IH. intros t' Hin. apply Hp. right. exact Hin.
Qed.

(** X21: submitting the todos of the session as they are, when no two of
    them have the same content, reports nothing as just completed and
    nothing as just started. *)
Theorem todos_resubmission_reports_nothing (old : list Session.Todo) :
  NoDup (map Session.Content old) ->
  let c := TodosMeta.convertTodos (TodosMeta.oldStatusByContent old) (map asItem old) in
  TodosMeta.justCompleted c = [] /\ TodosMeta.justStarted c = "".
Proof.
  intros Hnd. cbv zeta. unfold TodosMeta.convertTodos, forRange.
  destruct (changesLoop old (map asItem old) 0
              (TodosMeta.mkConv (replicate (length (map asItem old)) Session.zeroTodo)
                                [] "" 0)) as [H1 H2].
  rewrite H1, H2. simpl.
  rewrite (filter_asItem_none (newlyCompleted old) old),
    (filter_asItem_none (newlyStarted old) old).
  - split; reflexivity.
  - intros t Hin. unfold newlyStarted, asItem. simpl.
    rewrite (lastStatus_NoDup old t Hnd Hin).
    destruct (String.eqb (Session.Status t) Session.TodoStatusInProgress); reflexivity.
  - intros t Hin. unfold newlyCompleted, asItem. simpl.
    rewrite (lastStatus_NoDup old t Hnd Hin).
    destruct (String.eqb (Session.Status t) Session.TodoStatusCompleted); reflexivity.
Qed.

End MetadataFacts.

(** With two todos of one content the map keeps the status of the second, and
    submitting the list as it is reports the first as just completed. *)
Example resubmission_with_duplicates :
  Tools.TodosMeta.justCompleted
    (Tools.TodosMeta.convertTodos (Tools.TodosMeta.oldStatusByContent twiceA)
       (map asItem twiceA))
  = ["a"%string].
Proof. vm_compute. reflexivity. Qed.

(** ** The todos tool: results and calls *)

Section HandlerFacts.
Import GoLoops Tools.
Context {Other Store : Type} `{!Session.Service Other Store}.

Lemma countOf_le (st : Session.TodoStatus) (todos : list Session.Todo) :
  countOf st todos <= length todos.
Proof. unfold countOf. apply length_filter. Qed.

Lemma newlyCompleted_le (old : list Session.Todo) (items : list TodoItem) :
  length (filter (fun item => newlyCompleted old item = true) items)
  <= countOf Session.TodoStatusCompleted (map toTodo items).
Proof.
  induction items as [|item items IH]; [reflexivity|].
  simpl map. rewrite countOf_cons, filter_cons. simpl Session.Status.
  destruct (decide (newlyCompleted old item = true)) as [Hn|Hn];
    case_decide as Hc; simpl length.
  - lia.
  - exfalso. apply Hc. unfold newlyCompleted in Hn.
    apply andb_prop in Hn as [Hn _]. apply String.eqb_eq, Hn.
  - lia.
  - lia.
Qed.

(** X22: when the variant succeeds its response carries metadata whose
    [Total] is the number of items, whose [Completed] is the number of
    completed items, at most [Total] and at least the number of contents
    reported as just completed, and whose [IsNew] says whether the session
    had no todos. *)
Theorem todosMeta_response_metadata (ctx : Context) (params : TodosParams) (st st' : Store)
  (r : ToolResponse) (calls : list (Call Other)) :
  run (TodosMeta.NewTodosTool ctx params) st = (inr r, st', calls) ->
  exists cur md,
    Session.Get (GetSessionFromContext ctx) st = inr cur
    /\ Fantasy.Metadata r = Some md
    /\ Total md = length (Todos params)
    /\ Completed md = countOf Session.TodoStatusCompleted (map toTodo (Todos params))
    /\ length (JustCompleted md) <= Completed md <= Total md
    /\ (IsNew md = true <-> Session.Todos cur = []).
Proof.
  rewrite run_TodosMeta. cbv zeta.
  destruct (String.eqb (GetSessionFromContext ctx) ""); [discriminate|].
  destruct (Session.Get (GetSessionFromContext ctx) st) as [err|cur]; [discriminate|].
  destruct (Session.Save _ st) as [[err|saved] st1]; [discriminate|].
  intros Hrun. injection Hrun as <- <- <-.
  destruct (convertTodosMeta_map (TodosMeta.oldStatusByContent (Session.Todos cur))
              (Todos params)) as [Htodos Hcount].
  destruct (changesLoop (Session.Todos cur) (Todos params) 0
              (TodosMeta.mkConv (replicate (length (Todos params)) Session.zeroTodo)
                                [] "" 0)) as [Hjc _].
  exists cur. eexists. split; [reflexivity|]. split; [reflexivity|]. simpl.
  rewrite Htodos, Hcount, length_map. split; [reflexivity|]. split; [reflexivity|].
  split.
  - split.
    + unfold TodosMeta.convertTodos, forRange. rewrite Hjc. simpl.
      rewrite length_map. apply newlyCompleted_le.
    + rewrite <- (length_map toTodo (Todos params)). apply countOf_le.
  - destruct (Session.Todos cur); simpl; split; intros; congruence.
Qed.

(** X23: either handler succeeds exactly when the context carries a session
    ID, [Get] returns the session and [Save] accepts it with the new todos.
    It calls [Get] at most once and [Save] at most once, [Save] only after
    [Get] has succeeded; when [Save] fails the handler returns that error and
    leaves the store as [Save] left it. *)
Theorem todos_success_and_calls (v : Version) (ctx : Context) (params : TodosParams)
  (st : Store) :
  let id := GetSessionFromContext ctx in
  let out := run (handler v ctx params) st in
  ((exists r, out.1.1 = inr r) <->
   id <> ""
   /\ exists cur saved,
        Session.Get id st = inr cur
        /\ (Session.Save (Session.setTodos (map toTodo (Todos params)) cur) st).1
           = inr saved)
  /\ (out.2 = []
      \/ out.2 = [CallGet id]
      \/ exists cur,
           Session.Get id st = inr cur
           /\ out.2 = [CallGet id;
                       CallSave (Session.setTodos (map toTodo (Todos params)) cur)])
  /\ (forall cur err st1,
        id <> "" ->
        Session.Get id st = inr cur ->
        Session.Save (Session.setTodos (map toTodo (Todos params)) cur) st = (inl err, st1) ->
        out = (inl (wrapError "failed to save todos" err), st1,
               [CallGet id;
                CallSave (Session.setTodos (map toTodo (Todos params)) cur)])).
Proof.
  cbv zeta.
  assert (run (handler v ctx params) st
          = (if String.eqb (GetSessionFromContext ctx) ""
            then (inl "session ID is required for managing todos"%string, st, [])
            else match Session.Get (GetSessionFromContext ctx) st with
                 | inl err => (inl (wrapError "failed to get session" err), st,
                               [CallGet (GetSessionFromContext ctx)])
                 | inr cur =>
                     let s := Session.setTodos (map toTodo (Todos params)) cur in
                     match Session.Save s st with
                     | (inl err, st1) =>
                         (inl (wrapError "failed to save todos" err), st1,
                          [CallGet (GetSessionFromContext ctx); CallSave s])
                     | (inr _, st1) =>
                         ((run (handler v ctx params) st).1.1, st1,
                          [CallGet (GetSessionFromContext ctx); CallSave s])
                     end
                 end)
          /\ (forall cur saved st1,
                String.eqb (GetSessionFromContext ctx) "" = false ->
                Session.Get (GetSessionFromContext ctx) st = inr cur ->
                Session.Save (Session.setTodos (map toTodo (Todos params)) cur) st
                = (inr saved, st1) ->
                exists r, (run (handler v ctx params) st).1.1 = inr r)) as [Hrun Hok].
  { destruct v; simpl handler; [rewrite run_Todos | rewrite run_TodosMeta]; cbv zeta;
      destruct (String.eqb (GetSessionFromContext ctx) "");
      (split; [|intros cur saved st1 Hid Hget Hsave; try discriminate Hid]);
      try reflexivity;
      destruct (Session.Get (GetSessionFromContext ctx) st) as [err|cur'];
      try reflexivity; try discriminate Hget;
      try (injection Hget as <-; rewrite Hsave; eexists; reflexivity);
      destruct (Session.Save _ st) as [[err|saved'] st2]; reflexivity. }
  rewrite Hrun. clear Hrun.
  destruct (String.eqb_spec (GetSessionFromContext ctx) "") as [Hid|Hid].
  - split; [|split].
    + split; [intros [r Hr]; discriminate Hr | intros [Hne _]; contradiction].
    + left. reflexivity.
    + intros cur err st1 Hne. contradiction.
  - specialize (fun cur saved st1 => Hok cur saved st1 eq_refl).
    destruct (Session.Get (GetSessionFromContext ctx) st) as [err|cur].
    + split; [|split].
      * split; [intros [r Hr]; discriminate Hr
               | intros (_ & cur & saved & Hget & _); discriminate Hget].
      * right. left. reflexivity.
      * intros cur err' st1 _ Hget. discriminate Hget.
    + cbv zeta.
      destruct (Session.Save (Session.setTodos (map toTodo (Todos params)) cur) st)
        as [[err|saved] st1] eqn:Hsave.
      * split; [|split].
        -- split; [intros [r Hr]; discriminate Hr|].
           intros (_ & cur' & saved & Hget & Hs). injection Hget as <-.
           rewrite Hsave in Hs. discriminate Hs.
        -- right. right. exists cur. split; reflexivity.
        -- intros cur' err' st2 _ Hget Hs. injection Hget as <-.
           rewrite Hsave in Hs. injection Hs as <- <-. reflexivity.
      * split; [|split].
        -- split.
           ++ intros _. split; [exact Hid|]. exists cur, saved.
              split; [reflexivity|]. rewrite Hsave. reflexivity.
           ++ intros _. simpl. exact (Hok cur saved st1 eq_refl Hsave).
        -- right. right. exists cur. split; reflexivity.
        -- intros cur' err' st2 _ Hget Hs. injection Hget as <-.
           rewrite Hsave in Hs. discriminate Hs.
Qed.

Lemma counts_recognized (todos : list Session.Todo) :
  countOf Session.TodoStatusPending todos + countOf Session.TodoStatusInProgress todos
  + countOf Session.TodoStatusCompleted todos <= length todos
  /\ (countOf Session.TodoStatusPending todos + countOf Session.TodoStatusInProgress todos
      + countOf Session.TodoStatusCompleted todos = length todos
      <-> Forall recognized todos).
Proof.
  induction todos as [|t todos [IHle IHeq]].
  - split; [reflexivity|]. split; [constructor | reflexivity].
  - rewrite !countOf_cons. simpl length.
    destruct (decide (Session.Status t = Session.TodoStatusPending)) as [E|Ep].
    { rewrite !decide_False by (rewrite E; discriminate).
      split; [lia|]. rewrite Forall_cons. split.
      - intros Hsum. split; [left; exact E | apply IHeq; lia].
      - intros [_ Hall]. apply IHeq in Hall. lia. }
    destruct (decide (Session.Status t = Session.TodoStatusInProgress)) as [E|Ei].
    { rewrite !decide_False by (rewrite E; discriminate).
      split; [lia|]. rewrite Forall_cons. split.
      - intros Hsum. split; [right; left; exact E | apply IHeq; lia].
      - intros [_ Hall]. apply IHeq in Hall. lia. }
    destruct (decide (Session.Status t = Session.TodoStatusCompleted)) as [E|Ec].
    { split; [lia|]. rewrite Forall_cons. split.
      - intros Hsum. split; [right; right; exact E | apply IHeq; lia].
      - intros [_ Hall]. apply IHeq in Hall. lia. }
    split; [lia|]. rewrite Forall_cons. split.
    + intros Hsum. lia.
    + intros [[?|[?|?]] _]; contradiction.
Qed.

(** X24: the three counts of the response of todos.go never add up to more
    than the number of todos, and they add up to it exactly when every
    status is pending, in_progress or completed: a todo of another status is
    saved and counted nowhere. *)
Theorem todos_counts_add_up (todos : list Session.Todo) :
  let '(pendingCount, inProgressCount, completedCount) := Todos.countTodos todos in
  pendingCount + inProgressCount + completedCount <= length todos
  /\ (pendingCount + inProgressCount + completedCount = length todos
      <-> Forall recognized todos).
Proof. rewrite countTodos_countOf. apply counts_recognized. Qed.

End HandlerFacts.

(** ** getJujutsuStatus *)

Section JujutsuFacts.
Import GoStrings VCS VCSDetect.

(** X25: a Jujutsu status never reports staged or untracked files, commits
    ahead or behind, unpushed commits, a detached HEAD or a tracking branch;
    its branch name carries no white space at its ends; and when `jj status`
    fails it reports neither changes nor conflicts. *)
Theorem getJujutsuStatus_reports (r : JjRepo) :
  let status := getJujutsuStatus r in
  HasStaged status = false /\ HasUntracked status = false
  /\ AheadCount status = 0%Z /\ BehindCount status = 0%Z
  /\ IsDetached status = false /\ HasUnpushed status = false
  /\ RemoteTrackingOK status = false
  /\ TrimSpace (CurrentBranch status) = CurrentBranch status
  /\ (jj_status r = None -> HasUncommitted status = false /\ HasConflicts status = false).
Proof.
  cbv zeta. unfold getJujutsuStatus.
  set (s1 := match log_branches r with
             | Some output =>
                 if negb (String.eqb (TrimSpace output) "")
                 then match Fields (TrimSpace output) with
                      | b :: _ => setJjBranch b zeroStatus
                      | [] => zeroStatus
                      end
                 else zeroStatus
             | None => zeroStatus
             end).
  assert (exists b, TrimSpace b = b /\ s1 = setJjBranch b zeroStatus) as (b1 & Hb1 & Hs1).
  { subst s1. destruct (log_branches r) as [output|]; [|exists ""; split; reflexivity].
    destruct (String.eqb (TrimSpace output) ""); simpl;
      [exists ""; split; reflexivity|].
    pose proof (Fields_fields (TrimSpace output)) as Hf.
    destruct (Fields (TrimSpace output)) as [|b rest]; [exists ""; split; reflexivity|].
    apply Forall_cons in Hf as [Hb _]. exists b. split; [|reflexivity].
    apply TrimSpace_field, Hb. }
  set (s2 := if String.eqb (CurrentBranch s1) ""
             then match log_change_id r with
                  | Some output =>
                      if negb (String.eqb (TrimSpace output) "")
                      then setJjBranch (TrimSpace output) s1 else s1
                  | None => s1
                  end
             else s1).
  assert (exists b, TrimSpace b = b /\ s2 = setJjBranch b zeroStatus) as (b2 & Hb2 & Hs2).
  { subst s2. destruct (String.eqb (CurrentBranch s1) ""); [|eauto].
    destruct (log_change_id r) as [output|]; [|eauto].
    destruct (String.eqb (TrimSpace output) ""); simpl; [eauto|].
    exists (TrimSpace output). split; [apply TrimSpace_idempotent|].
    rewrite Hs1. reflexivity. }
  rewrite Hs2.
  destruct (jj_status r) as [statusOutput|].
  - destruct (Contains statusOutput "Working copy changes:"),
      (Contains statusOutput "conflict"); simpl;
      repeat split; try exact Hb2; discriminate.
  - simpl. repeat split; exact Hb2.
Qed.

End JujutsuFacts.

(** ** The further properties on sample data *)

(** On a detached HEAD the upstream comparison is not made. *)
Lemma getGitStatus_untracked_counts_zero_witness :
  VCS.AheadCount (VCS.getGitStatus detachedRepo) = 0%Z
  /\ VCS.BehindCount (VCS.getGitStatus detachedRepo) = 0%Z
  /\ VCS.HasUnpushed (VCS.getGitStatus detachedRepo) = false.
Proof.
  apply (proj1 (getGitStatus_untracked_counts_zero detachedRepo)).
  vm_compute. reflexivity.
Defined.

(** Twelve commits ahead and three behind. *)
Lemma getGitStatus_counts_positive_iff_witness :
  VCS.RemoteTrackingOK (VCS.getGitStatus (cleanRepo 12 3)) = true
  /\ ((0 < VCS.AheadCount (VCS.getGitStatus (cleanRepo 12 3)))%Z <-> 0 < 12)
  /\ ((0 < VCS.BehindCount (VCS.getGitStatus (cleanRepo 12 3)))%Z <-> 0 < 3)
  /\ (VCS.HasUnpushed (VCS.getGitStatus (cleanRepo 12 3)) = true <-> 0 < 12).
Proof.
  apply (getGitStatus_counts_positive_iff (cleanRepo 12 3) ("main" ++ Tools.nl)%string 12 3).
  - reflexivity.
  - vm_compute. discriminate.
  - reflexivity.
Defined.

(** From [/w/sub/deep] the nearest [.jj] directory is in [/w/sub]. *)
Lemma findVCSRoot_nearest_witness :
  VCSDetect.findVCSRoot sampleMachine "/w/sub/deep" ".jj" = Some ["sub"; "w"]
  /\ match VCSDetect.findVCSRoot sampleMachine "/w/sub/deep" ".jj" with
     | Some root => nearestRoot sampleMachine ".jj" ["deep"; "sub"; "w"] root
     | None => noRoot sampleMachine ".jj" ["deep"; "sub"; "w"]
     end.
Proof.
  split; [vm_compute; reflexivity|].
  apply (findVCSRoot_nearest sampleMachine "/w/sub/deep" ".jj" ["deep"; "sub"; "w"]).
  vm_compute. reflexivity.
Defined.

(** From [/w/sub/deep] Git is reported, though [.jj] lies nearer. *)
Lemma Detect_git_before_jujutsu_witness :
  exists info,
    VCSDetect.Detect sampleMachine "/w/sub/deep" = inr info
    /\ (VCSDetect.InfoType info = VCSDetect.TypeGit <->
        exists p, isAbove p ["deep"; "sub"; "w"] /\ hasMarker sampleMachine ".git" p)
    /\ (VCSDetect.InfoType info = VCSDetect.TypeJujutsu <->
        noRoot sampleMachine ".git" ["deep"; "sub"; "w"]
        /\ exists p, isAbove p ["deep"; "sub"; "w"] /\ hasMarker sampleMachine ".jj" p)
    /\ (VCSDetect.InfoType info = VCSDetect.TypeNone <->
        noRoot sampleMachine ".git" ["deep"; "sub"; "w"]
        /\ noRoot sampleMachine ".jj" ["deep"; "sub"; "w"]).
Proof.
  apply (Detect_git_before_jujutsu sampleMachine "/w/sub/deep" ["deep"; "sub"; "w"]).
  vm_compute. reflexivity.
Defined.

Lemma Detect_git_root_witness :
  exists root,
    nearestRoot sampleMachine ".git" ["deep"; "sub"; "w"] root
    /\ VCSDetect.RootPath sampleInfo = Some root
    /\ VCSDetect.RepoName sampleInfo = VCSDetect.Base root
    /\ VCSDetect.InfoStatus sampleInfo
       = VCS.getGitStatus (VCSDetect.gitIn sampleMachine root).
Proof.
  apply (Detect_git_root sampleMachine "/w/sub/deep" ["deep"; "sub"; "w"] sampleInfo).
  - vm_compute. reflexivity.
  - vm_compute. reflexivity.
  - reflexivity.
Defined.

(** In [/tmp] there is no repository. *)
Lemma VCSInfo_empty_iff_witness :
  @Util.VCSInfo TextRenderer.textLipgloss sampleMachine "/tmp" textPalette = ""
  <-> noRoot sampleMachine ".git" ["tmp"] /\ noRoot sampleMachine ".jj" ["tmp"].
Proof.
  apply (@VCSInfo_empty_iff TextRenderer.textLipgloss sampleMachine "/tmp" ["tmp"] textPalette).
  vm_compute. reflexivity.
Defined.

(** Twelve ahead and three behind: diverged. *)
Lemma gitIcon_of_clean_tree_witness :
  (@Util.gitIcon TextRenderer.textLipgloss textPalette
     (VCS.getGitStatus (cleanRepo 12 3))).2 = Icons.GitDivergentIcon.
Proof.
  apply (@gitIcon_of_clean_tree TextRenderer.textLipgloss textPalette (cleanRepo 12 3)
           ("main" ++ Tools.nl)%string 12 3).
  - reflexivity.
  - vm_compute. discriminate.
  - reflexivity.
  - reflexivity.
  - reflexivity.
  - reflexivity.
  - reflexivity.
Defined.

(** An active form of 50 bytes is cut to 42. *)
Lemma taskTextOf_cut_witness :
  Chat.taskTextOf longTodo
  = (substring 0 39 (taskLabel longTodo) ++ Chat.ellipsis)%string
  /\ String.length (Chat.taskTextOf longTodo) = 42.
Proof.
  apply (proj1 (proj2 (taskTextOf_cut longTodo))). vm_compute. lia.
Defined.

Lemma todoPill_shows_first_in_progress_witness :
  @Chat.todoPillContent TextRenderer.textLipgloss
    (TextRenderer.twoTodos ++ [longTodo]) "*" false TextRenderer.textTheme
  = ("*" ++ " To-Do "
     ++ Chat.progressText (countOf Session.TodoStatusCompleted
                             (TextRenderer.twoTodos ++ [longTodo]))
                          (length (TextRenderer.twoTodos ++ [longTodo]))
     ++ "  "
     ++ @Lipgloss.Render TextRenderer.textLipgloss
          (@Lipgloss.Foreground TextRenderer.textLipgloss
             (@Lipgloss.Base TextRenderer.textLipgloss TextRenderer.textTheme)
             (@Lipgloss.FgSubtle TextRenderer.textLipgloss TextRenderer.textTheme))
          (Chat.taskTextOf
             (Session.mkTodo "fix the build" Session.TodoStatusInProgress
                "Fixing the build")))%string.
Proof.
  apply (@todoPill_shows_first_in_progress TextRenderer.textLipgloss).
  vm_compute. reflexivity.
Defined.

Lemma todoPill_check_mark_iff_all_done_witness :
  @Chat.todoPillContent TextRenderer.textLipgloss doneTodos "*" false TextRenderer.textTheme
  = ((@Lipgloss.Render TextRenderer.textLipgloss
        (@Lipgloss.Foreground TextRenderer.textLipgloss
           (@Lipgloss.Base TextRenderer.textLipgloss TextRenderer.textTheme)
           (@Lipgloss.Green TextRenderer.textLipgloss TextRenderer.textTheme))
        Chat.checkMark ++ " ") ++ "To-Do "
     ++ Chat.progressText (length doneTodos) (length doneTodos))%string.
Proof.
  apply (proj2 (@todoPill_check_mark_iff_all_done TextRenderer.textLipgloss doneTodos
                  "*" false TextRenderer.textTheme)).
  vm_compute. reflexivity.
Defined.

(** An item of 72 bytes is cut to 62. *)
Lemma queueList_lines_witness :
  String.length
    (ChatPanels.cutItem
       "run the whole test suite again and report every failure in detail, please")
  = 62.
Proof.
  apply (proj2 (proj2 (proj2 (@queueList_lines TextRenderer.textLipgloss [] textPalette))
          "run the whole test suite again and report every failure in detail, please")).
  vm_compute. lia.
Defined.

Lemma addPillSpacing_intersperses_witness :
  ChatPanels.addPillSpacing ["queue"; "todos"; "jobs"]%string !! (2 * 1 + 1)
  = Some "  "%string.
Proof.
  apply (proj2 (proj2 (addPillSpacing_intersperses ["queue"; "todos"; "jobs"]%string)) 1).
  simpl. lia.
Defined.

(** Three queued: three triangles. *)
Lemma queuePill_triangles_witness :
  exists style,
    @ChatPanels.queuePill TextRenderer.textLipgloss plainGrad 3 false false textPalette
    = Some (@Lipgloss.Render TextRenderer.textLipgloss style
              (ChatPanels.Join
                 (take (Z.to_nat (Z.min 3 9))
                    (plainGrad ChatPanels.nineTriangles false tt tt)) ""
               ++ " " ++ GoStrings.fmtD (Z.to_nat 3) ++ " Queued")%string).
Proof.
  apply (proj2 (@queuePill_triangles TextRenderer.textLipgloss plainGrad
                  3 false false textPalette eq_refl)).
  lia.
Defined.

(** The todos of [saved_s1], whose contents differ, submitted as they are. *)
Lemma todos_resubmission_reports_nothing_witness :
  Tools.TodosMeta.justCompleted
    (Tools.TodosMeta.convertTodos
       (Tools.TodosMeta.oldStatusByContent (Session.Todos saved_s1))
       (map asItem (Session.Todos saved_s1))) = []
  /\ Tools.TodosMeta.justStarted
       (Tools.TodosMeta.convertTodos
          (Tools.TodosMeta.oldStatusByContent (Session.Todos saved_s1))
          (map asItem (Session.Todos saved_s1))) = ""%string.
Proof.
  apply (todos_resubmission_reports_nothing (Session.Todos saved_s1)).
  apply (bool_decide_unpack _). vm_compute. exact I.
Defined.

Lemma todosMeta_response_metadata_witness :
  exists cur md,
    Session.Get (Tools.GetSessionFromContext ctx_s1) MemoryService.oneSession = inr cur
    /\ Fantasy.Metadata
         (Fantasy.mkToolResponse "text"
            ("Todo list updated successfully." ++ Tools.nl ++ Tools.nl
             ++ "Status: 1 pending, 1 in progress, 1 completed" ++ Tools.nl)%string
            (Some (Tools.mkTodosResponseMetadata false ["write tests"%string]
                     "fix the build" 1 4))) = Some md
    /\ Tools.Total md = length (Tools.Todos MemoryService.sampleParams)
    /\ Tools.Completed md
       = countOf Session.TodoStatusCompleted
           (map Tools.toTodo (Tools.Todos MemoryService.sampleParams))
    /\ length (Tools.JustCompleted md) <= Tools.Completed md <= Tools.Total md
    /\ (Tools.IsNew md = true <-> Session.Todos cur = []).
Proof.
  apply (todosMeta_response_metadata ctx_s1 MemoryService.sampleParams
           MemoryService.oneSession {[ "s1"%string := saved_s1 ]} _
           [Tools.CallGet "s1"%string; Tools.CallSave saved_s1]).
  vm_compute. reflexivity.
Defined.

(** On a read-only store the handler returns the error of [Save]. *)
Lemma todos_success_and_calls_witness :
  @Tools.run string (gmap string (Session.Session string)) _ readOnlyService
    (Tools.handler Tools.Current ctx_s1 MemoryService.sampleParams) MemoryService.oneSession
  = (inl (Tools.wrapError "failed to save todos" "read-only store"),
     MemoryService.oneSession,
     [Tools.CallGet "s1"%string;
      Tools.CallSave
        (Session.setTodos (map Tools.toTodo (Tools.Todos MemoryService.sampleParams))
           (Session.mkSession "s1"%string
              [Session.mkTodo "write tests" Session.TodoStatusInProgress "Writing tests"]))]).
Proof.
  apply (proj2 (proj2 (@todos_success_and_calls string _ readOnlyService Tools.Current
                          ctx_s1 MemoryService.sampleParams MemoryService.oneSession))).
  - vm_compute. discriminate.
  - vm_compute. reflexivity.
  - reflexivity.
Defined.
